(** * Version propagation for the Remix monorepo ([scripts/utils.js])

    A shallow embedding of the release helpers of [scripts/utils.js] and the
    properties of the version-propagation design established on it.

    Conventions of the embedding.
    - A JavaScript string is a [string]: one [ascii] per code unit (the model
      covers the strings whose code units are below 256).
    - A value read from a JSON file is a [json]; [undefined] is [None] in
      [option json].
    - An object is the list of its own properties in the order JavaScript
      enumerates them (array-index keys in ascending order first, then the
      other keys in creation order).
    - Code that touches files, the console or git is a function from a
      [world] to a [world] and an [outcome]; a thrown exception or a rejected
      promise is [Throw]. *)

From Stdlib Require Import String Ascii List ZArith NArith Bool Lia DecimalString.
From stdpp Require Import gmap strings.
Import ListNotations.

Set Default Proof Using "Type".
Set Warnings "-register-all".


(** ** Strings *)

Module Str.

(** [s.startsWith(p)] *)
Definition startsWith (s p : string) : bool := String.prefix p s.

(** [s.split(sep)] for a one-character separator.  The result is never
    empty; it is returned as its first element and the list of the others. *)
Fixpoint split (sep : ascii) (s : string) : string * list string :=
  match s with
  | EmptyString => (EmptyString, [])
  | String c s' =>
      let (seg, rest) := split sep s' in
      if Ascii.eqb c sep then (EmptyString, seg :: rest)
      else (String c seg, rest)
  end.

(** [parts.join(sep)] *)
Fixpoint join (sep : string) (parts : list string) : string :=
  match parts with
  | [] => EmptyString
  | [x] => x
  | x :: rest => x +:+ sep +:+ join sep rest
  end.

(** [s.slice(n)] for [0 <= n] *)
Fixpoint slice (n : nat) (s : string) : string :=
  match n, s with
  | O, _ => s
  | S n', String _ s' => slice n' s'
  | S _, EmptyString => EmptyString
  end.

(** [s.includes(c)] for a one-character needle *)
Fixpoint contains (c : ascii) (s : string) : bool :=
  match s with
  | EmptyString => false
  | String c' s' => Ascii.eqb c' c || contains c s'
  end.

(** A string in a boolean position: only the empty string is falsy. *)
Definition nonempty (s : string) : bool :=
  match s with EmptyString => false | _ => true end.

(** An [undefined] component inside a template literal prints as the word
    [undefined]. *)
Definition template (x : option string) : string :=
  match x with Some s => s | None => "undefined" end.

End Str.

(** ** The package registry ([remixPackages]) *)

Module remixPackages.

Definition adapters : list string :=
  ["architect"; "cloudflare-pages"; "cloudflare-workers"; "express"].

Definition runtimes : list string := ["cloudflare"; "deno"; "node"].

Definition core : list string :=
  ["dev"; "server-runtime"; "react"; "eslint-config"; "css-bundle"; "testing"].

(** [get all() { return [...adapters, ...runtimes, ...core, "serve"] }] *)
Definition all : list string := adapters ++ runtimes ++ core ++ ["serve"].

End remixPackages.

(** [`@remix-run/${pkg}`] *)
Definition distributionName (pkg : string) : string := "@remix-run/" +:+ pkg.

(** [remixPackages.all.map((remixPackage) => `@remix-run/${remixPackage}`)] *)
Definition remixPackagesFull : list string :=
  map distributionName remixPackages.all.

(** [array.includes(x)] on an array of strings *)
Definition includes (l : list string) (x : string) : bool :=
  existsb (String.eqb x) l.

(** ** Import specifiers *)

(** [getPackageNameFromImportSpecifier] *)
Definition getPackageNameFromImportSpecifier (importSpecifier : string)
  : string * string :=
  if Str.startsWith importSpecifier "@" then
    let (scope, others) := Str.split "/" importSpecifier in
    let pkg := hd_error others in
    let path := tl others in
    (scope +:+ "/" +:+ Str.template pkg, Str.join "/" path)
  else
    let (pkg, path) := Str.split "/" importSpecifier in
    (pkg, Str.join "/" path).

(** Putting a decomposed specifier together again: the package name, then a
    slash and the subpath when the subpath is not empty. *)
Definition recombine (d : string * string) : string :=
  let (packageName, subpath) := d in
  if Str.nonempty subpath then packageName +:+ "/" +:+ subpath else packageName.

(** ** JSON values and objects *)

(** What [JSON.parse] produces.  Of the numbers the model carries the
    integers: [utils.js] computes with no number, and a boolean test asks
    only whether one is zero. *)
Inductive json : Type :=
  | JNull
  | JBool (b : bool)
  | JNum (n : Z)
  | JStr (s : string)
  | JArr (items : list json)
  | JObj (props : list (string * json)).

(** The errors the helpers can meet. *)
Inductive exn : Type :=
  | TypeError
  | ReadError (file : string)       (* the file is absent or cannot be read *)
  | SyntaxError (file : string)     (* the file is not JSON *)
  | WriteError (file : string)
  | ExecError (command : string).   (* the command exited non-zero *)

(** How a piece of code ends: with a value, or with a thrown exception. *)
Inductive outcome (A : Type) : Type :=
  | Ret (a : A)
  | Throw (e : exn).
Arguments Ret {A} a.
Arguments Throw {A} e.

Definition obind {A B} (m : outcome A) (k : A -> outcome B) : outcome B :=
  match m with
  | Ret a => k a
  | Throw e => Throw e
  end.

Declare Scope outcome_scope.
Delimit Scope outcome_scope with outcome.
Notation "'let*' x := m 'in' k" := (obind m (fun x => k))
  (at level 10, x name, m at level 100, k at level 200) : outcome_scope.
Open Scope outcome_scope.

Module Obj.

(** An array index is a canonical decimal numeral below [2^32 - 1]. *)
Definition digit (c : ascii) : option N :=
  let n := N_of_ascii c in
  if ((48 <=? n) && (n <=? 57))%N then Some (n - 48)%N else None.

Fixpoint decimal (acc : N) (s : string) : option N :=
  match s with
  | EmptyString => Some acc
  | String c s' =>
      match digit c with
      | Some d => decimal (10 * acc + d)%N s'
      | None => None
      end
  end.

Definition arrayIndex (k : string) : option N :=
  match k with
  | EmptyString => None
  | String c rest =>
      if Ascii.eqb c "0" && Str.nonempty rest then None
      else match decimal 0%N k with
           | Some n => if (n <? 2 ^ 32 - 1)%N then Some n else None
           | None => None
           end
  end.

(** [o[k]] on the own properties of an object *)
Fixpoint get (k : string) (o : list (string * json)) : option json :=
  match o with
  | [] => None
  | (k', v) :: o' => if String.eqb k' k then Some v else get k o'
  end.

(** The value of an existing property changes in place. *)
Fixpoint replace (k : string) (v : json) (o : list (string * json))
  : list (string * json) :=
  match o with
  | [] => []
  | (k', v') :: o' =>
      if String.eqb k' k then (k, v) :: o' else (k', v') :: replace k v o'
  end.

(** A new array-index key goes after the smaller array-index keys. *)
Fixpoint insertIndex (n : N) (k : string) (v : json)
    (o : list (string * json)) : list (string * json) :=
  match o with
  | [] => [(k, v)]
  | (k', v') :: o' =>
      match arrayIndex k' with
      | Some m =>
          if (m <? n)%N then (k', v') :: insertIndex n k v o'
          else (k, v) :: o
      | None => (k, v) :: o
      end
  end.

(** [o[k] = v]: an existing property keeps its place, a new one is created
    (an array index among the array indices, any other key last). *)
Definition set (k : string) (v : json) (o : list (string * json))
  : list (string * json) :=
  match get k o with
  | Some _ => replace k v o
  | None =>
      match arrayIndex k with
      | Some n => insertIndex n k v o
      | None => o ++ [(k, v)]
      end
  end.

(** [let { k, ...rest } = o]: the properties of [rest] *)
Definition without (k : string) (o : list (string * json))
  : list (string * json) :=
  List.filter (fun kv => negb (String.eqb (fst kv) k)) o.

(** [Object.fromEntries(entries)] *)
Definition fromEntries (entries : list (string * json))
  : list (string * json) :=
  fold_left (fun o kv => set (fst kv) (snd kv) o) entries [].

Definition keys (o : list (string * json)) : list string := map fst o.

(** The own keys of an object as JavaScript orders them: no key twice, an
    array index before every key that is not one, and the array indices
    ascending. *)
Definition precedes (k1 k2 : string) : bool :=
  match arrayIndex k1, arrayIndex k2 with
  | Some a, Some b => (a <? b)%N
  | Some _, None => true
  | None, None => true
  | None, Some _ => false
  end.

Fixpoint ascending (ks : list string) : bool :=
  match ks with
  | [] => true
  | k :: ks' => forallb (precedes k) ks' && ascending ks'
  end.

Definition ordered (ks : list string) : Prop :=
  NoDup ks /\ ascending ks = true.

End Obj.

(** ** Values in JavaScript positions *)

Module Js.

(** A value in a boolean position ([if (x)], [!x], [x ? a : b], [x || y]). *)
Definition truthy (x : option json) : bool :=
  match x with
  | None | Some JNull => false
  | Some (JBool b) => b
  | Some (JNum n) => negb (n =? 0)%Z
  | Some (JStr s) => Str.nonempty s
  | Some (JArr _) | Some (JObj _) => true
  end.

(** [x[k]] and [x.k] for a property name [k] that is not an array index,
    [length] or a name of a built-in prototype (true of every name
    [utils.js] reads): an own property of an object, [undefined] on an
    array or a primitive, a [TypeError] on [null] and [undefined]. *)
Definition member (x : option json) (k : string) : outcome (option json) :=
  match x with
  | None | Some JNull => Throw TypeError
  | Some (JObj o) => Ret (Obj.get k o)
  | Some _ => Ret None
  end.

(** [x?.[k]], for the same names *)
Definition optMember (x : option json) (k : string) : option json :=
  match x with
  | Some (JObj o) => Obj.get k o
  | _ => None
  end.

(** [x[k] = v], for the same names: the receiver after the assignment.  An
    object gets or changes the property.  On an array the property is one
    that neither [JSON.stringify] nor [utils.js] reads back, and on a
    primitive the assignment is dropped (the file is not in strict mode);
    [null] and [undefined] throw. *)
Definition assign (x : option json) (k : string) (v : json) : outcome json :=
  match x with
  | None | Some JNull => Throw TypeError
  | Some (JObj o) => Ret (JObj (Obj.set k v o))
  | Some j => Ret j
  end.

(** [x[f][k] = v]: the object held in [x[f]] is changed where it is, so
    [x] shows the change under [f]. *)
Definition assignIn (x : json) (f k : string) (v : json) : outcome json :=
  let* d := member (Some x) f in
  let* d' := assign d k v in
  match x with
  | JObj o => Ret (JObj (Obj.replace f d' o))
  | _ => Ret x
  end.

(** [x?.startsWith(p)]: [undefined] on [null] and [undefined], the method
    of a string, and a [TypeError] on any other value, which has no callable
    [startsWith]. *)
Definition optStartsWith (x : option json) (p : string)
  : outcome (option bool) :=
  match x with
  | None | Some JNull => Ret None
  | Some (JStr s) => Ret (Some (Str.startsWith s p))
  | Some _ => Throw TypeError
  end.

(** The own enumerable properties of a value that is not [null]: those of
    an object, the elements of an array and the characters of a string under
    their indices, none for a number or a boolean. *)
Definition indexKey (i : nat) : string :=
  DecimalString.NilZero.string_of_uint (Nat.to_uint i).

Fixpoint indexed {A} (f : A -> json) (i : nat) (l : list A)
  : list (string * json) :=
  match l with
  | [] => []
  | a :: l' => (indexKey i, f a) :: indexed f (S i) l'
  end.

Definition ownProperties (x : json) : list (string * json) :=
  match x with
  | JObj o => o
  | JArr l => indexed (fun j => j) 0 l
  | JStr s => indexed (fun c => JStr (String c EmptyString)) 0 (list_ascii_of_string s)
  | _ => []
  end.

(** [Object.entries(x)] *)
Definition entries (x : option json) : outcome (list (string * json)) :=
  match x with
  | None | Some JNull => Throw TypeError
  | Some j => Ret (ownProperties j)
  end.

(** [for (let a of l) body], the state threaded through the iterations *)
Fixpoint forOf {A S} (body : S -> A -> outcome S) (l : list A) (s : S)
  : outcome S :=
  match l with
  | [] => Ret s
  | a :: l' => let* s' := body s a in forOf body l' s'
  end.

End Js.

(** ** The manifest rewrite ([updateRemixVersion]) *)

(** [if (config[field]?.[key]) { config[field][key] = remixVersion }] *)
Definition bumpExact (field key remixVersion : string) (config : json)
  : outcome json :=
  let* d := Js.member (Some config) field in
  if Js.truthy (Js.optMember d key)
  then Js.assignIn config field key (JStr remixVersion)
  else Ret config.

(** The [peerDependencies] branch, which keeps a leading caret. *)
Definition bumpPeer (key remixVersion : string) (config : json)
  : outcome json :=
  let* d := Js.member (Some config) "peerDependencies" in
  if Js.truthy (Js.optMember d key) then
    let* old := Js.member d key in
    let* isRelaxedPeerDep := Js.optStartsWith old "^" in
    Js.assignIn config "peerDependencies" key
      (JStr ((if Js.truthy (option_map JBool isRelaxedPeerDep)
              then "^" else EmptyString) +:+ remixVersion))
  else Ret config.

(** The body of the loop over [remixPackages.all] *)
Definition bumpPackage (remixVersion : string) (config : json) (pkg : string)
  : outcome json :=
  let key := distributionName pkg in
  let* config := bumpExact "dependencies" key remixVersion config in
  let* config := bumpExact "devDependencies" key remixVersion config in
  bumpPeer key remixVersion config.

(** The function [updateRemixVersion] hands to [updatePackageConfig]: the
    manifest object after the call, or the exception that ended it. *)
Definition updateRemixVersion_transform (remixVersion : string)
    (config : json) : outcome json :=
  let* config := Js.assign (Some config) "version" (JStr remixVersion) in
  Js.forOf (bumpPackage remixVersion) remixPackages.all config.

(** ** The import-map rewrite ([updateDenoImportMap]) *)

(** The function mapped over [Object.entries(imports)] *)
Definition rewriteImport (remixVersion : string) (entry : string * json)
  : string * json :=
  let (importName, path) := entry in
  let (packageName, importPath) :=
    getPackageNameFromImportSpecifier importName in
  if includes remixPackagesFull packageName
     && negb (String.eqb importName "@remix-run/deno")
  then (importName,
        JStr ("https://esm.sh/" +:+ packageName +:+ "@" +:+ remixVersion
              +:+ (if Str.nonempty importPath then "/" +:+ importPath
                   else EmptyString)))
  else (importName, path).

(** From the document read to the document written:
    [let { imports, ...json } = doc], the new [imports], and
    [{ ...json, imports: newImports }]. *)
Definition rewriteImportMap (remixVersion : string) (doc : json)
  : outcome json :=
  let* imports := Js.member (Some doc) "imports" in
  let json := Obj.without "imports" (Js.ownProperties doc) in
  let* es := Js.entries imports in
  let newImports := Obj.fromEntries (map (rewriteImport remixVersion) es) in
  Ret (JObj (Obj.set "imports" (JObj newImports) json)).

(** ** Files, console and git *)

(** What [jsonfile.readFile] finds in a file it can read: text that is
    not JSON, or a value. *)
Inductive content : Type :=
  | Unparseable
  | Parsed (j : json).

(** The state the script runs in.  [files] holds the files of the working
    tree, which the script reads and writes through [jsonfile], by path;
    the store git keeps under [.git] is not part of it.  [writeRefused]
    and [exitsNonZero] say, for the time of one run of the script, of
    which files the write is refused and which commands fail; a refused
    write leaves the file as it was.  [console] and [commands] record,
    oldest first, the lines printed and the commands run. *)
Record world : Type := World {
  files : gmap string content;
  writeRefused : string -> bool;
  exitsNonZero : string -> bool;
  console : list string;
  commands : list string
}.

(** What the script takes from its host: the directory it lives in, and
    [path.join], [chalk.green] and [chalk.bold]. *)
Class Host : Type := {
  rootDir : string;
  path_join : list string -> string;
  chalk_green : string -> string;
  chalk_bold : string -> string
}.

(** An effectful computation: the world after it, and how it ended. *)
Definition run (A : Type) : Type := world -> world * outcome A.

Definition ret {A} (a : A) : run A := fun w => (w, Ret a).

Definition bind {A B} (m : run A) (k : A -> run B) : run B :=
  fun w =>
    match m w with
    | (w', Ret a) => k a w'
    | (w', Throw e) => (w', Throw e)
    end.

(** A pure step that may throw *)
Definition lift {A} (o : outcome A) : run A := fun w => (w, o).

(** [try { body } catch { handler }] *)
Definition tryCatch {A} (body : run A) (handler : run A) : run A :=
  fun w =>
    match body w with
    | (w', Ret a) => (w', Ret a)
    | (w', Throw _) => handler w'
    end.

Declare Scope run_scope.
Delimit Scope run_scope with run.
Notation "'let!' x := m 'in' k" := (bind m (fun x => k))
  (at level 10, x name, m at level 100, k at level 200) : run_scope.
Notation "m ';;' k" := (bind m (fun _ => k))
  (at level 100, k at level 200, right associativity) : run_scope.
Open Scope run_scope.

(** [await jsonfile.readFile(file)] *)
Definition readFile (file : string) : run json :=
  fun w =>
    match files w !! file with
    | None => (w, Throw (ReadError file))
    | Some Unparseable => (w, Throw (SyntaxError file))
    | Some (Parsed j) => (w, Ret j)
    end.

(** [await jsonfile.writeFile(file, j, { spaces: 2 })] *)
Definition writeFile (file : string) (j : json) : run unit :=
  fun w =>
    if writeRefused w file then (w, Throw (WriteError file))
    else (World (<[file := Parsed j]> (files w)) (writeRefused w)
                (exitsNonZero w) (console w) (commands w), Ret tt).

(** [console.log(line)] *)
Definition console_log (line : string) : run unit :=
  fun w =>
    (World (files w) (writeRefused w) (exitsNonZero w)
           (console w ++ [line]) (commands w), Ret tt).

(** [execSync(command)]: the command runs once, and a non-zero exit
    throws.  The commands of the script are git's: the commit and the tag
    write to git's own store, which [files] does not hold, and leave the
    working tree as it is.  What a command creates on disk is not
    followed: the world records that it ran and how it exited. *)
Definition execSync (command : string) : run unit :=
  fun w =>
    let w' := World (files w) (writeRefused w) (exitsNonZero w)
                    (console w) (commands w ++ [command]) in
    if exitsNonZero w command then (w', Throw (ExecError command))
    else (w', Ret tt).

(** [for (let a of l) { await body(a) }] *)
Fixpoint forEach {A} (body : A -> run unit) (l : list A) : run unit :=
  match l with
  | [] => ret tt
  | a :: l' => body a ;; forEach body l'
  end.

(** [await Promise.all(tasks)] for tasks that touch different files: every
    task runs, and the call rejects when one of them does, here with the
    error of the first of them in the list.  The tasks are taken one after
    the other, which for tasks on different files is one of the schedules
    and has the result of all of them. *)
Fixpoint promiseAll (tasks : list (run unit)) : run unit :=
  match tasks with
  | [] => ret tt
  | t :: ts =>
      fun w =>
        match t w with
        | (w', Ret _) => promiseAll ts w'
        | (w', Throw e) => (fst (promiseAll ts w'), Throw e)
        end
  end.

Section Script.

Context `{Host}.

(** [packageJson] *)
Definition packageJson (packageName directory : string) : string :=
  path_join [rootDir; directory; packageName; "package.json"].

(** [updatePackageConfig].  [transform] is any function: it may change the
    object it is given, which it hands back, it may do what a run does, and
    it may throw. *)
Definition updatePackageConfig (packageName : string)
    (transform : json -> run json) : run unit :=
  let file := packageJson packageName "packages" in
  tryCatch
    (let! json := readFile file in
     if negb (Js.truthy (Some json)) then
       console_log ("No package.json found for " +:+ packageName
                    +:+ "; skipping")
     else
       let! json := transform json in
       writeFile file json)
    (ret tt).

(** [successMessage || `Updated ${bold(logName)} to version ${bold(v)}`] *)
Definition successLine (packageName remixVersion : string)
    (successMessage : option string) : string :=
  let logName :=
    if Str.startsWith packageName "remix-"
    then "@remix-run/" +:+ Str.slice 6 packageName
    else packageName in
  chalk_green
    ("  " +:+
     (if Js.truthy (option_map JStr successMessage)
      then Str.template successMessage
      else "Updated " +:+ chalk_bold logName +:+ " to version "
           +:+ chalk_bold remixVersion)).

(** [updateRemixVersion] *)
Definition updateRemixVersion (packageName remixVersion : string)
    (successMessage : option string) : run unit :=
  updatePackageConfig packageName
    (fun config => lift (updateRemixVersion_transform remixVersion config)) ;;
  console_log (successLine packageName remixVersion successMessage).

(** [updateDeploymentScriptVersion] *)
Definition updateDeploymentScriptVersion (remixVersion : string)
  : run unit :=
  let file := packageJson "deployment-test" "scripts" in
  let! json := readFile file in
  let! json :=
    lift (Js.assignIn json "dependencies" "@remix-run/dev"
            (JStr remixVersion)) in
  writeFile file json ;;
  console_log
    (chalk_green
       ("  Updated Remix to version " +:+ chalk_bold remixVersion +:+ " in "
        +:+ chalk_bold "scripts/deployment-test")).

(** [updateDenoImportMap] *)
Definition updateDenoImportMap (importMapPath remixVersion : string)
  : run unit :=
  let! doc := readFile importMapPath in
  let! out := lift (rewriteImportMap remixVersion doc) in
  writeFile importMapPath out.

Definition importMapPaths : list string :=
  [path_join [".vscode"; "deno_resolve_npm_imports.json"];
   path_join ["templates"; "classic-remix-compiler"; "deno"; ".vscode";
              "resolve_npm_imports.json"]].

(** The double-quote character of the two command lines *)
Definition dquote : string := String "034"%char EmptyString.

(** [`git commit --all --message="Version ${remixVersion}"`] *)
Definition commitCommand (remixVersion : string) : string :=
  "git commit --all --message=" +:+ dquote +:+ "Version " +:+ remixVersion
  +:+ dquote.

(** [`git tag -a -m "Version ${remixVersion}" v${remixVersion}`] *)
Definition tagCommand (remixVersion : string) : string :=
  "git tag -a -m " +:+ dquote +:+ "Version " +:+ remixVersion +:+ dquote
  +:+ " v" +:+ remixVersion.

(** [incrementRemixVersion] *)
Definition incrementRemixVersion (remixVersion : string) : run unit :=
  updateRemixVersion "remix" remixVersion None ;;
  updateRemixVersion "create-remix" remixVersion None ;;
  forEach (fun name => updateRemixVersion ("remix-" +:+ name) remixVersion None)
    remixPackages.all ;;
  promiseAll
    (map (fun importMapPath =>
            updateDenoImportMap (path_join [rootDir; importMapPath])
              remixVersion)
       importMapPaths) ;;
  updateDeploymentScriptVersion remixVersion ;;
  execSync (commitCommand remixVersion) ;;
  execSync (tagCommand remixVersion) ;;
  console_log
    (chalk_green ("  Committed and tagged version " +:+ remixVersion)).

End Script.

(** ** Reading a manifest *)

(** [config[field]?.[key]]: the entry of a dependency mapping *)
Definition dependencyEntry (config : json) (field key : string)
  : option json :=
  Js.optMember (Js.optMember (Some config) field) key.

(** What the peer branch writes over the string [old] *)
Definition peerValue (remixVersion old : string) : string :=
  (if Str.startsWith old "^" then "^" else EmptyString) +:+ remixVersion.

(** What one turn of the loop makes of the entry [x] of [field] under the
    key of its package: a falsy entry stays, a truthy one gets the version
    (in [peerDependencies], behind the caret of the string it replaces). *)
Definition bumped (remixVersion field : string) (x : option json)
  : option json :=
  if Js.truthy x then
    if String.eqb field "dependencies" || String.eqb field "devDependencies"
    then Some (JStr remixVersion)
    else if String.eqb field "peerDependencies" then
      match x with
      | Some (JStr old) => Some (JStr (peerValue remixVersion old))
      | _ => x
      end
    else x
  else x.

(** The peer branch calls [startsWith] on the truthy entry it finds, which
    only a string has: the entries on which it does not throw. *)
Definition peerEntryUsable (x : option json) : bool :=
  match x with
  | Some (JStr _) => true
  | _ => negb (Js.truthy x)
  end.

(** No [peerDependencies] entry of an internal package makes the rewrite
    throw. *)
Definition peersUsable (config : json) : bool :=
  forallb
    (fun pkg =>
       peerEntryUsable
         (dependencyEntry config "peerDependencies" (distributionName pkg)))
    remixPackages.all.

(** The rewrite turns an object into an object and leaves any other value
    as it is. *)
Definition sameKind (c c' : json) : Prop :=
  c' = c \/ exists o o', c = JObj o /\ c' = JObj o'.

(** ** The decomposition of a specifier in the words of the design *)

(** The package name of a specifier: its first two slash-delimited
    segments when it starts with [@], its first segment otherwise. *)
Definition specPackageName (specifier : string) : string :=
  let (first, others) := Str.split "/" specifier in
  Str.join "/"
    (firstn (if Str.startsWith specifier "@" then 2 else 1) (first :: others)).

(** The subpath of a specifier: the remaining segments, joined by a
    slash. *)
Definition specSubpath (specifier : string) : string :=
  let (first, others) := Str.split "/" specifier in
  Str.join "/"
    (skipn (if Str.startsWith specifier "@" then 2 else 1) (first :: others)).

(** [s.endsWith(t)] *)
Fixpoint endsWith (s t : string) : bool :=
  String.eqb s t
  || match s with
     | EmptyString => false
     | String _ s' => endsWith s' t
     end.

(** ** Reading a run *)

(** A file [jsonfile.readFile] cannot give: absent, or not JSON. *)
Definition unreadable (w : world) (file : string) : Prop :=
  files w !! file = None \/ files w !! file = Some Unparseable.

(** An error that is not the failure of a command. *)
Definition notExec (e : exn) : Prop :=
  match e with
  | ExecError _ => False
  | _ => True
  end.

(** A run that only rewrites files it could read: it runs no command,
    leaves unreadable files unreadable, and does not end with the failure
    of a command. *)
Definition rewritesOnly {A} (m : run A) : Prop :=
  forall w,
    commands (fst (m w)) = commands w
    /\ writeRefused (fst (m w)) = writeRefused w
    /\ exitsNonZero (fst (m w)) = exitsNonZero w
    /\ (forall file, unreadable w file -> unreadable (fst (m w)) file)
    /\ (forall e, snd (m w) = Throw e -> notExec e).

(** A run that throws whenever [file] cannot be read. *)
Definition needs {A} (file : string) (m : run A) : Prop :=
  forall w, unreadable w file -> exists e, snd (m w) = Throw e.

Section Steps.

Context `{Host}.

(** [incrementRemixVersion] up to the comment [// Commit and tag] *)
Definition beforeCommit (remixVersion : string) : run unit :=
  updateRemixVersion "remix" remixVersion None ;;
  updateRemixVersion "create-remix" remixVersion None ;;
  forEach (fun name => updateRemixVersion ("remix-" +:+ name) remixVersion None)
    remixPackages.all ;;
  promiseAll
    (map (fun importMapPath =>
            updateDenoImportMap (path_join [rootDir; importMapPath])
              remixVersion)
       importMapPaths) ;;
  updateDeploymentScriptVersion remixVersion.

(** and from there on *)
Definition commitAndTag (remixVersion : string) : run unit :=
  execSync (commitCommand remixVersion) ;;
  execSync (tagCommand remixVersion) ;;
  console_log
    (chalk_green ("  Committed and tagged version " +:+ remixVersion)).

End Steps.

(** ** Manifests and import maps to try the rewrites on *)

Module Examples.

(** A package that depends on two internal packages and names a third as a
    caret peer. *)
Definition manifest : json :=
  JObj [("name", JStr "@remix-run/express");
        ("version", JStr "1.0.0");
        ("dependencies", JObj [("@remix-run/node", JStr "1.0.0");
                               ("express", JStr "^4.17.1")]);
        ("devDependencies", JObj [("@remix-run/dev", JStr "^1.0.0")]);
        ("peerDependencies", JObj [("@remix-run/react", JStr "^1.0.0");
                                   ("@remix-run/serve", JStr "1.0.0")])].

(** A dependency on an internal package with the empty range. *)
Definition emptyRange : json :=
  JObj [("name", JStr "remix");
        ("dependencies", JObj [("@remix-run/dev", JStr EmptyString)])].

(** A peer dependency on an internal package with the empty range. *)
Definition emptyPeerRange : json :=
  JObj [("name", JStr "remix");
        ("peerDependencies", JObj [("@remix-run/react", JStr EmptyString)])].

(** An exact peer dependency on an internal package. *)
Definition exactPeer : json :=
  JObj [("name", JStr "remix");
        ("peerDependencies", JObj [("@remix-run/react", JStr "1.0.0")])].

(** The entries of an import map *)
Definition imports : list (string * json) :=
  [("@remix-run/react", JStr "https://esm.sh/@remix-run/react@1.0.0");
   ("@remix-run/dev/server-build",
    JStr "https://esm.sh/@remix-run/dev@1.0.0/server-build");
   ("@remix-run/deno", JStr "../../packages/remix-deno/index.ts");
   ("react-dom", JStr "https://esm.sh/react-dom@18.0.0")].

(** An import map with the key [imports] first. *)
Definition importMapFields : list (string * json) :=
  [("imports", JObj imports); ("scopes", JObj [])].

Definition importMap : json := JObj importMapFields.

(** The manifest of the deployment test. *)
Definition deploymentTest : json :=
  JObj [("name", JStr "deployment-test");
        ("dependencies", JObj [("@remix-run/dev", JStr "1.0.0")])].

(** A host: the repository at [/remix], paths joined with a slash, no
    colours. *)
Definition host : Host :=
  {| rootDir := "/remix";
     path_join := Str.join "/";
     chalk_green := fun s => s;
     chalk_bold := fun s => s |}.

(** A world that refuses no write and fails no command. *)
Definition calm (fs : gmap string content) : world :=
  World fs (fun _ => false) (fun _ => false) [] [].

(** A world that refuses every write. *)
Definition readOnly (fs : gmap string content) : world :=
  World fs (fun _ => true) (fun _ => false) [] [].

(** The repository with one package. *)
Definition onePackage (config : json) : gmap string content :=
  {[ @packageJson host "remix" "packages" := Parsed config ]}.

(** The repository with one package and the two import maps. *)
Definition withImportMaps : gmap string content :=
  <[ "/remix/.vscode/deno_resolve_npm_imports.json" := Parsed importMap ]>
    (<[ "/remix/templates/classic-remix-compiler/deno/.vscode/resolve_npm_imports.json"
        := Parsed importMap ]>
       (onePackage manifest)).

(** The same with the manifest of the deployment test. *)
Definition complete : gmap string content :=
  <[ @packageJson host "deployment-test" "scripts" := Parsed deploymentTest ]>
    withImportMaps.

End Examples.

(** ** The helpers beside the release *)

Module Text.

(** The white space and the line terminators that [trim] removes, among
    the code units below 256: tab, line feed, vertical tab, form feed,
    carriage return, space and no-break space. *)
Definition isWhiteSpace (c : ascii) : bool :=
  let n := N_of_ascii c in
  ((9 <=? n) && (n <=? 13) || (n =? 32) || (n =? 160))%N.

(** [s.trimStart()] *)
Fixpoint trimStart (s : string) : string :=
  match s with
  | EmptyString => EmptyString
  | String c s' => if isWhiteSpace c then trimStart s' else s
  end.

(** [s.trimEnd()] *)
Fixpoint trimEnd (s : string) : string :=
  match s with
  | EmptyString => EmptyString
  | String c s' =>
      match trimEnd s' with
      | EmptyString =>
          if isWhiteSpace c then EmptyString else String c EmptyString
      | t => String c t
      end
  end.

(** [s.trim()] *)
Definition trim (s : string) : string := trimEnd (trimStart s).

(** The line feed *)
Definition newline : ascii := "010"%char.

(** [s.split("\n")] as one list *)
Definition lines (s : string) : list string :=
  fst (Str.split newline s) :: snd (Str.split newline s).

(** A string of white space only, and a string with something else. *)
Fixpoint blank (s : string) : bool :=
  match s with
  | EmptyString => true
  | String c s' => isWhiteSpace c && blank s'
  end.

(** The first character of [s] that is not white space *)
Definition firstInk (s : string) : option ascii :=
  match trimStart s with
  | EmptyString => None
  | String c _ => Some c
  end.

End Text.

(** What a command that exits with zero prints, in the world it runs in. *)
Class Shell : Type := {
  stdout : string -> world -> string
}.

(** How a function that may end the process ends: as any other code does,
    or by [process.exit(code)]. *)
Inductive ending (A : Type) : Type :=
  | Finished (o : outcome A)
  | Exited (code : Z).
Arguments Finished {A} o.
Arguments Exited {A} code.

(** [execSync(command).toString()] *)
Definition execOutput `{Shell} (command : string) : run string :=
  fun w =>
    let w' := World (files w) (writeRefused w) (exitsNonZero w)
                    (console w) (commands w ++ [command]) in
    if exitsNonZero w command then (w', Throw (ExecError command))
    else (w', Ret (stdout command w)).

(** [console.error(line)]: the line goes to the console as the lines of
    [console.log] do. *)
Definition console_error (line : string) : run unit := console_log line.

Definition notCleanMessage : string :=
  "Working directory is not clean. Please commit or stash your changes.".

(** The test of [ensureCleanWorkingDirectory] on one line of the status *)
Definition lineAllowed (line : string) : bool :=
  String.eqb line EmptyString || Str.startsWith line "?".

(** [ensureCleanWorkingDirectory] *)
Definition ensureCleanWorkingDirectory `{Shell} (w : world)
  : world * ending unit :=
  match execOutput "git status --porcelain" w with
  | (w1, Throw e) => (w1, Finished (Throw e))
  | (w1, Ret out) =>
      let status := Text.trim out in
      let lines := Text.lines status in
      if negb (forallb lineAllowed lines)
      then (fst (console_error notCleanMessage w1), Exited 1)
      else (w1, Finished (Ret tt))
  end.

Section Readers.

Context `{Host}.

(** [getPackageVersion] *)
Definition getPackageVersion (packageName : string) : run (option json) :=
  let file := packageJson packageName "packages" in
  let! json := readFile file in
  lift (Js.member (Some json) "version").

(** The directories under [packages] whose manifests a release updates,
    in the order of [incrementRemixVersion] *)
Definition releasePackages : list string :=
  "remix" :: "create-remix"
  :: map (fun name => "remix-" +:+ name) remixPackages.all.

(** The files a release may write *)
Definition releasePaths : list string :=
  map (fun packageName => packageJson packageName "packages") releasePackages
  ++ map (fun importMapPath => path_join [rootDir; importMapPath])
       importMapPaths
  ++ [packageJson "deployment-test" "scripts"].

End Readers.

(** ** Reading a run, continued *)

(** A run that writes no file outside [paths], creates and deletes none,
    and leaves the refusals as they are. *)
Definition confined {A} (paths : list string) (m : run A) : Prop :=
  forall w,
    writeRefused (fst (m w)) = writeRefused w
    /\ (forall file, ~ In file paths ->
          files (fst (m w)) !! file = files w !! file)
    /\ (forall file, files (fst (m w)) !! file = None
                     <-> files w !! file = None).

(** A run that always returns. *)
Definition returns {A} (m : run A) : Prop :=
  forall w, exists a, snd (m w) = Ret a.

(** A run that leaves [c'] in [file] whenever it finds [c] there and the
    write is accepted. *)
Definition rewrites {A} (file : string) (c c' : json) (m : run A) : Prop :=
  forall w,
    files w !! file = Some (Parsed c) ->
    writeRefused w file = false ->
    files (fst (m w)) !! file = Some (Parsed c').

(** The same fields in the same order. *)
Definition sameFields (c c' : json) : Prop :=
  c' = c
  \/ exists o o',
       c = JObj o /\ c' = JObj o' /\ Obj.keys o' = Obj.keys o
       /\ forall f d,
            Obj.get f o = Some (JObj d) ->
            exists d', Obj.get f o' = Some (JObj d')
                       /\ Obj.keys d' = Obj.keys d.

(** ** What a release needs to go through *)

Section Ready.

Context `{Host}.

(** An import map [updateDenoImportMap] can rewrite: an object with an
    [imports] that is not [null], in a file that may be written. *)
Definition importMapReady (w : world) (file : string) : Prop :=
  exists o x,
    files w !! file = Some (Parsed (JObj o))
    /\ Obj.get "imports" o = Some x /\ x <> JNull
    /\ writeRefused w file = false.

(** The same for the manifest of the deployment test and its
    [dependencies]. *)
Definition deploymentReady (w : world) : Prop :=
  exists o x,
    files w !! packageJson "deployment-test" "scripts"
    = Some (Parsed (JObj o))
    /\ Obj.get "dependencies" o = Some x /\ x <> JNull
    /\ writeRefused w (packageJson "deployment-test" "scripts") = false.

Definition releaseReady (remixVersion : string) (w : world) : Prop :=
  (forall importMapPath,
     In importMapPath importMapPaths ->
     importMapReady w (path_join [rootDir; importMapPath]))
  /\ deploymentReady w
  /\ exitsNonZero w (commitCommand remixVersion) = false
  /\ exitsNonZero w (tagCommand remixVersion) = false.

End Ready.

(** ** More to try the helpers on *)

Module Samples.

(** The status of a directory with one untracked file, and of one with a
    changed file before it. *)
Definition untrackedStatus : string :=
  "?? notes.txt" +:+ String Text.newline EmptyString.

Definition changedStatus : string :=
  " M package.json" +:+ String Text.newline untrackedStatus.

Definition untrackedShell : Shell := {| stdout := fun _ _ => untrackedStatus |}.

Definition changedShell : Shell := {| stdout := fun _ _ => changedStatus |}.

(** The complete repository with a file that is no part of a release. *)
Definition withReadme : gmap string content :=
  <[ "/remix/README.md" := Unparseable ]> Examples.complete.

(** A package whose manifest file holds [null]. *)
Definition nullManifest : gmap string content :=
  {[ @packageJson Examples.host "remix" "packages" := Parsed JNull ]}.

End Samples.

(** * Properties *)

(** ** Strings *)

Lemma append_cons (x : ascii) (a b : string) :
  String x a +:+ b = String x (a +:+ b).
Proof. reflexivity. Qed.

Lemma append_nil_l (s : string) : EmptyString +:+ s = s.
Proof. reflexivity. Qed.

Lemma append_assoc (a b c : string) : (a +:+ b) +:+ c = a +:+ (b +:+ c).
Proof.
  induction a as [|x a IH]; [reflexivity|]. by rewrite !append_cons, IH.
Qed.

Lemma append_cancel_l (a b c : string) : a +:+ b = a +:+ c -> b = c.
Proof.
  induction a as [|x a IH]; [done|].
  rewrite !append_cons. intros E. injection E as E. auto.
Qed.

Lemma length_append (a b : string) :
  String.length (a +:+ b) = String.length a + String.length b.
Proof.
  induction a as [|x a IH]; [reflexivity|].
  rewrite append_cons. cbn. by rewrite IH.
Qed.

Lemma nonempty_false (s : string) : Str.nonempty s = false <-> s = EmptyString.
Proof. destruct s; cbn; split; congruence. Qed.

Lemma nonempty_append_r (a b : string) :
  Str.nonempty b = true -> Str.nonempty (a +:+ b) = true.
Proof. destruct a; [by rewrite append_nil_l | by rewrite append_cons]. Qed.

(** [split] then [join] gives the string back. *)
Lemma join_split (c : ascii) (s : string) :
  Str.join (String c EmptyString) (fst (Str.split c s) :: snd (Str.split c s))
  = s.
Proof.
  induction s as [|x s IH]; [reflexivity|].
  cbn [Str.split]. destruct (Str.split c s) as [seg rest].
  cbn [fst snd] in IH.
  destruct (Ascii.eqb_spec x c) as [->|Hne]; cbn [fst snd].
  - change (Str.join (String c EmptyString) (EmptyString :: seg :: rest))
      with (EmptyString +:+ String c EmptyString
            +:+ Str.join (String c EmptyString) (seg :: rest)).
    rewrite IH. reflexivity.
  - destruct rest as [|r rest].
    + cbn in IH |- *. by rewrite IH.
    + change (Str.join (String c EmptyString) (String x seg :: r :: rest))
        with (String x seg +:+ String c EmptyString
              +:+ Str.join (String c EmptyString) (r :: rest)).
      change (Str.join (String c EmptyString) (seg :: r :: rest))
        with (seg +:+ String c EmptyString
              +:+ Str.join (String c EmptyString) (r :: rest)) in IH.
      rewrite append_cons. by rewrite IH.
Qed.

(** A string has the separator exactly when [split] finds a second part. *)
Lemma contains_split (c : ascii) (s : string) :
  Str.contains c s = true <-> snd (Str.split c s) <> [].
Proof.
  induction s as [|x s IH]; cbn [Str.contains Str.split].
  - cbn. split; [discriminate | congruence].
  - destruct (Str.split c s) as [seg rest]. cbn [snd] in IH.
    destruct (Ascii.eqb_spec x c) as [->|Hne]; cbn [snd orb].
    + split; [discriminate | reflexivity].
    + exact IH.
Qed.

Lemma append_slash_neq (a : string) : a <> a +:+ "/".
Proof.
  intros E. apply (f_equal String.length) in E.
  rewrite length_append in E. cbn in E. lia.
Qed.

(** ** Decomposing an import specifier *)

(** The recombination of a package name [p] and the joined parts [rest]
    that followed it, against the string [p/rest...] they came from. *)
Lemma recombine_join (p : string) (rest : list string) :
  let s := Str.join "/" (p :: rest) in
  recombine (p, Str.join "/" rest) = s <-> s <> p +:+ "/".
Proof.
  destruct rest as [|x rest]; cbn [recombine].
  - cbn. split; [intros _; apply append_slash_neq | done].
  - change (Str.join "/" (p :: x :: rest))
      with (p +:+ "/" +:+ Str.join "/" (x :: rest)).
    cbv zeta. destruct (Str.nonempty (Str.join "/" (x :: rest))) eqn:E.
    + split; [|done]. intros _ E'. apply append_cancel_l in E'.
      change ("/" +:+ Str.join "/" (x :: rest))
        with (String "/" (Str.join "/" (x :: rest))) in E'.
      injection E' as E'. apply nonempty_false in E'.
      exact (eq_true_false_abs _ E E').
    + apply nonempty_false in E. rewrite E. split; [|done].
      intros E'. exfalso. exact (append_slash_neq p E').
Qed.

(** C9, as the code has it: for a specifier that does not start with [@]
    or has a slash, decomposing it with [getPackageNameFromImportSpecifier]
    and recombining the two parts gives the specifier back exactly when the
    specifier is not its package name followed by one trailing slash. *)
Theorem specifier_round_trip (s : string) :
  Str.startsWith s "@" = false \/ Str.contains "/" s = true ->
  recombine (getPackageNameFromImportSpecifier s) = s
  <-> s <> fst (getPackageNameFromImportSpecifier s) +:+ "/".
Proof.
  intros Hs. unfold getPackageNameFromImportSpecifier.
  pose proof (join_split "/" s) as J.
  pose proof (contains_split "/" s) as C.
  destruct (Str.split "/" s) as [a others]. cbn [fst snd] in J, C.
  destruct (Str.startsWith s "@") eqn:At; cbn [fst].
  - destruct Hs as [Hs|Hs]; [discriminate|].
    apply C in Hs. destruct others as [|b path]; [done|].
    cbn [hd_error tl Str.template].
    assert (Str.join "/" ((a +:+ "/" +:+ b) :: path) = s) as J'.
    { rewrite <- J. destruct path as [|x path].
      - reflexivity.
      - change (Str.join "/" ((a +:+ "/" +:+ b) :: x :: path))
          with ((a +:+ "/" +:+ b) +:+ "/" +:+ Str.join "/" (x :: path)).
        change (Str.join "/" (a :: b :: x :: path))
          with (a +:+ "/" +:+ b +:+ "/" +:+ Str.join "/" (x :: path)).
        by rewrite !append_assoc. }
    rewrite <- J'. apply recombine_join.
  - rewrite <- J. apply recombine_join.
Qed.

(** C9 at a specifier with a slash: it comes back. *)
Lemma specifier_round_trip_witness :
  recombine (getPackageNameFromImportSpecifier "@remix-run/react/jsx")
  = "@remix-run/react/jsx".
Proof.
  apply (specifier_round_trip "@remix-run/react/jsx").
  - right. reflexivity.
  - vm_compute. discriminate.
Defined.

(** C9 as stated fails: a specifier that ends in the slash after its
    package name loses that slash. *)
Lemma specifier_round_trip_counterexample :
  (Str.startsWith "@remix-run/react/" "@" = false
   \/ Str.contains "/" "@remix-run/react/" = true)
  /\ getPackageNameFromImportSpecifier "@remix-run/react/"
     = ("@remix-run/react", EmptyString)
  /\ recombine (getPackageNameFromImportSpecifier "@remix-run/react/")
     <> "@remix-run/react/".
Proof.
  split; [right; reflexivity|]. split; [reflexivity|].
  vm_compute. discriminate.
Qed.

(** ** Objects *)

Lemma get_replace_eq k v o :
  Obj.get k o <> None -> Obj.get k (Obj.replace k v o) = Some v.
Proof.
  induction o as [|[k' v'] o IH]; cbn; [done|].
  destruct (String.eqb_spec k' k) as [->|Hne]; cbn.
  - by rewrite String.eqb_refl.
  - destruct (String.eqb_spec k' k); [done | auto].
Qed.

Lemma get_replace_ne k k' v o :
  k <> k' -> Obj.get k' (Obj.replace k v o) = Obj.get k' o.
Proof.
  intros Hne. induction o as [|[k1 v1] o IH]; cbn; [done|].
  destruct (String.eqb_spec k1 k) as [->|Hne1]; cbn.
  - destruct (String.eqb_spec k k'); [done | reflexivity].
  - by rewrite IH.
Qed.

Lemma replace_same k v o : Obj.get k o = Some v -> Obj.replace k v o = o.
Proof.
  induction o as [|[k' v'] o IH]; cbn; [done|].
  destruct (String.eqb_spec k' k) as [->|Hne]; [congruence|].
  intros E. by rewrite IH.
Qed.

Lemma get_app k o1 o2 :
  Obj.get k (o1 ++ o2)
  = match Obj.get k o1 with Some v => Some v | None => Obj.get k o2 end.
Proof.
  induction o1 as [|[k' v'] o1 IH]; cbn; [done|].
  by destruct (String.eqb k' k).
Qed.

Lemma get_insertIndex_eq n k v o :
  Obj.get k o = None -> Obj.get k (Obj.insertIndex n k v o) = Some v.
Proof.
  induction o as [|[k' v'] o IH]; cbn.
  - by rewrite String.eqb_refl.
  - destruct (String.eqb_spec k' k) as [->|Hne]; [done|]. intros E.
    destruct (Obj.arrayIndex k') as [m|]; [destruct (m <? n)%N|]; cbn;
      rewrite ?String.eqb_refl; auto.
    destruct (String.eqb_spec k' k); [done | auto].
Qed.

Lemma get_insertIndex_ne n k k' v o :
  k <> k' -> Obj.get k' (Obj.insertIndex n k v o) = Obj.get k' o.
Proof.
  intros Hne. induction o as [|[k1 v1] o IH]; cbn.
  - by destruct (String.eqb_spec k k').
  - destruct (Obj.arrayIndex k1) as [m|]; [destruct (m <? n)%N|]; cbn;
      rewrite ?IH; try reflexivity;
      by destruct (String.eqb_spec k k').
Qed.

(** Reading a property that was just written *)
Lemma get_set_eq k v o : Obj.get k (Obj.set k v o) = Some v.
Proof.
  unfold Obj.set. destruct (Obj.get k o) eqn:E.
  - apply get_replace_eq. congruence.
  - destruct (Obj.arrayIndex k).
    + by apply get_insertIndex_eq.
    + rewrite get_app, E. cbn. by rewrite String.eqb_refl.
Qed.

(** Writing a property leaves the others as they were. *)
Lemma get_set_ne k k' v o : k <> k' -> Obj.get k' (Obj.set k v o) = Obj.get k' o.
Proof.
  intros Hne. unfold Obj.set. destruct (Obj.get k o) eqn:E.
  - by apply get_replace_ne.
  - destruct (Obj.arrayIndex k).
    + by apply get_insertIndex_ne.
    + rewrite get_app. destruct (Obj.get k' o); [done|]. cbn.
      by destruct (String.eqb_spec k k').
Qed.

(** Writing the value a property already has changes nothing. *)
Lemma set_same k v o : Obj.get k o = Some v -> Obj.set k v o = o.
Proof. intros E. unfold Obj.set. rewrite E. by apply replace_same. Qed.

(** ** One assignment of the manifest rewrite *)

Lemma member_defined c f :
  c <> JNull -> Js.member (Some c) f = Ret (Js.optMember (Some c) f).
Proof. by destruct c. Qed.

(** A truthy entry sits in an object held by an object. *)
Lemma entry_truthy c f k :
  Js.truthy (dependencyEntry c f k) = true ->
  exists o d x,
    c = JObj o /\ Obj.get f o = Some (JObj d) /\ Obj.get k d = Some x
    /\ Js.truthy (Some x) = true.
Proof.
  unfold dependencyEntry. destruct c as [| | | | |o]; cbn; try done.
  destruct (Obj.get f o) as [[| | | | |d]|] eqn:E; cbn; try done.
  destruct (Obj.get k d) as [x|] eqn:E'; cbn; [|done]. eauto 10.
Qed.

Lemma assignIn_obj o f d k v :
  Obj.get f o = Some (JObj d) ->
  Js.assignIn (JObj o) f k v
  = Ret (JObj (Obj.replace f (JObj (Obj.set k v d)) o)).
Proof. intros E. unfold Js.assignIn. cbn. by rewrite E. Qed.

Lemma entry_replace o f d' f' k' :
  Obj.get f o <> None ->
  dependencyEntry (JObj (Obj.replace f (JObj d') o)) f' k'
  = if String.eqb f' f then Obj.get k' d' else dependencyEntry (JObj o) f' k'.
Proof.
  intros E. unfold dependencyEntry. cbn.
  destruct (String.eqb_spec f' f) as [->|Hne].
  - by rewrite get_replace_eq.
  - by rewrite get_replace_ne.
Qed.

Lemma optMember_replace o f x f' :
  f' <> f ->
  Js.optMember (Some (JObj (Obj.replace f x o))) f'
  = Js.optMember (Some (JObj o)) f'.
Proof. intros Hne. cbn. by rewrite get_replace_ne. Qed.

(** What [x[f][k] = v] changes when [x[f]?.[k]] is truthy: that entry, and
    nothing else. *)
Lemma assignIn_spec c f k v :
  Js.truthy (dependencyEntry c f k) = true ->
  exists c',
    Js.assignIn c f k v = Ret c' /\ c' <> JNull
    /\ (forall f' k',
          dependencyEntry c' f' k'
          = if String.eqb f' f && String.eqb k' k then Some v
            else dependencyEntry c f' k')
    /\ (forall f', f' <> f ->
          Js.optMember (Some c') f' = Js.optMember (Some c) f').
Proof.
  intros T. destruct (entry_truthy _ _ _ T) as (o & d & x & -> & Ef & Ek & _).
  eexists. split; [by apply assignIn_obj|]. split; [done|]. split.
  - intros f' k'. rewrite entry_replace by congruence.
    destruct (String.eqb_spec f' f) as [->|Hne]; cbn [andb]; [|done].
    destruct (String.eqb_spec k' k) as [->|Hne].
    + apply get_set_eq.
    + unfold dependencyEntry. cbn. rewrite Ef. cbn. by apply get_set_ne.
  - intros f' Hne. by apply optMember_replace.
Qed.

(** The guarded assignment of [dependencies] and [devDependencies] *)
Lemma bumpExact_spec f k v c c' :
  bumpExact f k v c = Ret c' ->
  c <> JNull /\ c' <> JNull
  /\ (forall f' k',
        dependencyEntry c' f' k'
        = if String.eqb f' f && String.eqb k' k
             && Js.truthy (dependencyEntry c f k)
          then Some (JStr v) else dependencyEntry c f' k')
  /\ (forall f', f' <> f ->
        Js.optMember (Some c') f' = Js.optMember (Some c) f').
Proof.
  unfold bumpExact. intros E.
  assert (c <> JNull) as Hc by (intros ->; discriminate).
  rewrite member_defined in E by done. cbn [obind] in E.
  change (Js.optMember (Js.optMember (Some c) f) k)
    with (dependencyEntry c f k) in E.
  split; [done|]. destruct (Js.truthy (dependencyEntry c f k)) eqn:T.
  - destruct (assignIn_spec c f k (JStr v) T) as (c1 & E1 & N1 & S1 & F1).
    rewrite E1 in E. injection E as <-. split; [done|]. split; [|done].
    intros f' k'. rewrite S1. by rewrite andb_true_r.
  - injection E as <-. split; [done|]. split; [|done].
    intros f' k'. by rewrite andb_false_r.
Qed.

(** The guarded assignment of [peerDependencies]: it ends normally only
    over a falsy entry or a string. *)
Lemma bumpPeer_spec k v c c' :
  bumpPeer k v c = Ret c' ->
  c <> JNull /\ c' <> JNull
  /\ (Js.truthy (dependencyEntry c "peerDependencies" k) = true ->
      exists old, dependencyEntry c "peerDependencies" k = Some (JStr old))
  /\ (forall f' k',
        dependencyEntry c' f' k'
        = if String.eqb f' "peerDependencies" && String.eqb k' k
          then bumped v "peerDependencies" (dependencyEntry c f' k')
          else dependencyEntry c f' k')
  /\ (forall f', f' <> "peerDependencies" ->
        Js.optMember (Some c') f' = Js.optMember (Some c) f').
Proof.
  unfold bumpPeer. intros E.
  assert (c <> JNull) as Hc by (intros ->; discriminate).
  rewrite member_defined in E by done. cbn [obind] in E.
  change (Js.optMember (Js.optMember (Some c) "peerDependencies") k)
    with (dependencyEntry c "peerDependencies" k) in E.
  split; [done|].
  destruct (Js.truthy (dependencyEntry c "peerDependencies" k)) eqn:T.
  - destruct (entry_truthy _ _ _ T) as (o & d & x & -> & Ef & Ek & Tx).
    cbn [Js.optMember] in E. rewrite Ef in E. cbn [Js.member obind] in E.
    rewrite Ek in E.
    assert (dependencyEntry (JObj o) "peerDependencies" k = Some x) as Ex.
    { unfold dependencyEntry. cbn. by rewrite Ef. }
    destruct x as [| | |old| |]; cbn [Js.optStartsWith obind] in E;
      try discriminate.
    match type of E with
    | Js.assignIn _ _ _ ?w = _ =>
        destruct (assignIn_spec (JObj o) "peerDependencies" k w T)
          as (c1 & E1 & N1 & S1 & F1)
    end.
    rewrite E1 in E. injection E as <-. split; [done|].
    split; [intros _; eauto|]. split; [|done].
    intros f' k'. rewrite S1.
    destruct (String.eqb_spec f' "peerDependencies") as [->|];
      cbn [andb]; [|done].
    destruct (String.eqb_spec k' k) as [->|]; [|done].
    rewrite Ex. unfold bumped. rewrite Tx. cbn [String.eqb Ascii.eqb orb].
    unfold peerValue. by destruct (Str.startsWith old "^").
  - injection E as <-. split; [done|]. split; [done|]. split; [|done].
    intros f' k'.
    destruct (String.eqb_spec f' "peerDependencies") as [->|];
      cbn [andb]; [|done].
    destruct (String.eqb_spec k' k) as [->|]; [|done].
    unfold bumped. by rewrite T.
Qed.

(** ** One turn of the loop, and the loop *)

(** One turn rewrites the three entries of its package and nothing else. *)
Lemma bumpPackage_spec v c q c' :
  bumpPackage v c q = Ret c' ->
  c <> JNull /\ c' <> JNull
  /\ (Js.truthy (dependencyEntry c "peerDependencies" (distributionName q))
      = true ->
      exists old,
        dependencyEntry c "peerDependencies" (distributionName q)
        = Some (JStr old))
  /\ (forall f k,
        dependencyEntry c' f k
        = if String.eqb k (distributionName q)
          then bumped v f (dependencyEntry c f k)
          else dependencyEntry c f k)
  /\ Js.optMember (Some c') "version" = Js.optMember (Some c) "version".
Proof.
  unfold bumpPackage. intros E.
  destruct (bumpExact "dependencies" _ v c) as [c1|] eqn:E1; [|done].
  cbn [obind] in E.
  destruct (bumpExact "devDependencies" _ v c1) as [c2|] eqn:E2; [|done].
  cbn [obind] in E.
  apply bumpExact_spec in E1 as (N & N1 & S1 & F1).
  apply bumpExact_spec in E2 as (_ & N2 & S2 & F2).
  apply bumpPeer_spec in E as (_ & N3 & P & S3 & F3).
  assert (forall f k, f <> "dependencies" ->
            dependencyEntry c1 f k = dependencyEntry c f k) as K1.
  { intros f k Hf. rewrite S1. apply String.eqb_neq in Hf. by rewrite Hf. }
  assert (forall f k, f <> "devDependencies" ->
            dependencyEntry c2 f k = dependencyEntry c1 f k) as K2.
  { intros f k Hf. rewrite S2. apply String.eqb_neq in Hf. by rewrite Hf. }
  assert (forall f k, f <> "peerDependencies" ->
            dependencyEntry c' f k = dependencyEntry c2 f k) as K3.
  { intros f k Hf. rewrite S3. apply String.eqb_neq in Hf. by rewrite Hf. }
  split; [done|]. split; [done|]. split; [|split].
  - rewrite K2, K1 in P by done. exact P.
  - intros f k. destruct (String.eqb_spec k (distributionName q)) as [->|Hk].
    + destruct (String.eqb_spec f "dependencies") as [->|Hd].
      { rewrite K3, K2, S1 by done. rewrite !String.eqb_refl. cbn [andb].
        unfold bumped. by destruct (Js.truthy _). }
      destruct (String.eqb_spec f "devDependencies") as [->|Hv].
      { rewrite K3, S2, !K1 by done. rewrite !String.eqb_refl. cbn [andb].
        unfold bumped. by destruct (Js.truthy _). }
      destruct (String.eqb_spec f "peerDependencies") as [->|Hp].
      { rewrite S3, K2, K1 by done. by rewrite !String.eqb_refl. }
      rewrite K3, K2, K1 by done. unfold bumped.
      apply String.eqb_neq in Hd, Hv, Hp. rewrite Hd, Hv, Hp. cbn [orb].
      by destruct (Js.truthy (dependencyEntry c f (distributionName q))).
    + apply String.eqb_neq in Hk.
      rewrite S3, S2, !S1. rewrite !Hk, !andb_false_r. by cbn [andb].
  - rewrite F3, F2, F1; done.
Qed.

Lemma forOf_app {A S} (body : S -> A -> outcome S) l1 l2 s :
  Js.forOf body (l1 ++ l2) s
  = let* s' := Js.forOf body l1 s in Js.forOf body l2 s'.
Proof.
  revert s. induction l1 as [|a l1 IH]; intros s; cbn; [done|].
  destruct (body s a); cbn; [apply IH | done].
Qed.

Lemma distributionName_inj p q :
  distributionName p = distributionName q -> p = q.
Proof. apply append_cancel_l. Qed.

(** The turns of other packages leave the entries of a key alone. *)
Lemma forOf_frame v l c c' k :
  Js.forOf (bumpPackage v) l c = Ret c' ->
  (forall q, In q l -> distributionName q <> k) ->
  (c <> JNull -> c' <> JNull)
  /\ (forall f, dependencyEntry c' f k = dependencyEntry c f k)
  /\ Js.optMember (Some c') "version" = Js.optMember (Some c) "version".
Proof.
  revert c. induction l as [|q l IH]; intros c E Hk; cbn in E.
  - by injection E as <-.
  - destruct (bumpPackage v c q) as [c1|] eqn:E1; [|done]. cbn in E.
    apply bumpPackage_spec in E1 as (N & N1 & _ & S1 & V1).
    apply IH in E as (N' & S' & V'); [|intros; apply Hk; by right].
    split; [auto|]. split; [|congruence].
    intros f. rewrite S', S1.
    destruct (String.eqb_spec k (distributionName q)) as [->|]; [|done].
    exfalso. apply (Hk q); [by left | done].
Qed.

Lemma all_NoDup : NoDup remixPackages.all.
Proof. apply (bool_decide_unpack _). vm_compute. reflexivity. Qed.

(** After the loop, the three entries of every internal package are what
    its turn made of them. *)
Lemma loop_spec v c c' p :
  Js.forOf (bumpPackage v) remixPackages.all c = Ret c' ->
  In p remixPackages.all ->
  c <> JNull /\ c' <> JNull
  /\ (Js.truthy (dependencyEntry c "peerDependencies" (distributionName p))
      = true ->
      exists old,
        dependencyEntry c "peerDependencies" (distributionName p)
        = Some (JStr old))
  /\ (forall f,
        dependencyEntry c' f (distributionName p)
        = bumped v f (dependencyEntry c f (distributionName p)))
  /\ Js.optMember (Some c') "version" = Js.optMember (Some c) "version".
Proof.
  intros E Hin. pose proof all_NoDup as ND.
  destruct (in_split _ _ Hin) as (l1 & l2 & Hl). rewrite Hl in E, ND.
  rewrite forOf_app in E.
  destruct (Js.forOf (bumpPackage v) l1 c) as [c1|] eqn:E1; [|done].
  cbn [obind Js.forOf] in E.
  destruct (bumpPackage v c1 p) as [c2|] eqn:E2; [|done]. cbn [obind] in E.
  apply NoDup_app in ND as (ND1 & ND12 & ND2).
  apply NoDup_cons in ND2 as (ND2 & _).
  pose proof (bumpPackage_spec _ _ _ _ E2) as (Nc1 & _).
  assert (c <> JNull) as Nc.
  { intros ->. destruct l1; cbn in E1; [by injection E1 as <-|].
    unfold bumpPackage, bumpExact in E1. by cbn in E1. }
  apply forOf_frame with (k := distributionName p) in E1 as (N1 & S1 & V1).
  2:{ intros q Hq Eq. apply distributionName_inj in Eq. subst q.
      apply (ND12 p); [by apply list_elem_of_In | by left]. }
  apply bumpPackage_spec in E2 as (_ & N2 & P & S2 & V2).
  apply forOf_frame with (k := distributionName p) in E as (N3 & S3 & V3).
  2:{ intros q Hq Eq. apply distributionName_inj in Eq. subst q.
      apply ND2. by apply list_elem_of_In. }
  split; [done|]. split; [auto|]. split; [|split].
  - by rewrite S1 in P.
  - intros f. rewrite S3, S2, S1. by rewrite String.eqb_refl.
  - congruence.
Qed.

(** ** The whole manifest rewrite *)

Lemma assign_version v c :
  c <> JNull ->
  exists c0,
    Js.assign (Some c) "version" (JStr v) = Ret c0 /\ c0 <> JNull
    /\ (forall f k, f <> "version" ->
          dependencyEntry c0 f k = dependencyEntry c f k)
    /\ (forall o0, c0 = JObj o0 -> Obj.get "version" o0 = Some (JStr v)).
Proof.
  intros N. destruct c as [| | | | |o]; try done;
    try (eexists; split; [reflexivity|]; split; [done|]; split; done).
  eexists. split; [reflexivity|]. split; [done|]. split.
  - intros f k Hf. unfold dependencyEntry. cbn. by rewrite get_set_ne.
  - intros o0 [= <-]. apply get_set_eq.
Qed.

(** [updateRemixVersion_transform] on the entries of an internal package *)
Lemma transform_spec v c c' p :
  updateRemixVersion_transform v c = Ret c' ->
  In p remixPackages.all ->
  c <> JNull /\ c' <> JNull
  /\ (forall f, f <> "version" ->
        dependencyEntry c' f (distributionName p)
        = bumped v f (dependencyEntry c f (distributionName p)))
  /\ (Js.truthy (dependencyEntry c "peerDependencies" (distributionName p))
      = true ->
      exists old,
        dependencyEntry c "peerDependencies" (distributionName p)
        = Some (JStr old))
  /\ (forall o', c' = JObj o' -> Obj.get "version" o' = Some (JStr v)).
Proof.
  unfold updateRemixVersion_transform. intros E Hin.
  assert (c <> JNull) as N by (intros ->; discriminate).
  destruct (assign_version v c N) as (c0 & E0 & N0 & S0 & V0).
  rewrite E0 in E. cbn [obind] in E.
  destruct (loop_spec _ _ _ _ E Hin) as (_ & N' & P & S & V).
  split; [done|]. split; [done|]. split; [|split].
  - intros f Hf. by rewrite S, S0.
  - by rewrite S0 in P.
  - intros o' ->. cbn in V. rewrite V. destruct c0; try done.
    cbn. by apply V0.
Qed.

Lemma bumpExact_returns f k v c :
  c <> JNull -> exists c', bumpExact f k v c = Ret c'.
Proof.
  intros N. unfold bumpExact. rewrite member_defined by done. cbn [obind].
  change (Js.optMember (Js.optMember (Some c) f) k)
    with (dependencyEntry c f k).
  destruct (Js.truthy (dependencyEntry c f k)) eqn:T; [|eauto].
  destruct (assignIn_spec c f k (JStr v) T) as (c' & E & _). eauto.
Qed.

Lemma bumpPeer_returns k v c :
  c <> JNull ->
  peerEntryUsable (dependencyEntry c "peerDependencies" k) = true ->
  exists c', bumpPeer k v c = Ret c'.
Proof.
  intros N U. unfold bumpPeer. rewrite member_defined by done. cbn [obind].
  change (Js.optMember (Js.optMember (Some c) "peerDependencies") k)
    with (dependencyEntry c "peerDependencies" k).
  destruct (Js.truthy (dependencyEntry c "peerDependencies" k)) eqn:T;
    [|eauto].
  destruct (entry_truthy _ _ _ T) as (o & d & x & -> & Ef & Ek & Tx).
  assert (dependencyEntry (JObj o) "peerDependencies" k = Some x) as Ex.
  { unfold dependencyEntry. cbn. by rewrite Ef. }
  cbn [Js.optMember]. rewrite Ef. cbn [Js.member obind]. rewrite Ek.
  rewrite Ex in U. unfold peerEntryUsable in U.
  destruct x as [| | |old| |]; try (rewrite Tx in U; discriminate).
  cbn [Js.optStartsWith obind].
  match goal with
  | |- exists _, Js.assignIn _ _ _ ?w = _ =>
      destruct (assignIn_spec (JObj o) "peerDependencies" k w T)
        as (c' & E & _)
  end.
  eauto.
Qed.

Lemma bumpPackage_returns v c q :
  c <> JNull ->
  peerEntryUsable
    (dependencyEntry c "peerDependencies" (distributionName q)) = true ->
  exists c', bumpPackage v c q = Ret c'.
Proof.
  intros N U. unfold bumpPackage.
  destruct (bumpExact_returns "dependencies" (distributionName q) v c N)
    as (c1 & E1).
  rewrite E1. cbn [obind].
  apply bumpExact_spec in E1 as (_ & N1 & S1 & _).
  destruct (bumpExact_returns "devDependencies" (distributionName q) v c1 N1)
    as (c2 & E2).
  rewrite E2. cbn [obind].
  apply bumpExact_spec in E2 as (_ & N2 & S2 & _).
  apply bumpPeer_returns; [done|]. rewrite S2, !S1. exact U.
Qed.

Lemma usable_bumped v f x :
  peerEntryUsable x = true -> peerEntryUsable (bumped v f x) = true.
Proof.
  intros U. unfold bumped. destruct (Js.truthy x) eqn:T; [|done].
  destruct x as [[| | |old| |]|]; cbn in U, T;
    try congruence; try (rewrite T in U; discriminate).
  destruct (String.eqb f "dependencies" || String.eqb f "devDependencies");
    [done|].
  by destruct (String.eqb f "peerDependencies").
Qed.

Lemma loop_returns v l c :
  c <> JNull ->
  (forall q, In q l ->
     peerEntryUsable
       (dependencyEntry c "peerDependencies" (distributionName q)) = true) ->
  exists c', Js.forOf (bumpPackage v) l c = Ret c'.
Proof.
  revert c. induction l as [|q l IH]; intros c N U; cbn; [eauto|].
  destruct (bumpPackage_returns v c q N) as (c1 & E1); [apply U; by left|].
  rewrite E1. cbn [obind].
  apply bumpPackage_spec in E1 as (_ & N1 & _ & S1 & _).
  apply IH; [done|]. intros q' Hq'. rewrite S1.
  destruct (String.eqb _ _); [apply usable_bumped|]; apply U; by right.
Qed.

(** The rewrite ends normally on every manifest whose peer entries it can
    read. *)
Lemma transform_returns v c :
  c <> JNull -> peersUsable c = true ->
  exists c', updateRemixVersion_transform v c = Ret c'.
Proof.
  intros N U. unfold updateRemixVersion_transform.
  destruct (assign_version v c N) as (c0 & E0 & N0 & S0 & _).
  rewrite E0. cbn [obind]. apply loop_returns; [done|].
  intros q Hq. rewrite S0 by done.
  unfold peersUsable in U. rewrite forallb_forall in U. by apply U.
Qed.

(** ** Dependencies after the rewrite *)

Lemma in_all_dev : In "dev" remixPackages.all.
Proof. cbn. auto 20. Qed.

Lemma in_all_react : In "react" remixPackages.all.
Proof. cbn. auto 20. Qed.

(** C1, as the code has it: for every internal package [p] and version
    [v], when the manifest holds a truthy value (for a string, a non-empty
    one) under the distribution name of [p] in [dependencies] or
    [devDependencies], and no [peerDependencies] entry of an internal
    package is a truthy value other than a string, the rewrite ends
    normally and leaves exactly [v] in that entry. *)
Theorem dependency_pinned (p remixVersion field : string) (config : json) :
  In p remixPackages.all ->
  field = "dependencies" \/ field = "devDependencies" ->
  peersUsable config = true ->
  Js.truthy (dependencyEntry config field (distributionName p)) = true ->
  exists config',
    updateRemixVersion_transform remixVersion config = Ret config'
    /\ dependencyEntry config' field (distributionName p)
       = Some (JStr remixVersion).
Proof.
  intros Hin Hf U T.
  assert (config <> JNull) as N by (intros ->; discriminate).
  destruct (transform_returns remixVersion config N U) as (config' & E).
  exists config'. split; [done|].
  destruct (transform_spec _ _ _ _ E Hin) as (_ & _ & S & _).
  rewrite S by (destruct Hf as [->| ->]; discriminate).
  unfold bumped. rewrite T. by destruct Hf as [->| ->].
Qed.

(** C1 on a manifest with a caret range in [devDependencies]. *)
Lemma dependency_pinned_witness :
  exists config',
    updateRemixVersion_transform "2.0.0" Examples.manifest = Ret config'
    /\ dependencyEntry config' "devDependencies" (distributionName "dev")
       = Some (JStr "2.0.0").
Proof.
  apply (dependency_pinned "dev" "2.0.0" "devDependencies" Examples.manifest).
  - cbn. auto 20.
  - right. reflexivity.
  - vm_compute. reflexivity.
  - vm_compute. reflexivity.
Defined.

(** C1 as stated fails: a [dependencies] entry that holds the empty string
    is there, and the rewrite leaves it empty. *)
Lemma dependency_pinned_counterexample :
  In "dev" remixPackages.all
  /\ dependencyEntry Examples.emptyRange "dependencies"
       (distributionName "dev") = Some (JStr EmptyString)
  /\ exists config',
       updateRemixVersion_transform "2.0.0" Examples.emptyRange = Ret config'
       /\ dependencyEntry config' "dependencies" (distributionName "dev")
          <> Some (JStr "2.0.0").
Proof.
  split; [apply in_all_dev|]. split; [reflexivity|].
  eexists. split; [vm_compute; reflexivity|]. vm_compute. discriminate.
Qed.

Lemma caret_neq (v : string) : v <> "^" +:+ v.
Proof.
  intros E. apply (f_equal String.length) in E.
  rewrite length_append in E. cbn in E. lia.
Qed.

(** C2, as the code has it: for every internal package [p] and version
    [v], when the manifest holds a non-empty string under the distribution
    name of [p] in [peerDependencies], and no [peerDependencies] entry of an
    internal package is a truthy value other than a string, the rewrite
    ends normally and the entry becomes [^v] if the string began with a
    caret and [v] otherwise; it is [^v] exactly when the string began with
    a caret. *)
Theorem peer_caret_preserved (p remixVersion old : string) (config : json) :
  In p remixPackages.all ->
  peersUsable config = true ->
  dependencyEntry config "peerDependencies" (distributionName p)
  = Some (JStr old) ->
  Str.nonempty old = true ->
  exists config',
    updateRemixVersion_transform remixVersion config = Ret config'
    /\ dependencyEntry config' "peerDependencies" (distributionName p)
       = Some (JStr (if Str.startsWith old "^" then "^" +:+ remixVersion
                     else remixVersion))
    /\ (dependencyEntry config' "peerDependencies" (distributionName p)
        = Some (JStr ("^" +:+ remixVersion))
        <-> Str.startsWith old "^" = true).
Proof.
  intros Hin U Eold T.
  assert (config <> JNull) as N.
  { intros ->. discriminate. }
  destruct (transform_returns remixVersion config N U) as (config' & E).
  exists config'. split; [done|].
  destruct (transform_spec _ _ _ _ E Hin) as (_ & _ & S & _).
  assert (dependencyEntry config' "peerDependencies" (distributionName p)
          = Some (JStr (if Str.startsWith old "^" then "^" +:+ remixVersion
                        else remixVersion))) as R.
  { rewrite S by discriminate. rewrite Eold. unfold bumped. cbn [Js.truthy].
    rewrite T. cbn [String.eqb Ascii.eqb Bool.eqb orb]. unfold peerValue.
    by destruct (Str.startsWith old "^"). }
  split; [done|]. rewrite R.
  destruct (Str.startsWith old "^"); split; try done.
  intros [= E']. exfalso. exact (caret_neq _ E').
Qed.

(** A truthy peer entry that is not a string ends the rewrite with a
    [TypeError], whatever the other mappings hold. *)
Example transform_throws_on_numeric_peer :
  updateRemixVersion_transform "2.0.0"
    (JObj [("dependencies", JObj [("@remix-run/dev", JStr "1.0.0")]);
           ("peerDependencies", JObj [("@remix-run/react", JNum 1)])])
  = Throw TypeError.
Proof. reflexivity. Qed.

(** C2 on a caret peer: the caret stays. *)
Lemma peer_caret_preserved_witness :
  exists config',
    updateRemixVersion_transform "2.0.0" Examples.manifest = Ret config'
    /\ dependencyEntry config' "peerDependencies" (distributionName "react")
       = Some (JStr "^2.0.0")
    /\ (dependencyEntry config' "peerDependencies" (distributionName "react")
        = Some (JStr "^2.0.0")
        <-> Str.startsWith "^1.0.0" "^" = true).
Proof.
  apply (peer_caret_preserved "react" "2.0.0" "^1.0.0" Examples.manifest).
  - cbn. auto 20.
  - vm_compute. reflexivity.
  - vm_compute. reflexivity.
  - reflexivity.
Defined.

(** C2 as stated fails: a [peerDependencies] entry that holds the empty
    string does not begin with a caret, and the rewrite leaves it empty
    instead of writing the version. *)
Lemma peer_caret_preserved_counterexample :
  In "react" remixPackages.all
  /\ dependencyEntry Examples.emptyPeerRange "peerDependencies"
       (distributionName "react") = Some (JStr EmptyString)
  /\ Str.startsWith EmptyString "^" = false
  /\ exists config',
       updateRemixVersion_transform "2.0.0" Examples.emptyPeerRange
       = Ret config'
       /\ dependencyEntry config' "peerDependencies" (distributionName "react")
          <> Some (JStr "2.0.0").
Proof.
  split; [apply in_all_react|]. split; [reflexivity|]. split; [reflexivity|].
  eexists. split; [vm_compute; reflexivity|]. vm_compute. discriminate.
Qed.

(** ** Rewriting a rewritten manifest *)

Lemma startsWith_caret v : Str.startsWith ("^" +:+ v) "^" = true.
Proof. by destruct v. Qed.

Lemma bumpExact_fix f k v c :
  c <> JNull ->
  Js.truthy (dependencyEntry c f k) = false
  \/ dependencyEntry c f k = Some (JStr v) ->
  bumpExact f k v c = Ret c.
Proof.
  intros N D. unfold bumpExact. rewrite member_defined by done.
  cbn [obind].
  change (Js.optMember (Js.optMember (Some c) f) k)
    with (dependencyEntry c f k).
  destruct (Js.truthy (dependencyEntry c f k)) eqn:T; [|done].
  destruct D as [D|D]; [done|].
  destruct (entry_truthy _ _ _ T) as (o & d & x & -> & Ef & Ek & _).
  unfold dependencyEntry in D. cbn in D. rewrite Ef in D. cbn in D.
  rewrite (assignIn_obj _ _ _ _ _ Ef).
  rewrite (set_same _ _ _ D). by rewrite (replace_same _ _ _ Ef).
Qed.

Lemma bumpPeer_fix k v c :
  c <> JNull ->
  Str.startsWith v "^" = false ->
  Js.truthy (dependencyEntry c "peerDependencies" k) = false
  \/ dependencyEntry c "peerDependencies" k = Some (JStr v)
  \/ dependencyEntry c "peerDependencies" k = Some (JStr ("^" +:+ v)) ->
  bumpPeer k v c = Ret c.
Proof.
  intros N Hv D. unfold bumpPeer. rewrite member_defined by done.
  cbn [obind].
  change (Js.optMember (Js.optMember (Some c) "peerDependencies") k)
    with (dependencyEntry c "peerDependencies" k).
  destruct (Js.truthy (dependencyEntry c "peerDependencies" k)) eqn:T;
    [|done].
  destruct (entry_truthy _ _ _ T) as (o & d & x & -> & Ef & Ek & _).
  unfold dependencyEntry in D. cbn in D. rewrite Ef in D. cbn in D.
  cbn [Js.optMember]. rewrite Ef. cbn [Js.member obind]. rewrite Ek.
  assert (forall w, Obj.get k d = Some w ->
            Js.assignIn (JObj o) "peerDependencies" k w = Ret (JObj o)) as A.
  { intros w Ew. rewrite (assignIn_obj _ _ _ _ _ Ef).
    rewrite (set_same _ _ _ Ew). by rewrite (replace_same _ _ _ Ef). }
  destruct D as [D|[D|D]]; [done| |].
  - rewrite Ek in D. injection D as ->. cbn [Js.optStartsWith obind].
    rewrite Hv. cbn [option_map Js.truthy]. by apply A.
  - rewrite Ek in D. injection D as ->. cbn [Js.optStartsWith obind].
    rewrite startsWith_caret. cbn [option_map Js.truthy]. by apply A.
Qed.

(** What one turn leaves in the entries of its package is stable. *)
Lemma bumped_exact_settled v f x :
  f = "dependencies" \/ f = "devDependencies" ->
  Js.truthy (bumped v f x) = false \/ bumped v f x = Some (JStr v).
Proof.
  intros Hf. unfold bumped. destruct (Js.truthy x) eqn:T; [|by left].
  right. by destruct Hf as [->| ->].
Qed.

Lemma bumped_peer_settled v x :
  (Js.truthy x = true -> exists old, x = Some (JStr old)) ->
  Js.truthy (bumped v "peerDependencies" x) = false
  \/ bumped v "peerDependencies" x = Some (JStr v)
  \/ bumped v "peerDependencies" x = Some (JStr ("^" +:+ v)).
Proof.
  intros P. unfold bumped. destruct (Js.truthy x) eqn:T; [|by left].
  destruct (P eq_refl) as (old & ->). right.
  cbn [String.eqb Ascii.eqb Bool.eqb orb]. unfold peerValue.
  destruct (Str.startsWith old "^"); [by right | by left].
Qed.

Lemma forOf_fix {A S} (body : S -> A -> outcome S) l s :
  (forall a, In a l -> body s a = Ret s) -> Js.forOf body l s = Ret s.
Proof.
  induction l as [|a l IH]; intros Hb; cbn; [done|].
  rewrite Hb by (by left). cbn. apply IH. intros; apply Hb; by right.
Qed.

(** A manifest the rewrite produced is one the rewrite leaves as it is,
    for a version that does not begin with a caret. *)
Lemma transform_idempotent v c c' :
  Str.startsWith v "^" = false ->
  updateRemixVersion_transform v c = Ret c' ->
  updateRemixVersion_transform v c' = Ret c'.
Proof.
  intros Hv E. unfold updateRemixVersion_transform at 1.
  assert (c' <> JNull /\
          forall o', c' = JObj o' -> Obj.get "version" o' = Some (JStr v))
    as (N' & V).
  { destruct (transform_spec _ _ _ _ E in_all_dev) as (_ & N' & _ & _ & V).
    done. }
  assert (Js.assign (Some c') "version" (JStr v) = Ret c') as ->.
  { destruct c' as [| | | | |o']; try done. cbn.
    by rewrite (set_same _ _ _ (V o' eq_refl)). }
  cbn [obind]. apply forOf_fix. intros q Hq.
  destruct (transform_spec _ _ _ _ E Hq) as (_ & _ & S & P & _).
  unfold bumpPackage.
  rewrite bumpExact_fix;
    [|done|rewrite S by discriminate; apply bumped_exact_settled; by left].
  cbn [obind].
  rewrite bumpExact_fix;
    [|done|rewrite S by discriminate; apply bumped_exact_settled; by right].
  cbn [obind].
  apply bumpPeer_fix; [done|done|].
  rewrite S by discriminate. by apply bumped_peer_settled.
Qed.

(** ** The kind of value the rewrite returns *)

Lemma sameKind_refl c : sameKind c c.
Proof. by left. Qed.

Lemma sameKind_trans c1 c2 c3 :
  sameKind c1 c2 -> sameKind c2 c3 -> sameKind c1 c3.
Proof.
  intros [->|(o1 & o2 & -> & ->)] [->|(o2' & o3 & E & ->)];
    unfold sameKind; eauto.
Qed.

Lemma sameKind_truthy c c' :
  sameKind c c' -> Js.truthy (Some c) = true -> Js.truthy (Some c') = true.
Proof. by intros [->|(o & o' & -> & ->)]. Qed.

Lemma assignIn_kind x f k v x' : Js.assignIn x f k v = Ret x' -> sameKind x x'.
Proof.
  unfold Js.assignIn. destruct x as [| | | | |o]; cbn; try discriminate.
  destruct (Js.assign (Obj.get f o) k v); cbn; [|discriminate].
  intros [= <-]. right. eauto.
Qed.

Lemma bumpExact_kind f k v c c' : bumpExact f k v c = Ret c' -> sameKind c c'.
Proof.
  unfold bumpExact. destruct (Js.member (Some c) f); cbn; [|discriminate].
  destruct (Js.truthy _); [apply assignIn_kind|].
  intros [= <-]. apply sameKind_refl.
Qed.

Lemma bumpPeer_kind k v c c' : bumpPeer k v c = Ret c' -> sameKind c c'.
Proof.
  unfold bumpPeer.
  destruct (Js.member (Some c) "peerDependencies") as [d|]; cbn;
    [|discriminate].
  destruct (Js.truthy _).
  - destruct (Js.member d k) as [old|]; cbn; [|discriminate].
    destruct (Js.optStartsWith old "^"); cbn; [|discriminate].
    apply assignIn_kind.
  - intros [= <-]. apply sameKind_refl.
Qed.

Lemma bumpPackage_kind v c q c' : bumpPackage v c q = Ret c' -> sameKind c c'.
Proof.
  unfold bumpPackage.
  destruct (bumpExact "dependencies" _ v c) as [c1|] eqn:E1; [|done].
  cbn [obind].
  destruct (bumpExact "devDependencies" _ v c1) as [c2|] eqn:E2; [|done].
  cbn [obind]. intros E3.
  apply bumpExact_kind in E1, E2. apply bumpPeer_kind in E3.
  exact (sameKind_trans _ _ _ E1 (sameKind_trans _ _ _ E2 E3)).
Qed.

Lemma transform_kind v c c' :
  updateRemixVersion_transform v c = Ret c' -> sameKind c c'.
Proof.
  unfold updateRemixVersion_transform.
  destruct (Js.assign (Some c) "version" (JStr v)) as [c0|] eqn:E0;
    [|done].
  cbn [obind]. intros E.
  assert (sameKind c c0) as K0.
  { destruct c; cbn in E0; try discriminate; injection E0 as <-;
      try apply sameKind_refl. right. eauto. }
  apply (sameKind_trans _ _ _ K0). clear E0 K0. revert c0 E.
  induction remixPackages.all as [|q l IH]; intros c0 E; cbn in E.
  - injection E as <-. apply sameKind_refl.
  - destruct (bumpPackage v c0 q) as [c1|] eqn:E1; [|done]. cbn in E.
    apply bumpPackage_kind in E1. apply IH in E.
    exact (sameKind_trans _ _ _ E1 E).
Qed.

(** ** Runs *)

Lemma rewritesOnly_ret {A} (a : A) : rewritesOnly (ret a).
Proof. intros w. cbn. repeat split; try done. Qed.

Lemma rewritesOnly_bind {A B} (m : run A) (k : A -> run B) :
  rewritesOnly m -> (forall a, rewritesOnly (k a)) -> rewritesOnly (bind m k).
Proof.
  intros Hm Hk w. unfold bind.
  destruct (Hm w) as (C & R & X & U & E).
  destruct (m w) as [w1 [a|e]]; cbn [fst snd] in *.
  - destruct (Hk a w1) as (C' & R' & X' & U' & E').
    repeat split; try congruence; auto.
  - repeat split; try done. intros e' [= <-]. by apply E.
Qed.

Lemma rewritesOnly_console_log line : rewritesOnly (console_log line).
Proof. intros w. cbn. repeat split; try done. Qed.

Lemma rewritesOnly_forEach {A} (body : A -> run unit) l :
  (forall a, rewritesOnly (body a)) -> rewritesOnly (forEach body l).
Proof.
  intros Hb. induction l as [|a l IH]; cbn [forEach].
  - apply rewritesOnly_ret.
  - apply rewritesOnly_bind; auto.
Qed.

Lemma rewritesOnly_promiseAll tasks :
  Forall rewritesOnly tasks -> rewritesOnly (promiseAll tasks).
Proof.
  induction 1 as [|t ts Ht _ IH]; cbn [promiseAll].
  - apply rewritesOnly_ret.
  - intros w. destruct (Ht w) as (C & R & X & U & E).
    destruct (t w) as [w1 [a|e]]; cbn [fst snd] in *;
      destruct (IH w1) as (C' & R' & X' & U' & E').
    + repeat split; try congruence; auto.
    + repeat split; try congruence; auto.
Qed.

(** Reading a file, computing, and writing the same file back *)
Lemma rewritesOnly_rewrite file (f : json -> outcome json) :
  (forall j e, f j = Throw e -> notExec e) ->
  rewritesOnly
    (let! j := readFile file in let! j' := lift (f j) in writeFile file j').
Proof.
  intros Hf w. unfold bind, readFile, lift, writeFile.
  destruct (files w !! file) as [[|j]|] eqn:E; cbn [fst snd];
    try (repeat split; try done; by intros e [= <-]).
  destruct (f j) as [j'|e] eqn:Ej; cbn [fst snd].
  - destruct (writeRefused w file); cbn [fst snd files];
      repeat split; try done; try (by intros e [= <-]).
    intros file' U. unfold unreadable in *. cbn [files].
    destruct (decide (file = file')) as [<-|Hne].
    + destruct U; congruence.
    + by rewrite lookup_insert_ne.
  - repeat split; try done. intros e' [= <-]. by apply (Hf j).
Qed.

Section ScriptProperties.

Context `{Host}.

(** What [updatePackageConfig] does with a transform that only computes,
    case by case: it always returns, and the file changes only when it was
    read, was truthy, was transformed without an exception and the write
    was accepted. *)
Lemma updatePackageConfig_spec packageName
    (transform : json -> outcome json) w :
  let file := packageJson packageName "packages" in
  exists w',
    updatePackageConfig packageName (fun j => lift (transform j)) w
    = (w', Ret tt)
    /\ writeRefused w' = writeRefused w
    /\ exitsNonZero w' = exitsNonZero w
    /\ commands w' = commands w
    /\ files w'
       = match files w !! file with
         | Some (Parsed json) =>
             if Js.truthy (Some json) then
               match transform json with
               | Ret json' =>
                   if writeRefused w file then files w
                   else <[file := Parsed json']> (files w)
               | Throw _ => files w
               end
             else files w
         | _ => files w
         end.
Proof.
  cbv zeta. unfold updatePackageConfig, tryCatch, bind, readFile.
  destruct (files w !! packageJson packageName "packages") as [[|json]|];
    cbn [ret]; try (eexists; repeat split; done).
  destruct (Js.truthy (Some json)); cbn [negb console_log];
    [|eexists; repeat split; done].
  unfold lift, writeFile. destruct (transform json) as [json'|e];
    [|eexists; repeat split; done].
  destruct (writeRefused w (packageJson packageName "packages"));
    eexists; repeat split; done.
Qed.

Lemma rewritesOnly_updatePackageConfig packageName
    (transform : json -> outcome json) :
  rewritesOnly (updatePackageConfig packageName (fun j => lift (transform j))).
Proof.
  intros w.
  destruct (updatePackageConfig_spec packageName transform w)
    as (w' & E & R & X & C & F).
  rewrite E. cbn [fst snd]. repeat split; try done.
  intros file U. unfold unreadable. rewrite F.
  destruct (files w !! packageJson packageName "packages")
    as [[|json]|] eqn:Ef; try done.
  destruct (Js.truthy (Some json)); [|done].
  destruct (transform json); [|done].
  destruct (writeRefused w _); [done|].
  destruct (decide (packageJson packageName "packages" = file)) as [<-|Hne].
  - destruct U; congruence.
  - by rewrite lookup_insert_ne.
Qed.

Lemma rewritesOnly_updateRemixVersion packageName v msg :
  rewritesOnly (updateRemixVersion packageName v msg).
Proof.
  apply rewritesOnly_bind;
    [apply (rewritesOnly_updatePackageConfig packageName
              (updateRemixVersion_transform v))|].
  intros _. apply rewritesOnly_console_log.
Qed.

Lemma rewriteImportMap_throws v doc e :
  rewriteImportMap v doc = Throw e -> notExec e.
Proof.
  unfold rewriteImportMap. destruct doc as [| | | | |o]; cbn;
    try (by intros [= <-]).
  destruct (Obj.get "imports" o) as [[]|]; cbn; by intros [= <-].
Qed.

Lemma rewritesOnly_updateDenoImportMap importMapPath v :
  rewritesOnly (updateDenoImportMap importMapPath v).
Proof. apply rewritesOnly_rewrite. apply rewriteImportMap_throws. Qed.

Lemma assignIn_throws x f k v e : Js.assignIn x f k v = Throw e -> notExec e.
Proof.
  unfold Js.assignIn. destruct x as [| | | | |o]; cbn;
    try (by intros [= <-]).
  destruct (Obj.get f o) as [[]|]; cbn; by intros [= <-].
Qed.

Lemma rewritesOnly_updateDeploymentScriptVersion v :
  rewritesOnly (updateDeploymentScriptVersion v).
Proof.
  intros w. unfold updateDeploymentScriptVersion, bind, readFile, lift.
  destruct (files w !! packageJson "deployment-test" "scripts")
    as [[|json]|] eqn:E; cbn [fst snd];
    try (repeat split; try done; by intros e [= <-]).
  destruct (Js.assignIn json _ _ _) as [json'|e] eqn:Ej; cbn [fst snd].
  - unfold writeFile.
    destruct (writeRefused w _); cbn [fst snd files console_log];
      repeat split; try done; try (by intros e [= <-]).
    intros file' U. unfold unreadable in *. cbn [files].
    destruct (decide (packageJson "deployment-test" "scripts" = file'))
      as [<-|Hne].
    + destruct U; congruence.
    + by rewrite lookup_insert_ne.
  - repeat split; try done. intros e' [= <-]. by apply assignIn_throws in Ej.
Qed.

Lemma needs_readFile_first {A} file (k : json -> run A) :
  needs file (let! j := readFile file in k j).
Proof.
  intros w [U|U]; unfold bind, readFile; rewrite U; cbn; eauto.
Qed.

Lemma needs_after {A B} file (m : run A) (k : run B) :
  rewritesOnly m -> needs file k -> needs file (bind m (fun _ => k)).
Proof.
  intros Hm Hk w U. unfold bind. destruct (Hm w) as (_ & _ & _ & U' & _).
  destruct (m w) as [w1 [a|e]]; cbn [fst snd] in *; [|eauto].
  apply Hk. by apply U'.
Qed.

Lemma needs_before {A B} file (m : run A) (k : A -> run B) :
  needs file m -> needs file (bind m k).
Proof.
  intros Hm w U. unfold bind. destruct (Hm w U) as (e & E).
  destruct (m w) as [w1 [a|e']]; cbn [snd] in *; [done|eauto].
Qed.

Lemma needs_promiseAll file tasks :
  Forall rewritesOnly tasks ->
  Exists (needs file) tasks ->
  needs file (promiseAll tasks).
Proof.
  intros Hr Hn. induction Hn as [t ts Ht|t ts Hts IH];
    inversion Hr as [|? ? Rt Rts]; subst; intros w U; cbn [promiseAll].
  - destruct (Ht w U) as (e & E).
    destruct (t w) as [w1 [a|e']]; cbn [snd] in *; [done|eauto].
  - destruct (Rt w) as (_ & _ & _ & U' & _).
    destruct (t w) as [w1 [a|e']]; cbn [fst snd] in *; [|eauto].
    apply IH; auto.
Qed.

Lemma incrementRemixVersion_steps v w :
  incrementRemixVersion v w
  = match beforeCommit v w with
    | (w', Ret _) => commitAndTag v w'
    | (w', Throw e) => (w', Throw e)
    end.
Proof.
  unfold incrementRemixVersion, beforeCommit, commitAndTag, bind.
  repeat match goal with
         | |- context [match ?m ?w with _ => _ end] =>
             lazymatch m with
             | execSync _ => fail
             | _ => destruct (m w) as [? [[]|?]]; [|reflexivity]
             end
         end.
  reflexivity.
Qed.

Lemma rewritesOnly_beforeCommit v : rewritesOnly (beforeCommit v).
Proof.
  unfold beforeCommit.
  apply rewritesOnly_bind; [apply rewritesOnly_updateRemixVersion|intros _].
  apply rewritesOnly_bind; [apply rewritesOnly_updateRemixVersion|intros _].
  apply rewritesOnly_bind; [|intros _].
  { apply rewritesOnly_forEach. intros.
    apply rewritesOnly_updateRemixVersion. }
  apply rewritesOnly_bind; [|intros _].
  { apply rewritesOnly_promiseAll. apply Forall_map, Forall_forall.
    intros. apply rewritesOnly_updateDenoImportMap. }
  apply rewritesOnly_updateDeploymentScriptVersion.
Qed.

(** ** Updating one manifest file *)

Lemma updateRemixVersion_spec packageName v msg w :
  updateRemixVersion packageName v msg w
  = (let w1 :=
       fst (updatePackageConfig packageName
              (fun j => lift (updateRemixVersion_transform v j)) w) in
     World (files w1) (writeRefused w1) (exitsNonZero w1)
           (console w1 ++ [successLine packageName v msg]) (commands w1),
     Ret tt).
Proof.
  unfold updateRemixVersion, bind.
  destruct (updatePackageConfig_spec packageName
              (updateRemixVersion_transform v) w) as (w1 & E & _).
  by rewrite E.
Qed.

(** C10: [updatePackageConfig] returns normally in every world and for
    every transform, whatever goes wrong while reading, parsing,
    transforming or writing; when the write is refused after a successful
    read and transform, it returns as after a successful update, and the
    file is as the transform left it. *)
Theorem updatePackageConfig_never_raises
    (packageName : string) (transform : json -> run json) (w : world) :
  snd (updatePackageConfig packageName transform w) = Ret tt
  /\ (forall json json' w1,
        files w !! packageJson packageName "packages" = Some (Parsed json) ->
        Js.truthy (Some json) = true ->
        transform json w = (w1, Ret json') ->
        writeRefused w1 (packageJson packageName "packages") = true ->
        updatePackageConfig packageName transform w = (w1, Ret tt)).
Proof.
  split.
  - unfold updatePackageConfig, tryCatch, bind, readFile.
    destruct (files w !! packageJson packageName "packages") as [[|json]|];
      cbn [ret snd]; try done.
    destruct (Js.truthy (Some json)); cbn [negb console_log snd]; [|done].
    destruct (transform json w) as [w1 [json'|e]]; [|done].
    unfold writeFile. by destruct (writeRefused w1 _).
  - intros json json' w1 Ef T Et Ew.
    unfold updatePackageConfig, tryCatch, bind, readFile, writeFile.
    rewrite Ef. cbn -[Js.truthy]. rewrite T. cbn. by rewrite Et, Ew.
Qed.


(** X5: A file that holds a falsy value ([null], [false], [0] or the empty
    string) is skipped as well, with a notice before the usual line. *)
Lemma updateRemixVersion_skips_falsy packageName v msg w json :
  files w !! packageJson packageName "packages" = Some (Parsed json) ->
  Js.truthy (Some json) = false ->
  updateRemixVersion packageName v msg w
  = (World (files w) (writeRefused w) (exitsNonZero w)
       (console w
        ++ ["No package.json found for " +:+ packageName +:+ "; skipping";
            successLine packageName v msg])
       (commands w),
     Ret tt).
Proof.
  intros Ef T. unfold updateRemixVersion, updatePackageConfig, tryCatch,
    bind, readFile.
  rewrite Ef. cbn -[Js.truthy]. rewrite T. cbn [negb].
  unfold console_log. cbn [files writeRefused exitsNonZero console commands].
  by rewrite <- app_assoc.
Qed.

(** C4, as the code has it: for a version that does not begin with a
    caret, running [updateRemixVersion] on a package a second time leaves
    every file as the first run left it. *)
Theorem updateRemixVersion_idempotent
    (packageName remixVersion : string) (msg1 msg2 : option string)
    (w : world) :
  Str.startsWith remixVersion "^" = false ->
  files (fst (updateRemixVersion packageName remixVersion msg2
                (fst (updateRemixVersion packageName remixVersion msg1 w))))
  = files (fst (updateRemixVersion packageName remixVersion msg1 w)).
Proof.
  intros Hv. rewrite !updateRemixVersion_spec. cbn [fst files].
  destruct (updatePackageConfig_spec packageName
              (updateRemixVersion_transform remixVersion) w)
    as (w1 & E1 & R1 & _ & _ & F1).
  rewrite E1. cbn [fst].
  set (w2 := World (files w1) (writeRefused w1) (exitsNonZero w1)
               (console w1 ++ [successLine packageName remixVersion msg1])
               (commands w1)).
  destruct (updatePackageConfig_spec packageName
              (updateRemixVersion_transform remixVersion) w2)
    as (w3 & E3 & _ & _ & _ & F3).
  rewrite E3. cbn [fst]. rewrite F3. cbn [files writeRefused w2].
  rewrite R1, F1.
  destruct (files w !! packageJson packageName "packages")
    as [[|json]|] eqn:Ef; rewrite ?Ef; try done.
  destruct (Js.truthy (Some json)) eqn:T; rewrite ?Ef, ?T; [|done].
  destruct (updateRemixVersion_transform remixVersion json)
    as [json'|e] eqn:Et; [|by rewrite Ef, T, Et].
  destruct (writeRefused w (packageJson packageName "packages")) eqn:Ew;
    [by rewrite Ef, T, Et|].
  rewrite lookup_insert_eq.
  rewrite (sameKind_truthy _ _ (transform_kind _ _ _ Et) T).
  rewrite (transform_idempotent _ _ _ Hv Et).
  apply insert_insert_eq.
Qed.

(** ** The release *)

Lemma needs_beforeCommit_deployment v :
  needs (packageJson "deployment-test" "scripts") (beforeCommit v).
Proof.
  unfold beforeCommit.
  apply needs_after; [apply rewritesOnly_updateRemixVersion|].
  apply needs_after; [apply rewritesOnly_updateRemixVersion|].
  apply needs_after.
  { apply rewritesOnly_forEach. intros.
    apply rewritesOnly_updateRemixVersion. }
  apply needs_after.
  { apply rewritesOnly_promiseAll. apply Forall_map, Forall_forall.
    intros. apply rewritesOnly_updateDenoImportMap. }
  apply needs_readFile_first.
Qed.

Lemma needs_beforeCommit_importMap v importMapPath :
  In importMapPath importMapPaths ->
  needs (path_join [rootDir; importMapPath]) (beforeCommit v).
Proof.
  intros Hin. unfold beforeCommit.
  apply needs_after; [apply rewritesOnly_updateRemixVersion|].
  apply needs_after; [apply rewritesOnly_updateRemixVersion|].
  apply needs_after.
  { apply rewritesOnly_forEach. intros.
    apply rewritesOnly_updateRemixVersion. }
  apply needs_before. apply needs_promiseAll.
  - apply Forall_map, Forall_forall. intros.
    apply rewritesOnly_updateDenoImportMap.
  - apply Exists_exists.
    exists (updateDenoImportMap (path_join [rootDir; importMapPath]) v).
    split; [|apply needs_readFile_first].
    apply list_elem_of_In.
    apply (in_map (fun p => updateDenoImportMap (path_join [rootDir; p]) v)).
    exact Hin.
Qed.

Lemma incrementRemixVersion_aborts v w file :
  needs file (beforeCommit v) ->
  unreadable w file ->
  exists e,
    snd (incrementRemixVersion v w) = Throw e
    /\ commands (fst (incrementRemixVersion v w)) = commands w.
Proof.
  intros Hn U. rewrite incrementRemixVersion_steps.
  destruct (Hn w U) as (e & E).
  destruct (rewritesOnly_beforeCommit v w) as (C & _).
  destruct (beforeCommit v w) as [w1 [a|e']]; cbn [fst snd] in *; [done|].
  eauto.
Qed.


(** How a release ends, and the commands it has run by then. *)
Lemma incrementRemixVersion_outcome v w :
  let commit := commitCommand v in
  let tag := tagCommand v in
  let w' := fst (incrementRemixVersion v w) in
  match snd (incrementRemixVersion v w) with
  | Ret _ =>
      commands w' = commands w ++ [commit; tag]
      /\ exitsNonZero w commit = false /\ exitsNonZero w tag = false
  | Throw e =>
      (commands w' = commands w /\ notExec e)
      \/ (commands w' = commands w ++ [commit]
          /\ e = ExecError commit /\ exitsNonZero w commit = true)
      \/ (commands w' = commands w ++ [commit; tag]
          /\ e = ExecError tag
          /\ exitsNonZero w commit = false /\ exitsNonZero w tag = true)
  end.
Proof.
  cbv zeta. rewrite incrementRemixVersion_steps.
  destruct (rewritesOnly_beforeCommit v w) as (C & _ & X & _ & E).
  destruct (beforeCommit v w) as [w1 [[]|e]];
    cbn [fst snd] in *; [|left; auto].
  unfold commitAndTag, bind, execSync, console_log. cbn [exitsNonZero].
  rewrite X, C.
  destruct (exitsNonZero w (commitCommand v)) eqn:Ec;
    cbn [fst snd commands exitsNonZero].
  - right; left. auto.
  - destruct (exitsNonZero w (tagCommand v)) eqn:Et;
      cbn [fst snd commands]; rewrite <- app_assoc; cbn [app].
    + right; right. auto.
    + auto.
Qed.

(** C5, as the code has it: the manifest updates of steps 1 and 2 never
    raise; but when the manifest of the deployment test (step 4) or one of
    the import maps (step 3) is absent or is not JSON, the release raises
    and runs neither the commit nor the tag; and it raises when the commit
    or the tag of step 5 exits non-zero. *)
Theorem manifest_steps_best_effort (remixVersion : string) (w : world) :
  (forall packageName successMessage w0,
     snd (updateRemixVersion packageName remixVersion successMessage w0)
     = Ret tt)
  /\ (unreadable w (packageJson "deployment-test" "scripts") ->
      exists e,
        snd (incrementRemixVersion remixVersion w) = Throw e
        /\ commands (fst (incrementRemixVersion remixVersion w))
           = commands w)
  /\ (forall importMapPath,
        In importMapPath importMapPaths ->
        unreadable w (path_join [rootDir; importMapPath]) ->
        exists e,
          snd (incrementRemixVersion remixVersion w) = Throw e
          /\ commands (fst (incrementRemixVersion remixVersion w))
             = commands w)
  /\ (exitsNonZero w (commitCommand remixVersion) = true
      \/ exitsNonZero w (tagCommand remixVersion) = true ->
      exists e, snd (incrementRemixVersion remixVersion w) = Throw e).
Proof.
  split; [|split; [|split]].
  - intros. by rewrite updateRemixVersion_spec.
  - apply incrementRemixVersion_aborts, needs_beforeCommit_deployment.
  - intros importMapPath Hin.
    by apply incrementRemixVersion_aborts, needs_beforeCommit_importMap.
  - intros Hx. pose proof (incrementRemixVersion_outcome remixVersion w) as O.
    cbv zeta in O.
    destruct (snd (incrementRemixVersion remixVersion w)) as [[]|e]; [|eauto].
    destruct O as (_ & Ec & Et). destruct Hx; congruence.
Qed.

End ScriptProperties.

(** ** Objects built from their own entries *)

Lemma get_not_in k o : ~ In k (Obj.keys o) -> Obj.get k o = None.
Proof.
  induction o as [|[k' v'] o IH]; cbn; [done|]. intros Hn.
  destruct (String.eqb_spec k' k) as [->|Hne]; [|by auto].
  exfalso. apply Hn. by left.
Qed.

Lemma ascending_app a b :
  Obj.ascending (a ++ b) = true ->
  forall x y, In x a -> In y b -> Obj.precedes x y = true.
Proof.
  induction a as [|x0 a IH]; cbn; [done|].
  intros E x y [->|Hx] Hy; apply andb_true_iff in E as [E1 E2].
  - rewrite forallb_forall in E1. apply E1, in_or_app. by right.
  - by apply IH.
Qed.

Lemma insertIndex_last n k v o :
  Obj.arrayIndex k = Some n ->
  (forall k', In k' (Obj.keys o) -> Obj.precedes k' k = true) ->
  Obj.insertIndex n k v o = o ++ [(k, v)].
Proof.
  intros Ek. induction o as [|[k' v'] o IH]; cbn; [done|]. intros Hp.
  pose proof (Hp k' (or_introl eq_refl)) as P. unfold Obj.precedes in P.
  rewrite Ek in P. destruct (Obj.arrayIndex k') as [m|]; [|done].
  rewrite P. by rewrite IH by auto.
Qed.

(** A new key that belongs after the keys there are is put last. *)
Lemma set_last k v o :
  ~ In k (Obj.keys o) ->
  (forall k', In k' (Obj.keys o) -> Obj.precedes k' k = true) ->
  Obj.set k v o = o ++ [(k, v)].
Proof.
  intros Hn Hp. unfold Obj.set. rewrite get_not_in by done.
  destruct (Obj.arrayIndex k) as [n|] eqn:Ek; [|done].
  by apply insertIndex_last.
Qed.

Lemma fold_set_ordered l2 l1 :
  Obj.ordered (Obj.keys (l1 ++ l2)) ->
  fold_left (fun o kv => Obj.set (fst kv) (snd kv) o) l2 l1 = l1 ++ l2.
Proof.
  revert l1. induction l2 as [|[k v] l2 IH]; intros l1 [ND A]; cbn.
  - by rewrite app_nil_r.
  - unfold Obj.keys in ND, A. rewrite map_app in ND, A. cbn in ND, A.
    rewrite set_last.
    + rewrite IH; [by rewrite <- app_assoc|].
      unfold Obj.ordered, Obj.keys. rewrite <- app_assoc, map_app. by cbn.
    + apply NoDup_app in ND as (_ & ND & _). intros Hin.
      apply (ND k); [by apply list_elem_of_In | by left].
    + intros k' Hk'. apply (ascending_app _ _ A); [done | by left].
Qed.

(** [Object.fromEntries] of the entries of an object is that object. *)
Lemma fromEntries_ordered l :
  Obj.ordered (Obj.keys l) -> Obj.fromEntries l = l.
Proof. intros Ho. unfold Obj.fromEntries. by rewrite fold_set_ordered. Qed.

(** ** The import-map rewrite *)

Lemma rewriteImport_key v kv : fst (rewriteImport v kv) = fst kv.
Proof.
  destruct kv as [k url]. unfold rewriteImport.
  destruct (getPackageNameFromImportSpecifier k). by destruct (_ && _).
Qed.

Lemma keys_rewriteImport v im :
  Obj.keys (map (rewriteImport v) im) = Obj.keys im.
Proof.
  unfold Obj.keys. rewrite map_map. apply map_ext. intros.
  apply rewriteImport_key.
Qed.

Lemma get_rewriteImport v s im :
  Obj.get s (map (rewriteImport v) im)
  = option_map (fun url => snd (rewriteImport v (s, url))) (Obj.get s im).
Proof.
  induction im as [|[k url] im IH]; [done|]. cbn [map Obj.get].
  pose proof (rewriteImport_key v (k, url)) as Ek.
  destruct (rewriteImport v (k, url)) as [k' url'] eqn:E.
  cbn [fst Obj.get] in Ek |- *. subst k'.
  destruct (String.eqb_spec k s) as [->|Hne]; [|done].
  cbn [option_map]. by rewrite E.
Qed.

Lemma set_imports_last x o :
  Obj.set "imports" x (Obj.without "imports" o)
  = Obj.without "imports" o ++ [("imports", x)].
Proof.
  unfold Obj.set. rewrite get_not_in; [done|].
  unfold Obj.keys, Obj.without. intros Hin. apply in_map_iff in Hin
    as ([k v] & Ek & Hin).
  apply filter_In in Hin as [_ Hf]. cbn in Ek, Hf. subst k. done.
Qed.

(** The document [rewriteImportMap] writes for a document whose [imports]
    is an object. *)
Lemma rewriteImportMap_spec v o im :
  Obj.get "imports" o = Some (JObj im) ->
  Obj.ordered (Obj.keys im) ->
  rewriteImportMap v (JObj o)
  = Ret (JObj (Obj.without "imports" o
               ++ [("imports", JObj (map (rewriteImport v) im))])).
Proof.
  intros Ei Ho. unfold rewriteImportMap. cbn [Js.member obind]. rewrite Ei.
  cbn [Js.entries Js.ownProperties obind].
  rewrite fromEntries_ordered by (by rewrite keys_rewriteImport).
  by rewrite set_imports_last.
Qed.

(** ** The decomposition of the code and that of the design *)

Lemma includes_In l x : includes l x = true <-> In x l.
Proof.
  unfold includes. rewrite existsb_exists. split.
  - intros (y & Hy & E). apply String.eqb_eq in E. by subst.
  - intros Hx. exists x. split; [done | apply String.eqb_refl].
Qed.

Lemma endsWith_append a b : endsWith (a +:+ b) b = true.
Proof.
  induction a as [|c a IH].
  - rewrite append_nil_l. destruct b; cbn [endsWith];
      by rewrite String.eqb_refl.
  - rewrite append_cons. cbn [endsWith]. rewrite IH. apply orb_true_r.
Qed.

(** Where the specifier has the segments its kind asks for, the code
    decomposes it as the design says. *)
Lemma decompose_agrees s :
  Str.startsWith s "@" = false \/ Str.contains "/" s = true ->
  getPackageNameFromImportSpecifier s = (specPackageName s, specSubpath s).
Proof.
  intros Hs. unfold getPackageNameFromImportSpecifier, specPackageName,
    specSubpath.
  pose proof (contains_split "/" s) as C.
  destruct (Str.split "/" s) as [a others]. cbn [snd] in C.
  destruct (Str.startsWith s "@"); [|done].
  destruct Hs as [Hs|Hs]; [done|]. apply C in Hs.
  by destruct others as [|b path].
Qed.

(** A scoped specifier with no slash names no internal package, neither
    by the name the code gives it nor by the name the design gives it. *)
Lemma scope_alone_not_internal s :
  Str.startsWith s "@" = true ->
  Str.contains "/" s = false ->
  includes remixPackagesFull (fst (getPackageNameFromImportSpecifier s))
  = false
  /\ includes remixPackagesFull (specPackageName s) = false
  /\ snd (getPackageNameFromImportSpecifier s) = specSubpath s.
Proof.
  intros At Hs. unfold getPackageNameFromImportSpecifier, specPackageName,
    specSubpath.
  pose proof (contains_split "/" s) as C.
  pose proof (join_split "/" s) as J.
  destruct (Str.split "/" s) as [a others]. cbn [fst snd] in C, J.
  rewrite At. destruct others as [|b path].
  2:{ exfalso. assert (Str.contains "/" s = true) by (by apply C).
      congruence. }
  cbn [hd_error tl Str.template fst snd firstn skipn Str.join] in *.
  subst a. split; [|split; [|done]].
  - destruct (includes _ _) eqn:E; [|done]. apply includes_In in E.
    assert (forallb (fun m => negb (endsWith m "/undefined"))
              remixPackagesFull = true) as F by (vm_compute; reflexivity).
    rewrite forallb_forall in F. apply F in E.
    change (s +:+ "/" +:+ "undefined") with (s +:+ "/undefined") in E.
    by rewrite (endsWith_append s "/undefined") in E.
  - destruct (includes _ _) eqn:E; [|done]. apply includes_In in E.
    assert (forallb (Str.contains "/") remixPackagesFull = true) as F
      by (vm_compute; reflexivity).
    rewrite forallb_forall in F. apply F in E. congruence.
Qed.

(** [rewriteImport] in the words of the design *)
Lemma rewriteImport_spec v s url :
  rewriteImport v (s, url)
  = (s,
     if includes remixPackagesFull (specPackageName s)
        && negb (String.eqb s "@remix-run/deno")
     then JStr ("https://esm.sh/" +:+ specPackageName s +:+ "@" +:+ v
                +:+ (if Str.nonempty (specSubpath s)
                     then "/" +:+ specSubpath s else EmptyString))
     else url).
Proof.
  unfold rewriteImport.
  destruct (Str.startsWith s "@") eqn:At; [destruct (Str.contains "/" s) eqn:Hs|].
  - rewrite decompose_agrees by auto. by destruct (_ && _).
  - destruct (scope_alone_not_internal s At Hs) as (E1 & E2 & _).
    destruct (getPackageNameFromImportSpecifier s) as [n p].
    cbn [fst] in E1. by rewrite E1, E2.
  - rewrite decompose_agrees by auto. by destruct (_ && _).
Qed.

(** What [updateDenoImportMap] does to a file that holds a document whose
    [imports] is an object: it returns, and the file, and no other, holds
    the document rebuilt around the rewritten entries. *)
Lemma updateDenoImportMap_writes importMapPath v w o im :
  files w !! importMapPath = Some (Parsed (JObj o)) ->
  Obj.get "imports" o = Some (JObj im) ->
  Obj.ordered (Obj.keys im) ->
  writeRefused w importMapPath = false ->
  updateDenoImportMap importMapPath v w
  = (World
       (<[importMapPath :=
            Parsed (JObj (Obj.without "imports" o
                          ++ [("imports", JObj (map (rewriteImport v) im))]))]>
          (files w))
       (writeRefused w) (exitsNonZero w) (console w) (commands w),
     Ret tt).
Proof.
  intros Ef Ei Ho Ew.
  unfold updateDenoImportMap, bind, readFile, lift, writeFile.
  rewrite Ef, (rewriteImportMap_spec v o im Ei Ho). cbn [fst snd].
  by rewrite Ew.
Qed.

Lemma get_imports_last o x :
  Obj.get "imports" (Obj.without "imports" o ++ [("imports", x)]) = Some x.
Proof.
  rewrite get_app, get_not_in; [by cbn|].
  unfold Obj.keys, Obj.without. intros Hin.
  apply in_map_iff in Hin as ([k y] & Ek & Hin).
  apply filter_In in Hin as [_ Hf]. cbn in Ek, Hf. by subst k.
Qed.

(** C3: where a file holds a document whose [imports] is an object and
    the write is accepted, [updateDenoImportMap] returns and leaves in
    the file a document in which the entry of a specifier is rewritten
    exactly when the package name of the specifier (its first two
    segments when it starts with [@], its first otherwise) is the
    distribution name of an internal package and the specifier is not
    [@remix-run/deno]; the new URL is the CDN base, the package name,
    [@], the version, and a slash and the subpath when the subpath is not
    empty; any other entry keeps its URL.  The document written is the
    one [rewriteImportMap] computes. *)
Theorem import_entry_rewritten
    (importMapPath remixVersion specifier : string) (url : json)
    (w : world) (o im : list (string * json)) :
  files w !! importMapPath = Some (Parsed (JObj o)) ->
  Obj.get "imports" o = Some (JObj im) ->
  Obj.ordered (Obj.keys im) ->
  writeRefused w importMapPath = false ->
  Obj.get specifier im = Some url ->
  exists o' im',
    snd (updateDenoImportMap importMapPath remixVersion w) = Ret tt
    /\ files (fst (updateDenoImportMap importMapPath remixVersion w))
         !! importMapPath
       = Some (Parsed (JObj o'))
    /\ rewriteImportMap remixVersion (JObj o) = Ret (JObj o')
    /\ Obj.get "imports" o' = Some (JObj im')
    /\ Obj.get specifier im'
       = Some
           (if includes remixPackagesFull (specPackageName specifier)
               && negb (String.eqb specifier "@remix-run/deno")
            then JStr ("https://esm.sh/" +:+ specPackageName specifier
                       +:+ "@" +:+ remixVersion
                       +:+ (if Str.nonempty (specSubpath specifier)
                            then "/" +:+ specSubpath specifier
                            else EmptyString))
            else url).
Proof.
  intros Ef Ei Ho Ew Es. eexists _, _.
  rewrite (updateDenoImportMap_writes _ remixVersion w o im Ef Ei Ho Ew).
  cbn [fst snd files]. split; [done|].
  split; [by rewrite lookup_insert_eq|].
  split; [by apply rewriteImportMap_spec|].
  split; [apply get_imports_last|].
  rewrite get_rewriteImport, Es. cbn [option_map].
  by rewrite rewriteImport_spec.
Qed.

(** C7, as the code has it: where a file holds a document whose
    [imports] is an object and the write is accepted, the document
    [updateDenoImportMap] writes back has the same specifiers in the same
    order, the other top-level fields as they were and in their order,
    and [imports] after them, last; no other file is written. *)
Theorem import_map_frame
    (importMapPath remixVersion : string) (w : world)
    (o im : list (string * json)) :
  files w !! importMapPath = Some (Parsed (JObj o)) ->
  Obj.get "imports" o = Some (JObj im) ->
  Obj.ordered (Obj.keys im) ->
  writeRefused w importMapPath = false ->
  exists im',
    updateDenoImportMap importMapPath remixVersion w
    = (World
         (<[importMapPath :=
              Parsed (JObj (Obj.without "imports" o
                            ++ [("imports", JObj im')]))]>
            (files w))
         (writeRefused w) (exitsNonZero w) (console w) (commands w),
       Ret tt)
    /\ Obj.keys im' = Obj.keys im.
Proof.
  intros Ef Ei Ho Ew. eexists.
  split; [by apply updateDenoImportMap_writes|].
  apply keys_rewriteImport.
Qed.

(** ** The properties at work *)

Lemma importMap_ordered : Obj.ordered (Obj.keys Examples.imports).
Proof.
  split; [apply (bool_decide_unpack _); vm_compute|vm_compute]; reflexivity.
Defined.

(** C3 on an entry with a subpath, in the import map of the editor: the
    subpath of the specifier is kept. *)
Lemma import_entry_rewritten_witness :
  exists o' im',
    snd (updateDenoImportMap "/remix/.vscode/deno_resolve_npm_imports.json"
           "2.0.0" (Examples.calm Examples.withImportMaps)) = Ret tt
    /\ files
         (fst (updateDenoImportMap
                 "/remix/.vscode/deno_resolve_npm_imports.json" "2.0.0"
                 (Examples.calm Examples.withImportMaps)))
         !! "/remix/.vscode/deno_resolve_npm_imports.json"
       = Some (Parsed (JObj o'))
    /\ rewriteImportMap "2.0.0" Examples.importMap = Ret (JObj o')
    /\ Obj.get "imports" o' = Some (JObj im')
    /\ Obj.get "@remix-run/dev/server-build" im'
       = Some (JStr "https://esm.sh/@remix-run/dev@2.0.0/server-build").
Proof.
  apply (import_entry_rewritten
           "/remix/.vscode/deno_resolve_npm_imports.json" "2.0.0"
           "@remix-run/dev/server-build"
           (JStr "https://esm.sh/@remix-run/dev@1.0.0/server-build")
           (Examples.calm Examples.withImportMaps)
           Examples.importMapFields Examples.imports).
  - vm_compute. reflexivity.
  - reflexivity.
  - exact importMap_ordered.
  - reflexivity.
  - reflexivity.
Defined.

(** The subpath comes from the specifier: what follows the version in the
    old URL is not carried over. *)
Example rewriteImport_drops_url_path :
  rewriteImport "2.0.0"
    ("@remix-run/react", JStr "https://esm.sh/@remix-run/react@1.0.0/foo")
  = ("@remix-run/react", JStr "https://esm.sh/@remix-run/react@2.0.0").
Proof. reflexivity. Qed.

(** The runtime's own entry and a foreign entry keep their URLs. *)
Example rewriteImport_leaves_others :
  rewriteImport "2.0.0"
    ("@remix-run/deno", JStr "../../packages/remix-deno/index.ts")
  = ("@remix-run/deno", JStr "../../packages/remix-deno/index.ts")
  /\ rewriteImport "2.0.0" ("react-dom", JStr "https://esm.sh/react-dom@18.0.0")
     = ("react-dom", JStr "https://esm.sh/react-dom@18.0.0").
Proof. split; reflexivity. Qed.

(** C7 on a document: same specifiers, [scopes] untouched, [imports]
    last. *)
Lemma import_map_frame_witness :
  exists im',
    updateDenoImportMap "/remix/.vscode/deno_resolve_npm_imports.json"
      "2.0.0" (Examples.calm Examples.withImportMaps)
    = (World
         (<["/remix/.vscode/deno_resolve_npm_imports.json" :=
              Parsed (JObj [("scopes", JObj []); ("imports", JObj im')])]>
            Examples.withImportMaps)
         (fun _ => false) (fun _ => false) [] [],
       Ret tt)
    /\ Obj.keys im'
       = ["@remix-run/react"; "@remix-run/dev/server-build";
          "@remix-run/deno"; "react-dom"].
Proof.
  apply (import_map_frame "/remix/.vscode/deno_resolve_npm_imports.json"
           "2.0.0" (Examples.calm Examples.withImportMaps)
           Examples.importMapFields Examples.imports).
  - vm_compute. reflexivity.
  - reflexivity.
  - exact importMap_ordered.
  - reflexivity.
Defined.

(** C7 as stated fails: [imports] was the first key of the document in
    the file and is the last key of the document [updateDenoImportMap]
    leaves there. *)
Lemma import_map_frame_counterexample :
  exists o o',
    files (Examples.calm Examples.withImportMaps)
      !! "/remix/.vscode/deno_resolve_npm_imports.json"
    = Some (Parsed (JObj o))
    /\ snd (updateDenoImportMap
              "/remix/.vscode/deno_resolve_npm_imports.json" "2.0.0"
              (Examples.calm Examples.withImportMaps)) = Ret tt
    /\ files
         (fst (updateDenoImportMap
                 "/remix/.vscode/deno_resolve_npm_imports.json" "2.0.0"
                 (Examples.calm Examples.withImportMaps)))
         !! "/remix/.vscode/deno_resolve_npm_imports.json"
       = Some (Parsed (JObj o'))
    /\ Obj.keys o = ["imports"; "scopes"]
    /\ Obj.keys o' = ["scopes"; "imports"].
Proof. eexists _, _. repeat split; vm_compute; reflexivity. Qed.

(** C4 on a manifest: the second run changes no file. *)
Lemma updateRemixVersion_idempotent_witness :
  let once :=
    fst (@updateRemixVersion Examples.host "remix" "2.0.0" None
           (Examples.calm (Examples.onePackage Examples.manifest))) in
  files (fst (@updateRemixVersion Examples.host "remix" "2.0.0" None once))
  = files once.
Proof.
  apply (@updateRemixVersion_idempotent Examples.host). reflexivity.
Defined.

(** C4 as stated fails: for a version that begins with a caret, the
    second run puts a second caret before an exact peer dependency. *)
Lemma updateRemixVersion_idempotent_counterexample :
  exists once twice c1 c2,
    @updateRemixVersion Examples.host "remix" "^2.0.0" None
      (Examples.calm (Examples.onePackage Examples.exactPeer))
    = (once, Ret tt)
    /\ @updateRemixVersion Examples.host "remix" "^2.0.0" None once
       = (twice, Ret tt)
    /\ files once !! "/remix/packages/remix/package.json" = Some (Parsed c1)
    /\ files twice !! "/remix/packages/remix/package.json" = Some (Parsed c2)
    /\ dependencyEntry c1 "peerDependencies" "@remix-run/react"
       = Some (JStr "^2.0.0")
    /\ dependencyEntry c2 "peerDependencies" "@remix-run/react"
       = Some (JStr "^^2.0.0")
    /\ files twice <> files once.
Proof.
  eexists _, _, _, _.
  split; [vm_compute; reflexivity|]. split; [vm_compute; reflexivity|].
  split; [vm_compute; reflexivity|]. split; [vm_compute; reflexivity|].
  split; [reflexivity|]. split; [reflexivity|].
  intros E.
  apply (f_equal (fun m => m !! "/remix/packages/remix/package.json")) in E.
  vm_compute in E. discriminate.
Qed.



(** C10 on a manifest that cannot be written back. *)
Lemma updatePackageConfig_never_raises_witness :
  @updatePackageConfig Examples.host "remix"
    (fun config => lift (updateRemixVersion_transform "2.0.0" config))
    (Examples.readOnly (Examples.onePackage Examples.manifest))
  = (Examples.readOnly (Examples.onePackage Examples.manifest), Ret tt).
Proof.
  refine (proj2 (@updatePackageConfig_never_raises Examples.host "remix"
                   (fun config =>
                      lift (updateRemixVersion_transform "2.0.0" config))
                   (Examples.readOnly
                      (Examples.onePackage Examples.manifest)))
            Examples.manifest _ _ _ _ _ _).
  - vm_compute. reflexivity.
  - reflexivity.
  - vm_compute. reflexivity.
  - reflexivity.
Defined.

(** C5 where the manifest of the deployment test is absent. *)
Lemma manifest_steps_best_effort_witness :
  exists e,
    snd (@incrementRemixVersion Examples.host "2.0.0"
           (Examples.calm Examples.withImportMaps)) = Throw e
    /\ commands (fst (@incrementRemixVersion Examples.host "2.0.0"
                        (Examples.calm Examples.withImportMaps)))
       = [].
Proof.
  apply (proj1 (proj2 (@manifest_steps_best_effort Examples.host "2.0.0"
                         (Examples.calm Examples.withImportMaps)))).
  left. vm_compute. reflexivity.
Defined.

(** C5 as stated fails: with every package manifest and import map in
    place and only the manifest of the deployment test absent, the release
    raises the read error of step 4 and runs no command. *)
Lemma manifest_steps_best_effort_counterexample :
  files (Examples.calm Examples.withImportMaps)
    !! @packageJson Examples.host "deployment-test" "scripts" = None
  /\ snd (@incrementRemixVersion Examples.host "2.0.0"
            (Examples.calm Examples.withImportMaps))
     = Throw (ReadError "/remix/scripts/deployment-test/package.json")
  /\ commands (fst (@incrementRemixVersion Examples.host "2.0.0"
                      (Examples.calm Examples.withImportMaps)))
     = [].
Proof. repeat split; vm_compute; reflexivity. Qed.

(** A release that goes through: one commit, then one tag. *)
Example release_goes_through :
  snd (@incrementRemixVersion Examples.host "2.0.0"
         (Examples.calm Examples.complete)) = Ret tt
  /\ commands (fst (@incrementRemixVersion Examples.host "2.0.0"
                      (Examples.calm Examples.complete)))
     = [@commitCommand "2.0.0"; @tagCommand "2.0.0"].
Proof. split; vm_compute; reflexivity. Qed.

(** * Further properties of the helpers *)

(** ** When the manifest rewrite throws *)

Lemma assign_throws_TypeError x k v e :
  Js.assign x k v = Throw e -> e = TypeError.
Proof. destruct x as [[]|]; cbn; congruence. Qed.

Lemma member_throws_TypeError x k e :
  Js.member x k = Throw e -> e = TypeError.
Proof. destruct x as [[]|]; cbn; congruence. Qed.

Lemma assignIn_throws_TypeError x f k v e :
  Js.assignIn x f k v = Throw e -> e = TypeError.
Proof.
  unfold Js.assignIn.
  destruct (Js.member (Some x) f) as [d|e'] eqn:Em; cbn [obind].
  - destruct (Js.assign d k v) as [d'|e'] eqn:Ea; cbn [obind].
    + by destruct x.
    + intros [= <-]. by apply assign_throws_TypeError in Ea.
  - intros [= <-]. by apply member_throws_TypeError in Em.
Qed.

Lemma bumpExact_throws_TypeError f k v c e :
  bumpExact f k v c = Throw e -> e = TypeError.
Proof.
  unfold bumpExact.
  destruct (Js.member (Some c) f) as [d|e'] eqn:Em; cbn [obind].
  - destruct (Js.truthy _); [apply assignIn_throws_TypeError | done].
  - intros [= <-]. by apply member_throws_TypeError in Em.
Qed.

Lemma bumpPeer_throws_TypeError k v c e :
  bumpPeer k v c = Throw e -> e = TypeError.
Proof.
  unfold bumpPeer.
  destruct (Js.member (Some c) "peerDependencies") as [d|e'] eqn:Em;
    cbn [obind].
  - destruct (Js.truthy _); [|done].
    destruct (Js.member d k) as [old|e'] eqn:Eo; cbn [obind].
    + destruct (Js.optStartsWith old "^") as [b|e'] eqn:Es; cbn [obind].
      * apply assignIn_throws_TypeError.
      * intros [= <-]. destruct old as [[]|]; cbn in Es; congruence.
    + intros [= <-]. by apply member_throws_TypeError in Eo.
  - intros [= <-]. by apply member_throws_TypeError in Em.
Qed.

Lemma bumpPackage_throws_TypeError v c q e :
  bumpPackage v c q = Throw e -> e = TypeError.
Proof.
  unfold bumpPackage.
  destruct (bumpExact "dependencies" _ v c) as [c1|e1] eqn:E1; cbn [obind].
  - destruct (bumpExact "devDependencies" _ v c1) as [c2|e2] eqn:E2;
      cbn [obind].
    + apply bumpPeer_throws_TypeError.
    + intros [= <-]. by apply bumpExact_throws_TypeError in E2.
  - intros [= <-]. by apply bumpExact_throws_TypeError in E1.
Qed.

Lemma transform_throws_TypeError v c e :
  updateRemixVersion_transform v c = Throw e -> e = TypeError.
Proof.
  unfold updateRemixVersion_transform.
  destruct (Js.assign (Some c) "version" (JStr v)) as [c0|e0] eqn:E0;
    cbn [obind].
  - clear E0. revert c0.
    induction remixPackages.all as [|q l IH]; intros c0; cbn; [done|].
    destruct (bumpPackage v c0 q) as [c1|e1] eqn:E1; cbn [obind].
    + apply IH.
    + intros [= <-]. by apply bumpPackage_throws_TypeError in E1.
  - intros [= <-]. by apply assign_throws_TypeError in E0.
Qed.

Lemma peersUsable_of_returns v c c' :
  updateRemixVersion_transform v c = Ret c' -> peersUsable c = true.
Proof.
  intros E. unfold peersUsable. apply forallb_forall. intros p Hp.
  destruct (transform_spec _ _ _ _ E Hp) as (_ & _ & _ & P & _).
  unfold peerEntryUsable.
  destruct (Js.truthy (dependencyEntry c "peerDependencies"
                         (distributionName p))) eqn:T.
  - destruct (P eq_refl) as (old & ->). reflexivity.
  - by destruct (dependencyEntry c _ _) as [[]|].
Qed.

(** X1: The manifest rewrite returns or throws a [TypeError]; it throws
    exactly on [null] and on a manifest in which the [peerDependencies]
    entry of some internal package is a truthy value that is not a
    string. *)
Theorem rewrite_throws_exactly (remixVersion : string) (config : json) :
  match updateRemixVersion_transform remixVersion config with
  | Ret _ => config <> JNull /\ peersUsable config = true
  | Throw e => e = TypeError /\ (config = JNull \/ peersUsable config = false)
  end.
Proof.
  destruct (updateRemixVersion_transform remixVersion config)
    as [c'|e] eqn:E.
  - split; [intros ->; discriminate | by eapply peersUsable_of_returns].
  - split; [by eapply transform_throws_TypeError|].
    destruct config as [| | | | |o]; try (by left);
      destruct (peersUsable _) eqn:U; try (by right);
      exfalso;
      match type of E with
      | updateRemixVersion_transform _ ?c = _ =>
          destruct (transform_returns remixVersion c) as (c' & E');
            [done | done | congruence]
      end.
Qed.

(** ** The fields of a rewritten manifest *)

Lemma keys_replace k v o : Obj.keys (Obj.replace k v o) = Obj.keys o.
Proof.
  unfold Obj.keys. induction o as [|[k' v'] o IH]; cbn; [done|].
  destruct (String.eqb_spec k' k) as [->|Hne]; cbn; [done | by rewrite IH].
Qed.

Lemma keys_set_present k v o :
  Obj.get k o <> None -> Obj.keys (Obj.set k v o) = Obj.keys o.
Proof.
  intros E. unfold Obj.set. destruct (Obj.get k o); [|done].
  apply keys_replace.
Qed.

Lemma keys_set_version v o :
  Obj.keys (Obj.set "version" v o)
  = match Obj.get "version" o with
    | Some _ => Obj.keys o
    | None => Obj.keys o ++ ["version"]
    end.
Proof.
  unfold Obj.set. destruct (Obj.get "version" o); [apply keys_replace|].
  change (Obj.arrayIndex "version") with (@None N).
  unfold Obj.keys. by rewrite map_app.
Qed.

Lemma sameFields_refl c : sameFields c c.
Proof. by left. Qed.

Lemma sameFields_trans c1 c2 c3 :
  sameFields c1 c2 -> sameFields c2 c3 -> sameFields c1 c3.
Proof.
  intros [->|(o1 & o2 & -> & -> & K12 & N12)]; [done|].
  intros [->|(o2' & o3 & [= <-] & -> & K23 & N23)].
  - right. eauto 10.
  - right. exists o1, o3. repeat split; [congruence|].
    intros f d Ef. destruct (N12 f d Ef) as (d2 & E2 & K2).
    destruct (N23 f d2 E2) as (d3 & E3 & K3). exists d3. split; congruence.
Qed.

Lemma assignIn_fields c f k v c' :
  Js.truthy (dependencyEntry c f k) = true ->
  Js.assignIn c f k v = Ret c' -> sameFields c c'.
Proof.
  intros T E.
  destruct (entry_truthy _ _ _ T) as (o & d & x & -> & Ef & Ek & _).
  rewrite (assignIn_obj _ _ _ _ _ Ef) in E. injection E as <-.
  right. eexists _, _. repeat split; [apply keys_replace|].
  intros f1 d1 E1. destruct (String.eqb_spec f f1) as [<-|Hne].
  - rewrite get_replace_eq by congruence. eexists. split; [done|].
    assert (d1 = d) as -> by congruence.
    apply keys_set_present. congruence.
  - rewrite get_replace_ne by done. eauto.
Qed.

Lemma bumpExact_fields f k v c c' :
  bumpExact f k v c = Ret c' -> sameFields c c'.
Proof.
  unfold bumpExact. intros E.
  assert (c <> JNull) as N by (intros ->; discriminate).
  rewrite member_defined in E by done. cbn [obind] in E.
  change (Js.optMember (Js.optMember (Some c) f) k)
    with (dependencyEntry c f k) in E.
  destruct (Js.truthy (dependencyEntry c f k)) eqn:T.
  - by apply assignIn_fields in E.
  - injection E as <-. apply sameFields_refl.
Qed.

Lemma bumpPeer_fields k v c c' : bumpPeer k v c = Ret c' -> sameFields c c'.
Proof.
  unfold bumpPeer. intros E.
  assert (c <> JNull) as N by (intros ->; discriminate).
  rewrite member_defined in E by done. cbn [obind] in E.
  change (Js.optMember (Js.optMember (Some c) "peerDependencies") k)
    with (dependencyEntry c "peerDependencies" k) in E.
  destruct (Js.truthy (dependencyEntry c "peerDependencies" k)) eqn:T.
  - destruct (Js.member _ k) as [old|]; cbn [obind] in E; [|done].
    destruct (Js.optStartsWith old "^"); cbn [obind] in E; [|done].
    by apply assignIn_fields in E.
  - injection E as <-. apply sameFields_refl.
Qed.

Lemma bumpPackage_fields v c q c' :
  bumpPackage v c q = Ret c' -> sameFields c c'.
Proof.
  unfold bumpPackage.
  destruct (bumpExact "dependencies" _ v c) as [c1|] eqn:E1; [|done].
  cbn [obind].
  destruct (bumpExact "devDependencies" _ v c1) as [c2|] eqn:E2; [|done].
  cbn [obind]. intros E3.
  apply bumpExact_fields in E1, E2. apply bumpPeer_fields in E3.
  exact (sameFields_trans _ _ _ E1 (sameFields_trans _ _ _ E2 E3)).
Qed.

Lemma loop_fields v l c c' :
  Js.forOf (bumpPackage v) l c = Ret c' -> sameFields c c'.
Proof.
  revert c. induction l as [|q l IH]; intros c E; cbn in E.
  - injection E as <-. apply sameFields_refl.
  - destruct (bumpPackage v c q) as [c1|] eqn:E1; [|done]. cbn in E.
    apply bumpPackage_fields in E1. apply IH in E.
    exact (sameFields_trans _ _ _ E1 E).
Qed.

Lemma rewrite_sets_version v o c' :
  updateRemixVersion_transform v (JObj o) = Ret c' ->
  exists o', c' = JObj o' /\ Obj.get "version" o' = Some (JStr v).
Proof.
  intros E.
  destruct (transform_spec _ _ _ _ E in_all_dev) as (_ & _ & _ & _ & V).
  destruct (transform_kind _ _ _ E) as [->|(o0 & o' & _ & ->)]; eauto.
Qed.

(** X2: The rewrite of a manifest object gives an object whose [version] is
    the new version and whose fields are those of the manifest in their
    order, with [version] added last when it was missing; and every
    mapping in a field other than [version] keeps its keys in their
    order. *)
Theorem rewrite_keeps_fields
    (remixVersion : string) (o : list (string * json)) (config' : json) :
  updateRemixVersion_transform remixVersion (JObj o) = Ret config' ->
  exists o',
    config' = JObj o'
    /\ Obj.get "version" o' = Some (JStr remixVersion)
    /\ Obj.keys o'
       = match Obj.get "version" o with
         | Some _ => Obj.keys o
         | None => Obj.keys o ++ ["version"]
         end
    /\ forall f d,
         f <> "version" ->
         Obj.get f o = Some (JObj d) ->
         exists d', Obj.get f o' = Some (JObj d')
                    /\ Obj.keys d' = Obj.keys d.
Proof.
  intros E.
  destruct (transform_spec _ _ _ _ E in_all_dev) as (_ & _ & _ & _ & V).
  unfold updateRemixVersion_transform in E. cbn [Js.assign obind] in E.
  apply loop_fields in E.
  destruct E as [->|(o0 & o' & [= <-] & -> & K & N)].
  - eexists. split; [done|]. split; [by apply V|].
    split; [apply keys_set_version|].
    intros f d Hf Ef. exists d. by rewrite get_set_ne.
  - exists o'. split; [done|]. split; [by apply V|].
    split; [by rewrite K, keys_set_version|].
    intros f d Hf Ef. apply N. by rewrite get_set_ne.
Qed.

Lemma rewrite_keeps_fields_witness :
  exists o',
    updateRemixVersion_transform "2.0.0" Examples.emptyRange = Ret (JObj o')
    /\ Obj.get "version" o' = Some (JStr "2.0.0")
    /\ Obj.keys o' = ["name"; "dependencies"; "version"].
Proof.
  destruct (rewrite_keeps_fields "2.0.0"
              [("name", JStr "remix");
               ("dependencies",
                JObj [("@remix-run/dev", JStr EmptyString)])]
              (JObj [("name", JStr "remix");
                     ("dependencies",
                      JObj [("@remix-run/dev", JStr EmptyString)]);
                     ("version", JStr "2.0.0")]) eq_refl)
    as (o' & E & V & K & _).
  exists o'. injection E as <-. repeat split; reflexivity.
Defined.

(** ** What the manifest rewrite leaves alone *)

Lemma bumpPackage_top v c q c' f :
  bumpPackage v c q = Ret c' ->
  f <> "dependencies" -> f <> "devDependencies" ->
  f <> "peerDependencies" ->
  Js.optMember (Some c') f = Js.optMember (Some c) f.
Proof.
  unfold bumpPackage. intros E H1 H2 H3.
  destruct (bumpExact "dependencies" _ v c) as [c1|] eqn:E1; [|done].
  cbn [obind] in E.
  destruct (bumpExact "devDependencies" _ v c1) as [c2|] eqn:E2; [|done].
  cbn [obind] in E.
  apply bumpExact_spec in E1 as (_ & _ & _ & F1).
  apply bumpExact_spec in E2 as (_ & _ & _ & F2).
  apply bumpPeer_spec in E as (_ & _ & _ & _ & F3).
  by rewrite F3, F2, F1.
Qed.

Lemma loop_top v l c c' f :
  Js.forOf (bumpPackage v) l c = Ret c' ->
  f <> "dependencies" -> f <> "devDependencies" ->
  f <> "peerDependencies" ->
  Js.optMember (Some c') f = Js.optMember (Some c) f.
Proof.
  intros E H1 H2 H3. revert c E.
  induction l as [|q l IH]; intros c E; cbn in E.
  - by injection E as <-.
  - destruct (bumpPackage v c q) as [c1|] eqn:E1; [|done]. cbn in E.
    rewrite (IH _ E). by eapply bumpPackage_top.
Qed.

(** X3: The rewrite changes no entry under a key that is not the distribution
    name of an internal package, in any mapping, and no top-level field
    other than [version] and the three dependency mappings. *)
Theorem rewrite_leaves_others
    (remixVersion : string) (config config' : json) :
  updateRemixVersion_transform remixVersion config = Ret config' ->
  (forall field key,
     field <> "version" ->
     ~ In key remixPackagesFull ->
     dependencyEntry config' field key = dependencyEntry config field key)
  /\ (forall field,
        ~ In field ["version"; "dependencies"; "devDependencies";
                    "peerDependencies"] ->
        Js.optMember (Some config') field
        = Js.optMember (Some config) field).
Proof.
  unfold updateRemixVersion_transform. intros E.
  assert (config <> JNull) as N by (intros ->; discriminate).
  destruct (assign_version remixVersion config N) as (c0 & E0 & N0 & S0 & _).
  rewrite E0 in E. cbn [obind] in E. split.
  - intros field key Hf Hk.
    apply forOf_frame with (k := key) in E as (_ & S & _).
    + by rewrite S, S0.
    + intros q Hq <-. apply Hk. by apply in_map.
  - intros field Hf. cbn in Hf.
    rewrite (loop_top _ _ _ _ field E)
      by (intros ->; apply Hf; auto 10).
    destruct config as [| | | | |o]; cbn in E0; try done;
      injection E0 as <-; try done.
    cbn. apply get_set_ne. intros <-. apply Hf. auto.
Qed.

Lemma rewrite_leaves_others_witness :
  exists config',
    updateRemixVersion_transform "2.0.0" Examples.manifest = Ret config'
    /\ dependencyEntry config' "dependencies" "express"
       = Some (JStr "^4.17.1")
    /\ Js.optMember (Some config') "name" = Some (JStr "@remix-run/express").
Proof.
  eexists. split; [vm_compute; reflexivity|].
  match goal with
  | |- context [dependencyEntry ?c' _ _] =>
      destruct (rewrite_leaves_others "2.0.0" Examples.manifest c' eq_refl)
        as (S & F)
  end.
  split.
  - rewrite S; [reflexivity | discriminate |].
    intros Hin. apply includes_In in Hin. vm_compute in Hin. discriminate.
  - rewrite F; [reflexivity|].
    cbn. intros [E|[E|[E|[E|[]]]]]; discriminate.
Defined.

(** ** One manifest file, continued *)

Section HelperProperties.

Context `{Host}.


(** X6: After [updateRemixVersion] has rewritten the manifest object of a
    package, [getPackageVersion] of that package gives the new version. *)
Theorem version_read_back
    (packageName remixVersion : string) (successMessage : option string)
    (w : world) (o : list (string * json)) :
  files w !! packageJson packageName "packages" = Some (Parsed (JObj o)) ->
  peersUsable (JObj o) = true ->
  writeRefused w (packageJson packageName "packages") = false ->
  snd (getPackageVersion packageName
         (fst (updateRemixVersion packageName remixVersion successMessage w)))
  = Ret (Some (JStr remixVersion)).
Proof.
  intros Ef U Ew.
  destruct (transform_returns remixVersion (JObj o)) as (c' & Et);
    [done|done|].
  destruct (rewrite_sets_version remixVersion o c' Et) as (o' & -> & V).
  rewrite updateRemixVersion_spec. cbn [fst].
  destruct (updatePackageConfig_spec packageName
              (updateRemixVersion_transform remixVersion) w)
    as (w1 & E1 & _ & _ & _ & F1).
  rewrite E1. cbn [fst]. rewrite Ef in F1. cbn [Js.truthy] in F1.
  rewrite Et, Ew in F1.
  unfold getPackageVersion, bind, readFile, lift. cbn [files].
  rewrite F1, lookup_insert_eq. cbn. by rewrite V.
Qed.

End HelperProperties.

(** ** The manifest of the deployment test *)

Lemma assignIn_returns x f k v :
  (exists x', Js.assignIn x f k v = Ret x')
  <-> exists o d, x = JObj o /\ Obj.get f o = Some d /\ d <> JNull.
Proof.
  unfold Js.assignIn. split.
  - intros (x' & E). destruct x as [| | | | |o]; cbn in E; try done.
    destruct (Obj.get f o) as [d|] eqn:Ef; [|by cbn in E].
    exists o, d. split; [done|]. split; [done|]. intros ->. by cbn in E.
  - intros (o & d & -> & Ef & Hd). cbn. rewrite Ef.
    destruct d; cbn; try done; eauto.
Qed.

Section DeploymentProperties.

Context `{Host}.

(** X7: Where the manifest of the deployment test is an object whose
    [dependencies] is an object and the write is accepted,
    [updateDeploymentScriptVersion] returns and leaves the version under
    [@remix-run/dev] whatever was or was not there before, every other
    dependency and every other field as it was, and the fields in their
    order. *)
Theorem deployment_pin
    (remixVersion : string) (w : world) (o d : list (string * json)) :
  files w !! packageJson "deployment-test" "scripts" = Some (Parsed (JObj o)) ->
  Obj.get "dependencies" o = Some (JObj d) ->
  writeRefused w (packageJson "deployment-test" "scripts") = false ->
  exists o' d',
    snd (updateDeploymentScriptVersion remixVersion w) = Ret tt
    /\ files (fst (updateDeploymentScriptVersion remixVersion w))
         !! packageJson "deployment-test" "scripts"
       = Some (Parsed (JObj o'))
    /\ Obj.get "dependencies" o' = Some (JObj d')
    /\ Obj.get "@remix-run/dev" d' = Some (JStr remixVersion)
    /\ (forall k, k <> "@remix-run/dev" -> Obj.get k d' = Obj.get k d)
    /\ (forall f, f <> "dependencies" -> Obj.get f o' = Obj.get f o)
    /\ Obj.keys o' = Obj.keys o.
Proof.
  intros Ef Ed Ew.
  unfold updateDeploymentScriptVersion, bind, readFile, lift, writeFile,
    console_log.
  rewrite Ef. rewrite (assignIn_obj _ _ _ _ _ Ed). rewrite Ew.
  cbn [fst snd files]. eexists _, _. split; [done|].
  split; [apply lookup_insert_eq|].
  split; [apply get_replace_eq; congruence|].
  split; [apply get_set_eq|].
  split; [intros k Hk; by apply get_set_ne|].
  split; [intros f Hf; by apply get_replace_ne | apply keys_replace].
Qed.

(** X8: [updateDeploymentScriptVersion] returns exactly when the manifest is
    an object with a [dependencies] that is not [null] and the write is
    accepted; when it raises, it has changed nothing and printed
    nothing. *)
Theorem deployment_returns_exactly (remixVersion : string) (w : world) :
  (snd (updateDeploymentScriptVersion remixVersion w) = Ret tt
   <-> exists o x,
         files w !! packageJson "deployment-test" "scripts"
         = Some (Parsed (JObj o))
         /\ Obj.get "dependencies" o = Some x /\ x <> JNull
         /\ writeRefused w (packageJson "deployment-test" "scripts") = false)
  /\ (forall e,
        snd (updateDeploymentScriptVersion remixVersion w) = Throw e ->
        fst (updateDeploymentScriptVersion remixVersion w) = w).
Proof.
  unfold updateDeploymentScriptVersion, bind, readFile, lift, writeFile,
    console_log.
  destruct (files w !! packageJson "deployment-test" "scripts")
    as [[|json]|] eqn:Ef; cbn [fst snd];
    try (split; [split; [done | by intros (? & ? & ? & _)] | done]).
  destruct (Js.assignIn json "dependencies" "@remix-run/dev"
              (JStr remixVersion)) as [json'|e] eqn:Ea; cbn [fst snd].
  - destruct (proj1 (assignIn_returns _ _ _ _) (ex_intro _ _ Ea))
      as (o & x & -> & Ex & Hx).
    destruct (writeRefused w _) eqn:Ew; cbn [fst snd].
    + split; [|done]. split; [done|].
      intros (o' & x' & _ & _ & _ & Ew'). congruence.
    + split; [|done]. split; [|done]. intros _. exists o, x. auto.
  - split; [|done]. split; [done|].
    intros (o & x & [= ->] & Ex & Hx & _).
    destruct (proj2 (assignIn_returns (JObj o) "dependencies"
                       "@remix-run/dev" (JStr remixVersion)))
      as (x' & E'); [eauto|congruence].
Qed.

End DeploymentProperties.

(** ** Import maps, continued *)

(** X9: [updateDenoImportMap] returns exactly when the file holds an object
    whose [imports] is there and is not [null], and the write is accepted;
    when it raises, it has changed nothing. *)
Theorem updateDenoImportMap_returns_exactly
    (importMapPath remixVersion : string) (w : world) :
  (snd (updateDenoImportMap importMapPath remixVersion w) = Ret tt
   <-> exists o x,
         files w !! importMapPath = Some (Parsed (JObj o))
         /\ Obj.get "imports" o = Some x /\ x <> JNull
         /\ writeRefused w importMapPath = false)
  /\ (forall e,
        snd (updateDenoImportMap importMapPath remixVersion w) = Throw e ->
        fst (updateDenoImportMap importMapPath remixVersion w) = w).
Proof.
  unfold updateDenoImportMap, bind, readFile, lift, writeFile.
  destruct (files w !! importMapPath) as [[|doc]|] eqn:Ef; cbn [fst snd];
    try (split; [split; [done | by intros (? & ? & ? & _)] | done]).
  destruct (rewriteImportMap remixVersion doc) as [out|e] eqn:Er;
    cbn [fst snd].
  - assert (exists o x, doc = JObj o /\ Obj.get "imports" o = Some x
                        /\ x <> JNull) as (o & x & -> & Ex & Hx).
    { unfold rewriteImportMap in Er.
      destruct doc as [| | | | |o]; cbn in Er; try done.
      destruct (Obj.get "imports" o) as [x|] eqn:Ex; [|done].
      exists o, x. repeat split; try done. by intros ->. }
    destruct (writeRefused w importMapPath) eqn:Ew; cbn [fst snd].
    + split; [|done]. split; [done|].
      intros (o' & x' & _ & _ & _ & Ew'). congruence.
    + split; [|done]. split; [|done]. intros _. exists o, x. auto.
  - split; [|done]. split; [done|].
    intros (o & x & [= ->] & Ex & Hx & _).
    unfold rewriteImportMap in Er. cbn in Er. rewrite Ex in Er.
    by destruct x.
Qed.

Lemma rewriteImport_absorbs v1 v2 kv :
  rewriteImport v2 (rewriteImport v1 kv) = rewriteImport v2 kv.
Proof.
  destruct kv as [k url]. rewrite (rewriteImport_spec v1).
  rewrite !(rewriteImport_spec v2). by destruct (_ && _).
Qed.

Lemma without_rebuilt k x o :
  Obj.without k (Obj.without k o ++ [(k, x)]) = Obj.without k o.
Proof.
  unfold Obj.without. rewrite List.filter_app. cbn. rewrite String.eqb_refl.
  cbn. rewrite app_nil_r. induction o as [|[k' v'] o IH]; cbn; [done|].
  destruct (String.eqb k' k) eqn:E; cbn; [done|]. by rewrite E, IH.
Qed.

(** X10: Rewriting an import map for one version and then for another gives
    what rewriting it for the other alone gives; so rewriting it again for
    the same version changes nothing, whatever the version is. *)
Theorem rewriteImportMap_last_wins
    (v1 v2 : string) (o im : list (string * json)) :
  Obj.get "imports" o = Some (JObj im) ->
  Obj.ordered (Obj.keys im) ->
  exists out1 out2,
    rewriteImportMap v1 (JObj o) = Ret out1
    /\ rewriteImportMap v2 (JObj o) = Ret out2
    /\ rewriteImportMap v2 out1 = Ret out2
    /\ rewriteImportMap v1 out1 = Ret out1.
Proof.
  intros Ei Ho. eexists _, _.
  split; [by apply rewriteImportMap_spec|].
  split; [by apply rewriteImportMap_spec|].
  assert (forall v,
            rewriteImportMap v
              (JObj (Obj.without "imports" o
                     ++ [("imports", JObj (map (rewriteImport v1) im))]))
            = Ret (JObj (Obj.without "imports" o
                         ++ [("imports", JObj (map (rewriteImport v) im))])))
    as R.
  { intros v. rewrite (rewriteImportMap_spec v _ (map (rewriteImport v1) im)).
    - rewrite without_rebuilt, map_map.
      rewrite (map_ext _ (rewriteImport v)); [done|].
      intros. apply rewriteImport_absorbs.
    - rewrite get_app, get_not_in; [by cbn|].
      unfold Obj.keys, Obj.without. intros Hin.
      apply in_map_iff in Hin as ([k x] & Ek & Hin).
      apply filter_In in Hin as [_ Hf]. cbn in Ek, Hf. by subst k.
    - by rewrite keys_rewriteImport. }
  split; apply R.
Qed.

Lemma rewriteImportMap_last_wins_witness :
  exists out1 out2,
    rewriteImportMap "2.0.0" Examples.importMap = Ret out1
    /\ rewriteImportMap "3.0.0" Examples.importMap = Ret out2
    /\ rewriteImportMap "3.0.0" out1 = Ret out2
    /\ rewriteImportMap "2.0.0" out1 = Ret out1.
Proof.
  apply (rewriteImportMap_last_wins "2.0.0" "3.0.0"
           Examples.importMapFields Examples.imports).
  - reflexivity.
  - exact importMap_ordered.
Defined.

(** ** Specifiers, continued *)

Lemma append_empty_r (s : string) : s +:+ EmptyString = s.
Proof.
  induction s as [|c s IH]; [reflexivity|]. by rewrite append_cons, IH.
Qed.

Lemma split_no_sep c a :
  Str.contains c a = false -> Str.split c a = (a, []).
Proof.
  induction a as [|x a IH]; cbn; [done|]. intros E.
  apply orb_false_iff in E as [E1 E2]. by rewrite IH, E1.
Qed.

Lemma split_app_sep c a b :
  Str.contains c a = false ->
  Str.split c (a +:+ String c b)
  = (a, fst (Str.split c b) :: snd (Str.split c b)).
Proof.
  induction a as [|x a IH]; intros E.
  - rewrite append_nil_l. cbn. destruct (Str.split c b).
    by rewrite Ascii.eqb_refl.
  - cbn in E. apply orb_false_iff in E as [E1 E2].
    rewrite append_cons. cbn [Str.split]. by rewrite IH, E1.
Qed.

Lemma contains_append_sep c a b : Str.contains c (a +:+ String c b) = true.
Proof.
  induction a as [|x a IH].
  - rewrite append_nil_l. cbn. by rewrite Ascii.eqb_refl.
  - rewrite append_cons. cbn. rewrite IH. apply orb_true_r.
Qed.

(** X11: A scoped specifier that has no slash gets the word [undefined] for a
    package: its name is the specifier followed by [/undefined], its
    subpath is empty, and its entry is never rewritten. *)
Theorem scope_alone_undefined (specifier : string) :
  Str.startsWith specifier "@" = true ->
  Str.contains "/" specifier = false ->
  getPackageNameFromImportSpecifier specifier
  = (specifier +:+ "/undefined", EmptyString)
  /\ forall remixVersion url,
       rewriteImport remixVersion (specifier, url) = (specifier, url).
Proof.
  intros At Hs.
  assert (getPackageNameFromImportSpecifier specifier
          = (specifier +:+ "/undefined", EmptyString)) as E.
  { unfold getPackageNameFromImportSpecifier.
    by rewrite At, (split_no_sep _ _ Hs). }
  split; [done|]. intros v url. rewrite rewriteImport_spec.
  destruct (scope_alone_not_internal specifier At Hs) as (_ & -> & _).
  done.
Qed.

Lemma scope_alone_undefined_witness :
  getPackageNameFromImportSpecifier "@remix-run"
  = ("@remix-run/undefined", EmptyString)
  /\ forall remixVersion url,
       rewriteImport remixVersion ("@remix-run", url) = ("@remix-run", url).
Proof.
  apply (scope_alone_undefined "@remix-run"); reflexivity.
Defined.

Lemma internal_no_slash p :
  In p remixPackages.all -> Str.contains "/" p = false.
Proof.
  intros Hin.
  assert (forallb (fun q => negb (Str.contains "/" q)) remixPackages.all
          = true) as F by (vm_compute; reflexivity).
  rewrite forallb_forall in F. apply F in Hin.
  by destruct (Str.contains "/" p).
Qed.

(** X12: The specifiers of an internal package: the bare distribution name is
    rewritten to the versioned URL of the package, unless the package is
    [deno]; the distribution name followed by a slash and a subpath is
    rewritten to that URL followed by the slash and the subpath, for
    [deno] as for the others. *)
Theorem internal_specifiers_rewritten
    (p remixVersion : string) (url : json) :
  In p remixPackages.all ->
  rewriteImport remixVersion (distributionName p, url)
  = (distributionName p,
     if String.eqb p "deno" then url
     else JStr ("https://esm.sh/" +:+ distributionName p +:+ "@"
                +:+ remixVersion))
  /\ forall subpath,
       Str.nonempty subpath = true ->
       rewriteImport remixVersion
         (distributionName p +:+ "/" +:+ subpath, url)
       = (distributionName p +:+ "/" +:+ subpath,
          JStr ("https://esm.sh/" +:+ distributionName p +:+ "@"
                +:+ remixVersion +:+ "/" +:+ subpath)).
Proof.
  intros Hin. pose proof (internal_no_slash p Hin) as Hp.
  assert (includes remixPackagesFull (distributionName p) = true) as Hi.
  { apply includes_In. by apply in_map. }
  split.
  - unfold rewriteImport, getPackageNameFromImportSpecifier.
    change (Str.startsWith (distributionName p) "@") with true. cbv iota.
    change (distributionName p) with ("@remix-run" +:+ String "/" p) at 1.
    rewrite split_app_sep by reflexivity. rewrite (split_no_sep _ _ Hp).
    cbn [fst snd hd_error tl Str.template Str.join Str.nonempty].
    change ("@remix-run" +:+ "/" +:+ p) with (distributionName p).
    rewrite Hi. cbn [andb].
    change (String.eqb (distributionName p) "@remix-run/deno")
      with (String.eqb p "deno").
    destruct (String.eqb p "deno"); cbn [negb]; [done|].
    by rewrite append_empty_r.
  - intros subpath Hsub.
    unfold rewriteImport, getPackageNameFromImportSpecifier.
    change (Str.startsWith (distributionName p +:+ "/" +:+ subpath) "@")
      with true. cbv iota.
    replace (distributionName p +:+ "/" +:+ subpath)
      with ("@remix-run" +:+ String "/" (p +:+ String "/" subpath)) at 1
      by (unfold distributionName; by rewrite append_assoc).
    rewrite split_app_sep by reflexivity.
    rewrite split_app_sep by done.
    cbn [fst snd hd_error tl Str.template].
    rewrite join_split.
    change ("@remix-run" +:+ "/" +:+ p) with (distributionName p).
    rewrite Hi, Hsub. cbn [andb].
    assert (String.eqb (distributionName p +:+ "/" +:+ subpath)
              "@remix-run/deno" = false) as ->; [|done].
    apply String.eqb_neq. intros E.
    unfold distributionName in E. rewrite append_assoc in E.
    change "@remix-run/deno" with ("@remix-run/" +:+ "deno") in E.
    apply append_cancel_l in E.
    apply (f_equal (Str.contains "/")) in E.
    change (p +:+ "/" +:+ subpath) with (p +:+ String "/" subpath) in E.
    rewrite contains_append_sep in E. discriminate.
Qed.

(** ** The files a release writes *)

Lemma confined_weaken {A} S S' (m : run A) :
  confined S m -> incl S S' -> confined S' m.
Proof.
  intros Hm Hi w. destruct (Hm w) as (R & F & N).
  repeat split; try done; try apply N. intros file Hf. apply F. auto.
Qed.

Lemma confined_ret {A} S (a : A) : confined S (ret a).
Proof. intros w. cbn. repeat split; done. Qed.

Lemma confined_bind {A B} S (m : run A) (k : A -> run B) :
  confined S m -> (forall a, confined S (k a)) -> confined S (bind m k).
Proof.
  intros Hm Hk w. unfold bind. destruct (Hm w) as (R & F & N).
  destruct (m w) as [w1 [a|e]]; cbn [fst snd] in *; [|done].
  destruct (Hk a w1) as (R' & F' & N').
  split; [congruence|]. split.
  - intros file Hf. by rewrite F', F.
  - intros file. by rewrite N', N.
Qed.

Lemma confined_console_log S line : confined S (console_log line).
Proof. intros w. cbn. repeat split; done. Qed.

Lemma confined_execSync S command : confined S (execSync command).
Proof.
  intros w. unfold execSync. destruct (exitsNonZero w command); cbn;
    repeat split; done.
Qed.

Lemma confined_forEach {A} S (body : A -> run unit) l :
  (forall a, In a l -> confined S (body a)) -> confined S (forEach body l).
Proof.
  induction l as [|a l IH]; intros Hb; cbn [forEach].
  - apply confined_ret.
  - apply confined_bind; [apply Hb; by left|].
    intros _. apply IH. intros; apply Hb; by right.
Qed.

Lemma confined_promiseAll S tasks :
  Forall (confined S) tasks -> confined S (promiseAll tasks).
Proof.
  induction 1 as [|t ts Ht _ IH]; cbn [promiseAll].
  - apply confined_ret.
  - intros w. destruct (Ht w) as (R & F & N).
    destruct (t w) as [w1 [a|e]]; cbn [fst snd] in *;
      destruct (IH w1) as (R' & F' & N');
      (split; [congruence|]; split;
       [intros file Hf; by rewrite F', F | intros file; by rewrite N', N]).
Qed.

Lemma insert_parsed_confined (m : gmap string content) file j j' :
  m !! file = Some (Parsed j) ->
  (forall file', ~ In file' [file] ->
     <[file := Parsed j']> m !! file' = m !! file')
  /\ (forall file', <[file := Parsed j']> m !! file' = None
                    <-> m !! file' = None).
Proof.
  intros E. split.
  - intros file' Hf. apply lookup_insert_ne. intros ->. apply Hf. by left.
  - intros file'. destruct (decide (file = file')) as [<-|Hne].
    + rewrite lookup_insert_eq, E. split; discriminate.
    + by rewrite lookup_insert_ne.
Qed.

(** Reading a file, computing, and writing the same file back *)
Lemma confined_rewrite file (f : json -> outcome json) :
  confined [file]
    (let! j := readFile file in let! j' := lift (f j) in writeFile file j').
Proof.
  intros w. unfold bind, readFile, lift, writeFile.
  destruct (files w !! file) as [[|j]|] eqn:E; cbn [fst snd];
    try (repeat split; done).
  destruct (f j) as [j'|e]; cbn [fst snd]; [|repeat split; done].
  destruct (writeRefused w file); cbn [fst snd files writeRefused];
    [repeat split; done|].
  split; [done|]. by eapply insert_parsed_confined.
Qed.

Section ReleaseProperties.

Context `{Host}.

Lemma confined_updatePackageConfig packageName
    (transform : json -> outcome json) :
  confined [packageJson packageName "packages"]
    (updatePackageConfig packageName (fun j => lift (transform j))).
Proof.
  intros w.
  destruct (updatePackageConfig_spec packageName transform w)
    as (w' & E & R & _ & _ & F).
  rewrite E. cbn [fst]. split; [done|]. rewrite F.
  destruct (files w !! packageJson packageName "packages")
    as [[|json]|] eqn:Ef; try (split; done).
  destruct (Js.truthy (Some json)); [|split; done].
  destruct (transform json); [|split; done].
  destruct (writeRefused w _); [split; done|].
  by eapply insert_parsed_confined.
Qed.

Lemma confined_updateRemixVersion packageName v msg :
  confined [packageJson packageName "packages"]
    (updateRemixVersion packageName v msg).
Proof.
  apply confined_bind.
  - apply (confined_updatePackageConfig packageName
             (updateRemixVersion_transform v)).
  - intros _. apply confined_console_log.
Qed.

Lemma confined_updateDeploymentScriptVersion v :
  confined [packageJson "deployment-test" "scripts"]
    (updateDeploymentScriptVersion v).
Proof.
  intros w. unfold updateDeploymentScriptVersion, bind, readFile, lift,
    writeFile, console_log.
  destruct (files w !! packageJson "deployment-test" "scripts")
    as [[|j]|] eqn:E; cbn [fst snd]; try (repeat split; done).
  destruct (Js.assignIn j _ _ _) as [j'|e]; cbn [fst snd];
    [|repeat split; done].
  destruct (writeRefused w _); cbn [fst snd files writeRefused];
    [repeat split; done|].
  split; [done|]. by eapply insert_parsed_confined.
Qed.

(** The part of [incrementRemixVersion] after the package manifests *)
Lemma confined_after_manifests v :
  confined
    (map (fun importMapPath => path_join [rootDir; importMapPath])
       importMapPaths
     ++ [packageJson "deployment-test" "scripts"])
    (promiseAll
       (map (fun importMapPath =>
               updateDenoImportMap (path_join [rootDir; importMapPath]) v)
          importMapPaths) ;;
     updateDeploymentScriptVersion v ;;
     execSync (commitCommand v) ;;
     execSync (tagCommand v) ;;
     console_log (chalk_green ("  Committed and tagged version " +:+ v))).
Proof.
  apply confined_bind.
  - apply confined_promiseAll, Forall_map, Forall_forall.
    intros p Hp. apply list_elem_of_In in Hp.
    apply (confined_weaken [path_join [rootDir; p]]);
      [apply confined_rewrite|].
    intros file [<-|[]]. apply in_or_app. left.
    by apply (in_map (fun q => path_join [rootDir; q])).
  - intros _. apply confined_bind.
    + apply (confined_weaken [packageJson "deployment-test" "scripts"]);
        [apply confined_updateDeploymentScriptVersion|].
      intros file [<-|[]]. apply in_or_app. right. by left.
    + intros _. apply confined_bind; [apply confined_execSync|].
      intros _. apply confined_bind; [apply confined_execSync|].
      intros _. apply confined_console_log.
Qed.

Lemma confined_manifests v l :
  confined
    (map (fun name => packageJson ("remix-" +:+ name) "packages") l)
    (forEach (fun name => updateRemixVersion ("remix-" +:+ name) v None) l).
Proof.
  apply confined_forEach. intros name Hn.
  apply (confined_weaken [packageJson ("remix-" +:+ name) "packages"]);
    [apply confined_updateRemixVersion|].
  intros file [<-|[]].
  by apply (in_map (fun n => packageJson ("remix-" +:+ n) "packages")).
Qed.

Lemma releasePaths_unfold :
  releasePaths
  = packageJson "remix" "packages"
    :: packageJson "create-remix" "packages"
    :: map (fun name => packageJson ("remix-" +:+ name) "packages")
         remixPackages.all
       ++ (map (fun importMapPath => path_join [rootDir; importMapPath])
             importMapPaths
           ++ [packageJson "deployment-test" "scripts"]).
Proof. reflexivity. Qed.

(** The release up to the commit *)
Lemma confined_beforeCommit v : confined releasePaths (beforeCommit v).
Proof.
  rewrite releasePaths_unfold. unfold beforeCommit.
  apply confined_bind.
  { eapply confined_weaken; [apply confined_updateRemixVersion|].
    intros file [<-|[]]. by left. }
  intros _. apply confined_bind.
  { eapply confined_weaken; [apply confined_updateRemixVersion|].
    intros file [<-|[]]. right. by left. }
  intros _. apply confined_bind.
  { eapply confined_weaken; [apply confined_manifests|].
    intros file Hf. right. right. apply in_or_app. by left. }
  intros _. apply confined_bind.
  - apply confined_promiseAll, Forall_map, Forall_forall.
    intros p Hp. apply list_elem_of_In in Hp.
    apply (confined_weaken [path_join [rootDir; p]]);
      [apply confined_rewrite|].
    intros file [<-|[]]. right. right. apply in_or_app. right.
    apply in_or_app. left.
    by apply (in_map (fun q => path_join [rootDir; q])).
  - intros _.
    apply (confined_weaken [packageJson "deployment-test" "scripts"]);
      [apply confined_updateDeploymentScriptVersion|].
    intros file [<-|[]]. right. right. apply in_or_app. right.
    apply in_or_app. right. by left.
Qed.

(** X13: A release is its steps up to the commit, which alone write files
    themselves, and then, where these returned, the commit and the tag.
    Up to the commit, however the steps end, they have written no file
    but the manifests of the packages, the import maps and the manifest
    of the deployment test, and have neither created nor deleted a
    file. *)
Theorem release_confined (remixVersion : string) (w : world) :
  incrementRemixVersion remixVersion w
  = match beforeCommit remixVersion w with
    | (w1, Ret _) => commitAndTag remixVersion w1
    | (w1, Throw e) => (w1, Throw e)
    end
  /\ (forall file,
        ~ In file releasePaths ->
        files (fst (beforeCommit remixVersion w)) !! file
        = files w !! file)
  /\ (forall file,
        files (fst (beforeCommit remixVersion w)) !! file = None
        <-> files w !! file = None).
Proof.
  split; [apply incrementRemixVersion_steps|].
  destruct (confined_beforeCommit remixVersion w) as (_ & F & N).
  by split.
Qed.

End ReleaseProperties.

(** ** The manifests after a release *)

Lemma rewrites_bind_first {A B} file c c' (m : run A) (k : A -> run B) S :
  rewrites file c c' m ->
  (forall a, confined S (k a)) -> ~ In file S ->
  rewrites file c c' (bind m k).
Proof.
  intros Hm Hk Hf w Ef Ew. unfold bind. specialize (Hm w Ef Ew).
  destruct (m w) as [w1 [a|e]]; cbn [fst] in *; [|done].
  destruct (Hk a w1) as (_ & F & _). by rewrite F.
Qed.

Lemma rewrites_bind_later {A B} file c c' (m : run A) (k : run B) S :
  returns m -> confined S m -> ~ In file S ->
  rewrites file c c' k ->
  rewrites file c c' (bind m (fun _ => k)).
Proof.
  intros Hr Hm Hf Hk w Ef Ew. unfold bind.
  destruct (Hr w) as (a & Ea). destruct (Hm w) as (R & F & _).
  destruct (m w) as [w1 [a'|e]]; cbn [fst snd] in *; [|done].
  apply Hk; [by rewrite F | by rewrite R].
Qed.

Section ManifestsAfterRelease.

Context `{Host}.

Lemma returns_updateRemixVersion packageName v msg :
  returns (updateRemixVersion packageName v msg).
Proof. intros w. rewrite updateRemixVersion_spec. by exists tt. Qed.

Lemma rewrites_updateRemixVersion packageName v msg o c' :
  updateRemixVersion_transform v (JObj o) = Ret c' ->
  rewrites (packageJson packageName "packages") (JObj o) c'
    (updateRemixVersion packageName v msg).
Proof.
  intros Et w Ef Ew. rewrite updateRemixVersion_spec. cbn [fst files].
  destruct (updatePackageConfig_spec packageName
              (updateRemixVersion_transform v) w)
    as (w1 & E1 & _ & _ & _ & F1).
  rewrite E1. cbn [fst]. rewrite F1, Ef. cbn [Js.truthy].
  rewrite Et, Ew. apply lookup_insert_eq.
Qed.

Lemma rewrites_manifests v l name o c' :
  NoDup (map (fun n => packageJson ("remix-" +:+ n) "packages") l) ->
  In name l ->
  updateRemixVersion_transform v (JObj o) = Ret c' ->
  rewrites (packageJson ("remix-" +:+ name) "packages") (JObj o) c'
    (forEach (fun n => updateRemixVersion ("remix-" +:+ n) v None) l).
Proof.
  intros ND Hin Et. induction l as [|a l IH]; [done|].
  cbn [map] in ND. apply NoDup_cons in ND as (Ha & ND). cbn [forEach].
  destruct (decide (packageJson ("remix-" +:+ a) "packages"
                    = packageJson ("remix-" +:+ name) "packages"))
    as [Eq|Hne].
  - rewrite <- Eq.
    apply (rewrites_bind_first _ _ _ _ _
             (map (fun n => packageJson ("remix-" +:+ n) "packages") l)).
    + by apply rewrites_updateRemixVersion.
    + intros _. apply confined_manifests.
    + intros Hf. apply Ha. by apply list_elem_of_In.
  - apply (rewrites_bind_later _ _ _ _ _
             [packageJson ("remix-" +:+ a) "packages"]).
    + apply returns_updateRemixVersion.
    + apply confined_updateRemixVersion.
    + intros [E|[]]. by apply Hne.
    + apply IH; [done|]. destruct Hin as [->|Hin]; [done|done].
Qed.

(** X14: Where the files a release writes are different files, every package
    manifest that is an object the rewrite does not throw on, and that may
    be written, holds after the release what the rewrite makes of it,
    however the release ends. *)
Theorem release_rewrites_manifest
    (remixVersion packageName : string) (w : world)
    (o : list (string * json)) (config' : json) :
  NoDup releasePaths ->
  In packageName releasePackages ->
  files w !! packageJson packageName "packages" = Some (Parsed (JObj o)) ->
  writeRefused w (packageJson packageName "packages") = false ->
  updateRemixVersion_transform remixVersion (JObj o) = Ret config' ->
  files (fst (incrementRemixVersion remixVersion w))
    !! packageJson packageName "packages"
  = Some (Parsed config').
Proof.
  intros ND Hin Ef Ew Et. rewrite releasePaths_unfold in ND.
  apply NoDup_cons in ND as (N1 & ND).
  apply NoDup_cons in ND as (N2 & ND).
  apply NoDup_app in ND as (ND3 & N34 & _).
  revert w Ef Ew.
  change (rewrites (packageJson packageName "packages") (JObj o) config'
            (incrementRemixVersion remixVersion)).
  unfold incrementRemixVersion.
  set (rest := promiseAll _ ;; _).
  assert (confined
            (map (fun importMapPath => path_join [rootDir; importMapPath])
               importMapPaths
             ++ [packageJson "deployment-test" "scripts"]) rest) as Crest
    by apply confined_after_manifests.
  assert (forall l,
            confined
              (map (fun n => packageJson ("remix-" +:+ n) "packages") l
               ++ map (fun importMapPath =>
                         path_join [rootDir; importMapPath]) importMapPaths
               ++ [packageJson "deployment-test" "scripts"])
              (forEach
                 (fun n => updateRemixVersion ("remix-" +:+ n)
                             remixVersion None) l ;; rest)) as Ctail.
  { intros l. apply confined_bind.
    - eapply confined_weaken; [apply confined_manifests|].
      intros file Hf. apply in_or_app. by left.
    - intros _. eapply confined_weaken; [apply Crest|].
      intros file Hf. apply in_or_app. by right. }
  set (S3 := map (fun importMapPath => path_join [rootDir; importMapPath])
               importMapPaths
             ++ [packageJson "deployment-test" "scripts"]) in *.
  set (S2 := map (fun n => packageJson ("remix-" +:+ n) "packages")
               remixPackages.all ++ S3) in *.
  destruct Hin as [<-|[<-|Hin]].
  - apply (rewrites_bind_first _ _ _ _ _
             (packageJson "create-remix" "packages" :: S2)).
    + by apply rewrites_updateRemixVersion.
    + intros _. apply confined_bind.
      * eapply confined_weaken; [apply confined_updateRemixVersion|].
        intros file [<-|[]]. by left.
      * intros _. eapply confined_weaken; [apply Ctail|].
        intros file Hf. by right.
    + intros Hf. apply N1. by apply list_elem_of_In.
  - apply (rewrites_bind_later _ _ _ _ _ [packageJson "remix" "packages"]);
      [apply returns_updateRemixVersion
      |apply confined_updateRemixVersion| |].
    { intros [E|[]]. apply N1. apply list_elem_of_In. left. done. }
    apply (rewrites_bind_first _ _ _ _ _ S2).
    + by apply rewrites_updateRemixVersion.
    + intros _. apply Ctail.
    + intros Hf. apply N2. by apply list_elem_of_In.
  - apply in_map_iff in Hin as (name & <- & Hn).
    assert (In (packageJson ("remix-" +:+ name) "packages")
              (map (fun n => packageJson ("remix-" +:+ n) "packages")
                 remixPackages.all)) as Hp
      by (by apply (in_map (fun n => packageJson ("remix-" +:+ n)
                                       "packages"))).
    apply (rewrites_bind_later _ _ _ _ _ [packageJson "remix" "packages"]);
      [apply returns_updateRemixVersion
      |apply confined_updateRemixVersion| |].
    { intros [E|[]]. apply N1. apply list_elem_of_In. right.
      apply in_or_app. left. by rewrite E. }
    apply (rewrites_bind_later _ _ _ _ _
             [packageJson "create-remix" "packages"]);
      [apply returns_updateRemixVersion
      |apply confined_updateRemixVersion| |].
    { intros [E|[]]. apply N2. apply list_elem_of_In.
      apply in_or_app. left. by rewrite E. }
    apply (rewrites_bind_first _ _ _ _ _ S3).
    + by apply rewrites_manifests.
    + intros _. apply Crest.
    + intros Hf. apply (N34 (packageJson ("remix-" +:+ name) "packages"));
        by apply list_elem_of_In.
Qed.

End ManifestsAfterRelease.

(** ** The lines of a trimmed text *)

Lemma lines_cons c s :
  Text.lines (String c s)
  = if Ascii.eqb c Text.newline then EmptyString :: Text.lines s
    else String c (fst (Str.split Text.newline s))
         :: snd (Str.split Text.newline s).
Proof.
  unfold Text.lines. cbn [Str.split].
  destruct (Str.split Text.newline s) as [seg rest].
  by destruct (Ascii.eqb c Text.newline).
Qed.

Lemma newline_white c : Ascii.eqb c Text.newline = true -> Text.isWhiteSpace c = true.
Proof. intros E. apply Ascii.eqb_eq in E. by subst. Qed.

Lemma blank_append a b : Text.blank (a +:+ b) = Text.blank a && Text.blank b.
Proof.
  induction a as [|c a IH]; [done|].
  rewrite append_cons. cbn. by rewrite IH, andb_assoc.
Qed.

Lemma blank_lines b l : Text.blank b = true -> In l (Text.lines b) -> Text.blank l = true.
Proof.
  revert l. induction b as [|c b IH]; intros l Hb Hl.
  - destruct Hl as [<-|[]]. done.
  - cbn in Hb. apply andb_true_iff in Hb as [Hc Hb]. rewrite lines_cons in Hl.
    destruct (Ascii.eqb c Text.newline).
    + destruct Hl as [<-|Hl]; [done | by apply IH].
    + destruct Hl as [<-|Hl].
      * cbn. rewrite Hc. apply IH; [done | by left].
      * apply IH; [done | by right].
Qed.

(** Removing white space at the start *)
Lemma lines_trimStart_sound t l' :
  In l' (Text.lines (Text.trimStart t)) ->
  exists l a, In l (Text.lines t) /\ Text.blank a = true /\ l = a +:+ l'.
Proof.
  induction t as [|c t IH]; cbn [Text.trimStart].
  - intros Hl. exists l', EmptyString. auto.
  - destruct (Text.isWhiteSpace c) eqn:Hc.
    + intros Hl. destruct (IH Hl) as (l0 & a0 & Hl0 & Ha0 & ->).
      rewrite lines_cons. destruct (Ascii.eqb c Text.newline).
      * exists (a0 +:+ l'), a0. split; [by right | done].
      * destruct Hl0 as [E|Hl0].
        -- exists (String c (a0 +:+ l')), (String c a0).
           split; [left; by rewrite E|]. split; [cbn; by rewrite Hc | done].
        -- exists (a0 +:+ l'), a0. split; [by right | done].
    + intros Hl. exists l', EmptyString. auto.
Qed.

Lemma lines_trimStart_complete t l :
  In l (Text.lines t) -> Text.blank l = false ->
  exists l' a,
    In l' (Text.lines (Text.trimStart t)) /\ Text.blank a = true
    /\ l = a +:+ l'.
Proof.
  revert l. induction t as [|c t IH]; intros l; cbn [Text.trimStart].
  - intros [<-|[]]. done.
  - destruct (Text.isWhiteSpace c) eqn:Hc;
      [|intros Hl _; exists l, EmptyString; auto].
    rewrite lines_cons. destruct (Ascii.eqb c Text.newline).
    + intros [<-|Hl] Hb; [done | by apply IH].
    + intros [<-|Hl] Hb.
      * cbn in Hb. rewrite Hc in Hb. cbn in Hb.
        destruct (IH _ (or_introl eq_refl) Hb) as (l' & a & Hl' & Ha & E).
        exists l', (String c a). split; [done|].
        split; [cbn; by rewrite Hc | by rewrite append_cons, <- E].
      * apply IH; [by right | done].
Qed.

(** What [trimEnd] removes is white space. *)
Lemma trimEnd_decompose s :
  exists b, Text.blank b = true /\ s = Text.trimEnd s +:+ b.
Proof.
  induction s as [|c s (b & Hb & E)]; [by exists EmptyString|].
  cbn [Text.trimEnd]. destruct (Text.trimEnd s) as [|x te] eqn:Et.
  - rewrite append_nil_l in E. subst b.
    destruct (Text.isWhiteSpace c) eqn:Hc.
    + exists (String c s). split; [cbn; by rewrite Hc | done].
    + exists s. done.
  - exists b. split; [done|]. by rewrite append_cons, <- E.
Qed.

(** White space added at the end *)
Lemma first_line_append u b :
  Text.blank b = true ->
  exists b0,
    Text.blank b0 = true
    /\ fst (Str.split Text.newline (u +:+ b))
       = fst (Str.split Text.newline u) +:+ b0.
Proof.
  intros Hb. induction u as [|c u (b0 & Hb0 & E)].
  - rewrite append_nil_l. exists (fst (Str.split Text.newline b)).
    split; [|done]. apply (blank_lines b); [done | by left].
  - rewrite append_cons. cbn [Str.split].
    destruct (Str.split Text.newline (u +:+ b)) as [seg rest].
    destruct (Str.split Text.newline u) as [seg' rest'].
    cbn [fst] in E. subst seg.
    destruct (Ascii.eqb c Text.newline); cbn [fst].
    + by exists EmptyString.
    + exists b0. done.
Qed.

Lemma later_lines_append_sound u b l' :
  Text.blank b = true ->
  In l' (snd (Str.split Text.newline u)) ->
  exists l b0,
    In l (snd (Str.split Text.newline (u +:+ b)))
    /\ Text.blank b0 = true /\ l = l' +:+ b0.
Proof.
  intros Hb. induction u as [|c u IH]; [done|].
  rewrite append_cons. cbn [Str.split].
  destruct (first_line_append u b Hb) as (b1 & Hb1 & E1).
  destruct (Str.split Text.newline (u +:+ b)) as [seg rest].
  destruct (Str.split Text.newline u) as [seg' rest'].
  cbn [fst snd] in *.
  destruct (Ascii.eqb c Text.newline); cbn [snd]; [|done].
  intros [<-|Hl].
  - exists seg, b1. split; [by left | done].
  - destruct (IH Hl) as (l & b0 & Hin & Hb0 & E). exists l, b0.
    split; [by right | done].
Qed.

Lemma later_lines_append_complete u b l :
  Text.blank b = true ->
  In l (snd (Str.split Text.newline (u +:+ b))) ->
  Text.blank l = false ->
  exists l' b0,
    In l' (snd (Str.split Text.newline u))
    /\ Text.blank b0 = true /\ l = l' +:+ b0.
Proof.
  intros Hb. induction u as [|c u IH].
  - rewrite append_nil_l. intros Hl Hn.
    rewrite (blank_lines b l) in Hn; [done | done | by right].
  - rewrite append_cons. cbn [Str.split].
    destruct (first_line_append u b Hb) as (b1 & Hb1 & E1).
    destruct (Str.split Text.newline (u +:+ b)) as [seg rest].
    destruct (Str.split Text.newline u) as [seg' rest'].
    cbn [fst snd] in *.
    destruct (Ascii.eqb c Text.newline); cbn [snd]; [|done].
    intros [<-|Hl] Hn.
    + exists seg', b1. split; [by left | done].
    + destruct (IH Hl Hn) as (l' & b0 & Hin & Hb0 & E). exists l', b0.
      split; [by right | done].
Qed.

(** A line of the trimmed text is a line of the text without white space
    at its ends. *)
Lemma lines_trim_sound t l' :
  In l' (Text.lines (Text.trim t)) ->
  exists l a b,
    In l (Text.lines t) /\ Text.blank a = true /\ Text.blank b = true
    /\ l = a +:+ l' +:+ b.
Proof.
  unfold Text.trim. intros Hl.
  assert (exists l1 b0,
            In l1 (Text.lines (Text.trimStart t))
            /\ Text.blank b0 = true /\ l1 = l' +:+ b0)
    as (l1 & b0 & Hl1 & Hb0 & ->).
  { remember (Text.trimStart t) as ts eqn:Ets. clear Ets.
    destruct (trimEnd_decompose ts) as (b & Hb & E).
    remember (Text.trimEnd ts) as te eqn:Ete. clear Ete. subst ts.
    destruct Hl as [<-|Hl].
    - destruct (first_line_append te b Hb) as (b0 & Hb0 & E0).
      eexists _, b0. split; [left; reflexivity | done].
    - destruct (later_lines_append_sound _ b l' Hb Hl)
        as (l & b0 & Hin & Hb0 & ->).
      eexists _, b0. split; [right; exact Hin | done]. }
  destruct (lines_trimStart_sound t _ Hl1) as (l & a & Hin & Ha & ->).
  eauto 10.
Qed.

(** A line of the text with something other than white space is, without
    white space at its ends, a line of the trimmed text. *)
Lemma lines_trim_complete t l :
  In l (Text.lines t) -> Text.blank l = false ->
  exists l' a b,
    In l' (Text.lines (Text.trim t)) /\ Text.blank a = true
    /\ Text.blank b = true /\ l = a +:+ l' +:+ b.
Proof.
  unfold Text.trim. intros Hl Hn.
  destruct (lines_trimStart_complete t l Hl Hn) as (l1 & a & Hl1 & Ha & ->).
  rewrite blank_append, Ha in Hn. cbn [andb] in Hn.
  remember (Text.trimStart t) as ts eqn:Ets. clear Ets.
  destruct (trimEnd_decompose ts) as (b & Hb & E).
  remember (Text.trimEnd ts) as te eqn:Ete. clear Ete. subst ts.
  destruct Hl1 as [<-|Hl1].
  - destruct (first_line_append te b Hb) as (b0 & Hb0 & E0).
    eexists _, a, b0. split; [left; reflexivity|]. by rewrite E0.
  - destruct (later_lines_append_complete _ b l1 Hb Hl1 Hn)
      as (l' & b0 & Hin & Hb0 & ->).
    eexists _, a, b0. split; [right; exact Hin | done].
Qed.

(** ** The check of the working directory *)

Lemma prefix_empty s : String.prefix EmptyString s = true.
Proof. by destruct s. Qed.

Lemma startsWith_question s :
  Str.startsWith s "?" = true <-> exists r, s = String "?" r.
Proof.
  unfold Str.startsWith. split.
  - destruct s as [|c s]; cbn [String.prefix]; [done|].
    destruct (ascii_dec "?" c) as [<-|]; [eauto | discriminate].
  - intros (r & ->). cbn [String.prefix].
    destruct (ascii_dec "?" "?"); [|done]. apply prefix_empty.
Qed.

Lemma trimStart_blank a x :
  Text.blank a = true -> Text.trimStart (a +:+ x) = Text.trimStart x.
Proof.
  induction a as [|c a IH]; [done|]. cbn [Text.blank]. intros Hb.
  apply andb_true_iff in Hb as [Hc Hb].
  rewrite append_cons. cbn [Text.trimStart]. rewrite Hc. by apply IH.
Qed.

Lemma firstInk_blank s : Text.blank s = true -> Text.firstInk s = None.
Proof.
  intros Hb. unfold Text.firstInk.
  rewrite <- (append_empty_r s), trimStart_blank; done.
Qed.

Lemma append_empty a b : a +:+ b = EmptyString -> a = EmptyString /\ b = EmptyString.
Proof. destruct a; [done|]. by rewrite append_cons. Qed.

(** A trimmed line passes the test when the line it comes from does. *)
Lemma lineAllowed_trimmed a l' b :
  Text.blank a = true ->
  lineAllowed (a +:+ l' +:+ b) = true -> lineAllowed l' = true.
Proof.
  intros Ha Hl. unfold lineAllowed in *. apply orb_true_iff in Hl as [E|Q].
  - apply String.eqb_eq, append_empty in E as (_ & E).
    apply append_empty in E as (-> & _). done.
  - apply startsWith_question in Q as (r & E). destruct a as [|c a].
    + rewrite append_nil_l in E. destruct l' as [|x l']; [done|].
      rewrite append_cons in E. injection E as -> _.
      apply orb_true_iff. right. apply startsWith_question. eauto.
    + rewrite append_cons in E. injection E as -> _. by cbn in Ha.
Qed.

(** A trimmed line fails the test when the first character of the line it
    comes from that is not white space is not a question mark. *)
Lemma lineAllowed_ink a l' b c :
  Text.blank a = true ->
  Text.firstInk (a +:+ l' +:+ b) = Some c -> c <> "?"%char ->
  Text.blank b = true ->
  lineAllowed l' = false.
Proof.
  intros Ha Hi Hc Hb. unfold Text.firstInk in Hi.
  rewrite trimStart_blank in Hi by done.
  destruct (lineAllowed l') eqn:Hl; [|done]. exfalso.
  unfold lineAllowed in Hl. apply orb_true_iff in Hl as [E|Q].
  - apply String.eqb_eq in E. subst l'. rewrite append_nil_l in Hi.
    change (match Text.trimStart b with
            | EmptyString => None
            | String c _ => Some c
            end) with (Text.firstInk b) in Hi.
    by rewrite firstInk_blank in Hi.
  - apply startsWith_question in Q as (r & ->).
    rewrite append_cons in Hi. cbn [Text.trimStart] in Hi.
    change (Text.isWhiteSpace "?") with false in Hi. cbv iota in Hi.
    injection Hi as <-. by apply Hc.
Qed.

Section WorkingDirectory.

Context `{Shell}.

(** X16: Where the status command exits with zero and every line it prints is
    empty or begins with a question mark, as the lines of untracked files
    do, [ensureCleanWorkingDirectory] returns; it has run that one
    command and printed nothing. *)
Theorem untracked_files_are_clean (w : world) :
  exitsNonZero w "git status --porcelain" = false ->
  (forall line,
     In line (Text.lines (stdout "git status --porcelain" w)) ->
     lineAllowed line = true) ->
  ensureCleanWorkingDirectory w
  = (World (files w) (writeRefused w) (exitsNonZero w) (console w)
       (commands w ++ ["git status --porcelain"]),
     Finished (Ret tt)).
Proof.
  intros Ex Hl. unfold ensureCleanWorkingDirectory, execOutput. rewrite Ex.
  assert (forallb lineAllowed
            (Text.lines (Text.trim (stdout "git status --porcelain" w)))
          = true) as ->; [|done].
  apply forallb_forall. intros l' Hl'.
  destruct (lines_trim_sound _ _ Hl') as (l & a & b & Hin & Ha & Hb & ->).
  by apply (lineAllowed_trimmed a l' b Ha), Hl.
Qed.

(** X17: Where the status command exits with zero and on some line it prints
    the first character that is not white space is not a question mark,
    as on the line of a tracked change, [ensureCleanWorkingDirectory]
    prints its message and ends the process with code 1. *)
Theorem tracked_change_exits (w : world) (line : string) (c : ascii) :
  exitsNonZero w "git status --porcelain" = false ->
  In line (Text.lines (stdout "git status --porcelain" w)) ->
  Text.firstInk line = Some c ->
  c <> "?"%char ->
  ensureCleanWorkingDirectory w
  = (World (files w) (writeRefused w) (exitsNonZero w)
       (console w ++ [notCleanMessage])
       (commands w ++ ["git status --porcelain"]),
     Exited 1).
Proof.
  intros Ex Hin Hi Hc. unfold ensureCleanWorkingDirectory, execOutput.
  rewrite Ex.
  assert (forallb lineAllowed
            (Text.lines (Text.trim (stdout "git status --porcelain" w)))
          = false) as ->; [|done].
  assert (Text.blank line = false) as Hn.
  { destruct (Text.blank line) eqn:Hb; [|done].
    rewrite firstInk_blank in Hi; done. }
  destruct (lines_trim_complete _ _ Hin Hn) as (l' & a & b & Hl' & Ha & Hb & ->).
  destruct (forallb _ _) eqn:F; [|done].
  rewrite forallb_forall in F. apply F in Hl'.
  by rewrite (lineAllowed_ink a l' b c) in Hl'.
Qed.

End WorkingDirectory.

(** ** When a release goes through *)

Lemma snd_bind {A B} (m : run A) (k : A -> run B) w b :
  snd (bind m k w) = Ret b
  <-> exists a, snd (m w) = Ret a /\ snd (k a (fst (m w))) = Ret b.
Proof.
  unfold bind. destruct (m w) as [w1 [a|e]]; cbn [fst snd]; split.
  - eauto.
  - by intros (a' & [= <-] & E).
  - done.
  - by intros (a' & E & _).
Qed.

Lemma returns_bind {A B} (m : run A) (k : A -> run B) :
  returns m -> (forall a, returns (k a)) -> returns (bind m k).
Proof.
  intros Hm Hk w. unfold bind. destruct (Hm w) as (a & Ea).
  destruct (m w) as [w1 [a'|e]]; cbn [snd] in *; [apply Hk | done].
Qed.

Lemma returns_forEach {A} (body : A -> run unit) l :
  (forall a, returns (body a)) -> returns (forEach body l).
Proof.
  intros Hb. induction l as [|a l IH]; cbn [forEach].
  - intros w. by exists tt.
  - apply returns_bind; auto.
Qed.

Lemma importMapReady_transfer w w' file :
  files w' !! file = files w !! file ->
  writeRefused w' = writeRefused w ->
  importMapReady w' file <-> importMapReady w file.
Proof. intros F R. unfold importMapReady. by rewrite F, R. Qed.

Lemma updateDenoImportMap_ready importMapPath v w :
  snd (updateDenoImportMap importMapPath v w) = Ret tt
  <-> importMapReady w importMapPath.
Proof.
  unfold importMapReady, updateDenoImportMap, bind, readFile, lift,
    writeFile.
  destruct (files w !! importMapPath) as [[|doc]|] eqn:Ef; cbn [fst snd];
    try (split; [done | by intros (? & ? & ? & _)]).
  destruct (rewriteImportMap v doc) as [out|e] eqn:Er; cbn [fst snd].
  - assert (exists o x, doc = JObj o /\ Obj.get "imports" o = Some x
                        /\ x <> JNull) as (o & x & -> & Ex & Hx).
    { unfold rewriteImportMap in Er.
      destruct doc as [| | | | |o]; cbn in Er; try done.
      destruct (Obj.get "imports" o) as [x|] eqn:Ex; [|done].
      exists o, x. repeat split; try done. by intros ->. }
    destruct (writeRefused w importMapPath) eqn:Ew; cbn [fst snd].
    + split; [done|]. intros (o' & x' & _ & _ & _ & Ew'). congruence.
    + split; [|done]. intros _. exists o, x. auto.
  - split; [done|]. intros (o & x & [= ->] & Ex & Hx & _).
    unfold rewriteImportMap in Er. cbn in Er. rewrite Ex in Er.
    by destruct x.
Qed.

Lemma promiseAll_ready v (paths : list string) w :
  NoDup paths ->
  snd (promiseAll (map (fun p => updateDenoImportMap p v) paths) w) = Ret tt
  <-> forall p, In p paths -> importMapReady w p.
Proof.
  revert w. induction paths as [|p paths IH]; intros w ND; cbn [map promiseAll].
  - cbn. split; [by intros _ ? [] | done].
  - apply NoDup_cons in ND as (Hp & ND).
    pose proof (updateDenoImportMap_ready p v w) as Rp.
    destruct (confined_rewrite p (rewriteImportMap v) w) as (R & F & _).
    fold (updateDenoImportMap p v) in R, F.
    destruct (updateDenoImportMap p v w) as [w' [[]|e]]; cbn [fst snd] in *.
    + rewrite (IH w' ND). split.
      * intros Hq q [<-|Hq']; [by apply Rp|].
        apply (importMapReady_transfer w w'); [|done|by apply Hq].
        apply F. intros [<-|[]]. apply Hp. by apply list_elem_of_In.
      * intros Hq q Hq'.
        apply (importMapReady_transfer w w'); [|done|apply Hq; by right].
        apply F. intros [<-|[]]. apply Hp. by apply list_elem_of_In.
    + split; [done|]. intros Hq.
      assert (Throw e = Ret tt) as E by (apply Rp, Hq; by left). done.
Qed.

Section ReleaseGoesThrough.

Context `{Host}.

Lemma deployment_ready v w :
  snd (updateDeploymentScriptVersion v w) = Ret tt <-> deploymentReady w.
Proof.
  unfold deploymentReady, updateDeploymentScriptVersion, bind, readFile,
    lift, writeFile, console_log.
  destruct (files w !! packageJson "deployment-test" "scripts")
    as [[|json]|] eqn:Ef; cbn [fst snd];
    try (split; [done | by intros (? & ? & ? & _)]).
  destruct (Js.assignIn json "dependencies" "@remix-run/dev" (JStr v))
    as [json'|e] eqn:Ea; cbn [fst snd].
  - destruct (proj1 (assignIn_returns _ _ _ _) (ex_intro _ _ Ea))
      as (o & x & -> & Ex & Hx).
    destruct (writeRefused w _) eqn:Ew; cbn [fst snd].
    + split; [done|]. intros (o' & x' & _ & _ & _ & Ew'). congruence.
    + split; [|done]. intros _. exists o, x. auto.
  - split; [done|]. intros (o & x & [= ->] & Ex & Hx & _).
    destruct (proj2 (assignIn_returns (JObj o) "dependencies"
                       "@remix-run/dev" (JStr v)))
      as (x' & E'); [eauto|congruence].
Qed.

Lemma commitAndTag_ready v w :
  snd (commitAndTag v w) = Ret tt
  <-> exitsNonZero w (commitCommand v) = false
      /\ exitsNonZero w (tagCommand v) = false.
Proof.
  unfold commitAndTag, bind, execSync, console_log.
  destruct (exitsNonZero w (commitCommand v)); cbn [fst snd exitsNonZero];
    [split; [done | by intros [? _]]|].
  destruct (exitsNonZero w (tagCommand v)); cbn [fst snd];
    [split; [done | by intros [_ ?]] | done].
Qed.

(** The release from the import maps on *)
Lemma after_manifests_ready v w :
  NoDup (map (fun importMapPath => path_join [rootDir; importMapPath])
           importMapPaths
         ++ [packageJson "deployment-test" "scripts"]) ->
  snd ((promiseAll
          (map (fun importMapPath =>
                  updateDenoImportMap (path_join [rootDir; importMapPath]) v)
             importMapPaths) ;;
        updateDeploymentScriptVersion v ;;
        commitAndTag v) w) = Ret tt
  <-> releaseReady v w.
Proof.
  intros ND. apply NoDup_app in ND as (NDi & Nid & _).
  set (tasks := map _ importMapPaths).
  assert (tasks
          = map (fun p => updateDenoImportMap p v)
              (map (fun importMapPath => path_join [rootDir; importMapPath])
                 importMapPaths)) as Et by (by rewrite map_map).
  assert (confined
            (map (fun importMapPath => path_join [rootDir; importMapPath])
               importMapPaths) (promiseAll tasks)) as Cp.
  { rewrite Et. apply confined_promiseAll, Forall_map, Forall_forall.
    intros p Hp. apply list_elem_of_In in Hp.
    apply (confined_weaken [p]); [apply confined_rewrite|].
    by intros file [<-|[]]. }
  assert (rewritesOnly (promiseAll tasks)) as Rp.
  { apply rewritesOnly_promiseAll, Forall_map, Forall_forall.
    intros. apply rewritesOnly_updateDenoImportMap. }
  rewrite snd_bind. unfold releaseReady.
  destruct (Cp w) as (R1 & F1 & _). destruct (Rp w) as (_ & _ & X1 & _).
  assert (deploymentReady (fst (promiseAll tasks w)) <-> deploymentReady w)
    as Hd.
  { unfold deploymentReady. rewrite F1, R1; [done|].
    intros Hin. apply (Nid (packageJson "deployment-test" "scripts"));
      [by apply list_elem_of_In | by left]. }
  assert (snd (promiseAll tasks w) = Ret tt
          <-> forall importMapPath,
                In importMapPath importMapPaths ->
                importMapReady w (path_join [rootDir; importMapPath]))
    as Hi.
  { rewrite Et, (promiseAll_ready v _ w NDi). split.
    - intros Hq p Hp. apply Hq.
      by apply (in_map (fun q => path_join [rootDir; q])).
    - intros Hq p Hp. apply in_map_iff in Hp as (q & <- & Hq'). auto. }
  destruct (rewritesOnly_updateDeploymentScriptVersion v
              (fst (promiseAll tasks w))) as (_ & _ & X2 & _).
  split.
  - intros ([] & E1 & E2). apply snd_bind in E2 as ([] & E2 & E3).
    apply commitAndTag_ready in E3. rewrite X2, X1 in E3.
    split; [by apply Hi|]. split; [|done].
    apply (proj1 Hd). exact (proj1 (deployment_ready v _) E2).
  - intros (Hq & Hdep & Hc & Ht). exists tt. split; [by apply Hi|].
    apply snd_bind. exists tt.
    split; [exact (proj2 (deployment_ready v _) (proj2 Hd Hdep))|].
    apply commitAndTag_ready. by rewrite X2, X1.
Qed.

(** X15: Where the files a release writes are different files, the release
    returns exactly when both import maps are objects with an [imports]
    that is not [null], the manifest of the deployment test is an object
    with a [dependencies] that is not [null], none of the three writes is
    refused, and the commit and the tag exit with zero: no package
    manifest can make it fail. *)
Theorem release_returns_exactly (remixVersion : string) (w : world) :
  NoDup releasePaths ->
  snd (incrementRemixVersion remixVersion w) = Ret tt
  <-> releaseReady remixVersion w.
Proof.
  intros ND. rewrite releasePaths_unfold in ND.
  apply NoDup_cons in ND as (N1 & ND).
  apply NoDup_cons in ND as (N2 & ND).
  apply NoDup_app in ND as (_ & N34 & ND4).
  set (S3 := map (fun importMapPath => path_join [rootDir; importMapPath])
               importMapPaths
             ++ [packageJson "deployment-test" "scripts"]) in *.
  set (prefix :=
         updateRemixVersion "remix" remixVersion None ;;
         updateRemixVersion "create-remix" remixVersion None ;;
         forEach (fun name => updateRemixVersion ("remix-" +:+ name)
                                remixVersion None) remixPackages.all).
  assert (returns prefix) as Rp.
  { apply returns_bind; [apply returns_updateRemixVersion|]. intros _.
    apply returns_bind; [apply returns_updateRemixVersion|]. intros _.
    apply returns_forEach. intros. apply returns_updateRemixVersion. }
  assert (rewritesOnly prefix) as Op.
  { apply rewritesOnly_bind; [apply rewritesOnly_updateRemixVersion|].
    intros _.
    apply rewritesOnly_bind; [apply rewritesOnly_updateRemixVersion|].
    intros _. apply rewritesOnly_forEach. intros.
    apply rewritesOnly_updateRemixVersion. }
  assert (confined
            (packageJson "remix" "packages"
             :: packageJson "create-remix" "packages"
             :: map (fun n => packageJson ("remix-" +:+ n) "packages")
                  remixPackages.all) prefix) as Cp.
  { apply confined_bind.
    { eapply confined_weaken; [apply confined_updateRemixVersion|].
      intros file [<-|[]]. by left. }
    intros _. apply confined_bind.
    { eapply confined_weaken; [apply confined_updateRemixVersion|].
      intros file [<-|[]]. right. by left. }
    intros _. eapply confined_weaken; [apply confined_manifests|].
    intros file Hf. right. by right. }
  assert (forall file, In file S3 ->
            files (fst (prefix w)) !! file = files w !! file) as Fp.
  { intros file Hf. destruct (Cp w) as (_ & F & _). apply F.
    intros [<-|[<-|Hin]].
    - apply N1. apply list_elem_of_In. right. apply in_or_app. by right.
    - apply N2. apply list_elem_of_In. apply in_or_app. by right.
    - apply (N34 file); by apply list_elem_of_In. }
  destruct (Cp w) as (Rw & _ & _). destruct (Op w) as (_ & _ & Xw & _).
  assert (releaseReady remixVersion (fst (prefix w))
          <-> releaseReady remixVersion w) as Hr.
  { unfold releaseReady, importMapReady, deploymentReady.
    rewrite Rw, Xw, Fp by (apply in_or_app; right; by left).
    split; intros (Hq & Hrest); (split; [|exact Hrest]);
      intros p Hp; specialize (Hq p Hp);
      [rewrite Fp in Hq | rewrite Fp]; try done;
      apply in_or_app; left;
      by apply (in_map (fun q => path_join [rootDir; q])). }
  rewrite <- Hr, <- (after_manifests_ready remixVersion _ ND4).
  unfold incrementRemixVersion, commitAndTag. fold prefix.
  destruct (Rp w) as ([] & Ea).
  unfold prefix in *. unfold bind in *.
  repeat match goal with
         | |- context [match ?m ?w with _ => _ end] =>
             lazymatch m with
             | promiseAll _ => fail
             | _ => destruct (m w) as [? [[]|?]]; cbn [fst snd] in *
             end
         | _ => done
         end.
Qed.




End ReleaseGoesThrough.

(** ** The further properties at work *)

Lemma version_read_back_witness :
  snd (@getPackageVersion Examples.host "remix"
         (fst (@updateRemixVersion Examples.host "remix" "2.0.0" None
                 (Examples.calm (Examples.onePackage Examples.manifest)))))
  = Ret (Some (JStr "2.0.0")).
Proof.
  eapply (@version_read_back Examples.host "remix" "2.0.0" None
            (Examples.calm (Examples.onePackage Examples.manifest))).
  - vm_compute. reflexivity.
  - vm_compute. reflexivity.
  - reflexivity.
Defined.

Lemma deployment_pin_witness :
  exists o' d',
    snd (@updateDeploymentScriptVersion Examples.host "2.0.0"
           (Examples.calm Examples.complete)) = Ret tt
    /\ files (fst (@updateDeploymentScriptVersion Examples.host "2.0.0"
                     (Examples.calm Examples.complete)))
         !! @packageJson Examples.host "deployment-test" "scripts"
       = Some (Parsed (JObj o'))
    /\ Obj.get "dependencies" o' = Some (JObj d')
    /\ Obj.get "@remix-run/dev" d' = Some (JStr "2.0.0").
Proof.
  destruct (@deployment_pin Examples.host "2.0.0"
              (Examples.calm Examples.complete)
              [("name", JStr "deployment-test");
               ("dependencies", JObj [("@remix-run/dev", JStr "1.0.0")])]
              [("@remix-run/dev", JStr "1.0.0")])
    as (o' & d' & R & F & D & V & _).
  - vm_compute. reflexivity.
  - reflexivity.
  - reflexivity.
  - exists o', d'. auto.
Defined.

Lemma deployment_returns_exactly_witness :
  snd (@updateDeploymentScriptVersion Examples.host "2.0.0"
         (Examples.calm Examples.complete)) = Ret tt.
Proof.
  apply (proj1 (@deployment_returns_exactly Examples.host "2.0.0"
                  (Examples.calm Examples.complete))).
  exists [("name", JStr "deployment-test");
          ("dependencies", JObj [("@remix-run/dev", JStr "1.0.0")])],
    (JObj [("@remix-run/dev", JStr "1.0.0")]).
  split; [vm_compute; reflexivity|]. split; [reflexivity|].
  split; [discriminate | reflexivity].
Defined.

Lemma updateDenoImportMap_returns_exactly_witness :
  snd (updateDenoImportMap "/remix/.vscode/deno_resolve_npm_imports.json"
         "2.0.0" (Examples.calm Examples.complete)) = Ret tt.
Proof.
  apply (proj1 (updateDenoImportMap_returns_exactly
                  "/remix/.vscode/deno_resolve_npm_imports.json" "2.0.0"
                  (Examples.calm Examples.complete))).
  exists Examples.importMapFields, (JObj Examples.imports).
  split; [vm_compute; reflexivity|]. split; [reflexivity|].
  split; [discriminate | reflexivity].
Defined.

Lemma internal_specifiers_rewritten_witness :
  rewriteImport "2.0.0"
    ("@remix-run/deno", JStr "../../packages/remix-deno/index.ts")
  = ("@remix-run/deno", JStr "../../packages/remix-deno/index.ts")
  /\ rewriteImport "2.0.0"
       ("@remix-run/deno/testing", JStr "../../packages/remix-deno/testing.ts")
     = ("@remix-run/deno/testing",
        JStr "https://esm.sh/@remix-run/deno@2.0.0/testing").
Proof.
  assert (In "deno" remixPackages.all) as Hin by (cbn; auto 20).
  destruct (internal_specifiers_rewritten "deno" "2.0.0"
              (JStr "../../packages/remix-deno/index.ts") Hin) as (B & _).
  destruct (internal_specifiers_rewritten "deno" "2.0.0"
              (JStr "../../packages/remix-deno/testing.ts") Hin) as (_ & S).
  split; [exact B | exact (S "testing" eq_refl)].
Defined.

Lemma release_confined_witness :
  files (fst (@beforeCommit Examples.host "2.0.0"
                (Examples.calm Samples.withReadme)))
    !! "/remix/README.md"
  = Some Unparseable.
Proof.
  rewrite (proj1 (proj2 (@release_confined Examples.host "2.0.0"
                           (Examples.calm Samples.withReadme)))).
  - vm_compute. reflexivity.
  - intros Hin. apply includes_In in Hin. vm_compute in Hin. discriminate.
Defined.

Lemma release_paths_differ : NoDup (@releasePaths Examples.host).
Proof. apply (bool_decide_unpack _). vm_compute. reflexivity. Defined.

Lemma release_rewrites_manifest_witness :
  exists config',
    updateRemixVersion_transform "2.0.0" Examples.manifest = Ret config'
    /\ files (fst (@incrementRemixVersion Examples.host "2.0.0"
                     (Examples.calm Samples.withReadme)))
         !! @packageJson Examples.host "remix" "packages"
       = Some (Parsed config').
Proof.
  eexists. split; [vm_compute; reflexivity|].
  eapply (@release_rewrites_manifest Examples.host "2.0.0" "remix"
            (Examples.calm Samples.withReadme)).
  - exact release_paths_differ.
  - by left.
  - vm_compute. reflexivity.
  - reflexivity.
  - vm_compute. reflexivity.
Defined.

Lemma untracked_files_are_clean_witness :
  snd (@ensureCleanWorkingDirectory Samples.untrackedShell
         (Examples.calm Examples.complete))
  = Finished (Ret tt).
Proof.
  rewrite (@untracked_files_are_clean Samples.untrackedShell
             (Examples.calm Examples.complete)).
  - reflexivity.
  - reflexivity.
  - intros line Hin. vm_compute in Hin.
    destruct Hin as [<-|[<-|[]]]; reflexivity.
Defined.

Lemma tracked_change_exits_witness :
  snd (@ensureCleanWorkingDirectory Samples.changedShell
         (Examples.calm Examples.complete))
  = Exited 1.
Proof.
  rewrite (@tracked_change_exits Samples.changedShell
             (Examples.calm Examples.complete) " M package.json" "M"%char).
  - reflexivity.
  - reflexivity.
  - vm_compute. by left.
  - reflexivity.
  - discriminate.
Defined.


(** A commit that exits non-zero ends the release there: the tag is not
    run. *)
Example release_stops_at_failed_commit :
  let w :=
    World Examples.complete (fun _ => false)
      (fun command => String.eqb command (commitCommand "2.0.0")) [] [] in
  snd (@incrementRemixVersion Examples.host "2.0.0" w)
  = Throw (ExecError (commitCommand "2.0.0"))
  /\ commands (fst (@incrementRemixVersion Examples.host "2.0.0" w))
     = [commitCommand "2.0.0"].
Proof. split; vm_compute; reflexivity. Qed.

Lemma release_returns_exactly_witness :
  snd (@incrementRemixVersion Examples.host "2.0.0"
         (Examples.calm Samples.withReadme)) = Ret tt.
Proof.
  apply (proj2 (@release_returns_exactly Examples.host "2.0.0"
                  (Examples.calm Samples.withReadme) release_paths_differ)).
  split; [|split; [|split; reflexivity]].
  - intros p Hp. vm_compute in Hp.
    destruct Hp as [<-|[<-|[]]];
      (exists Examples.importMapFields, (JObj Examples.imports);
       split; [vm_compute; reflexivity|]; split; [reflexivity|];
       split; [discriminate | reflexivity]).
  - exists [("name", JStr "deployment-test");
            ("dependencies", JObj [("@remix-run/dev", JStr "1.0.0")])],
      (JObj [("@remix-run/dev", JStr "1.0.0")]).
    split; [vm_compute; reflexivity|]. split; [reflexivity|].
    split; [discriminate | reflexivity].
Defined.

Lemma updateRemixVersion_skips_falsy_witness :
  @updateRemixVersion Examples.host "remix" "2.0.0" None
    (Examples.calm Samples.nullManifest)
  = (World Samples.nullManifest (fun _ => false) (fun _ => false)
       ["No package.json found for remix; skipping";
        "  Updated remix to version 2.0.0"] [],
     Ret tt).
Proof.
  apply (@updateRemixVersion_skips_falsy Examples.host "remix" "2.0.0" None
           (Examples.calm Samples.nullManifest) JNull).
  - vm_compute. reflexivity.
  - reflexivity.
Defined.
